(** * Resume-Extraction: pagination, slide assembly and table filling

    A shallow embedding of the record extractor of [ppt_renderer.py]
    ([DataFormatter.extract_paper_items], [PPTRenderer._create_papers_table])
    and of the template renderer of [optimized_renderer_v2.py]
    ([OptimizedTemplateRendererV2]) and of the record normaliser of [run.py]
    ([ResumeParser.format_resume]), followed by the properties of the
    page planner, the slide set builder and the table fillers.

    Conventions.
    - A Python [str] is the list of its Unicode code points, so that [len]
      and slicing count characters exactly as Python does.
    - A Python [int] is a [Z]; list positions produced by [enumerate] or
      checked against [len] before use are [nat].
    - A table is the list of its rows, a row the list of its cell texts.
      A slide is its table shapes (what [_find_tables] returns, in shape
      order) together with its text-bearing shapes; the code that restyles
      text frames never reaches a table cell ([GraphicFrame] has no
      [text_frame]) and is taken as a parameter of the renderer.
    - A presentation is the list of its slides ([prs.slides._sldIdLst]);
      the template file is a parameter of the renderer.
    - A call that can raise returns a [Py.result].
    - A [dict] read by key only is a [gmap] from [str]. *)

From Stdlib Require Import ZArith NArith List Lia Bool String Ascii.
From stdpp Require Import base tactics option list gmap.

Local Open Scope Z_scope.

(** ** Python primitives *)

Module Py.

(** A [str]: the sequence of its code points. *)
Abbreviation str := (list N).

(** An ASCII literal as a [str]. *)
Definition lit (s : string) : str :=
  map N_of_ascii (list_ascii_of_string s).

Definition len {A} (l : list A) : Z := Z.of_nat (length l).

(** Truthiness of a sequence: empty is false. *)
Definition truthy {A} (l : list A) : bool :=
  match l with [] => false | _ :: _ => true end.

(** [a or b] on sequences. *)
Definition or_ {A} (a b : list A) : list A := if truthy a then a else b.

(** Normalisation of a slice bound against a sequence of [n] elements. *)
Definition bound (n : nat) (i : Z) : nat :=
  if i <? 0 then Z.to_nat (Z.max 0 (Z.of_nat n + i))
  else Z.to_nat (Z.min i (Z.of_nat n)).

(** [l[a:b]] *)
Definition slice {A} (l : list A) (a b : Z) : list A :=
  let lo := bound (length l) a in
  let hi := bound (length l) b in
  take (hi - lo) (drop lo l).

(** [l[:b]] *)
Definition upto {A} (l : list A) (b : Z) : list A := slice l 0 b.

(** [range(n)] *)
Definition range (n : Z) : list Z := map Z.of_nat (seq 0 (Z.to_nat n)).

(** [enumerate(l)] *)
Definition enumerate {A} (l : list A) : list (nat * A) :=
  zip (seq 0 (length l)) l.

(** [math.ceil(a / b)] for [b > 0].  Python divides in floating point;
    for the list lengths the renderer passes (far below [2^49]) the
    rounded quotient has the same ceiling as the exact one. *)
Definition ceil_div (a b : Z) : Z := - ((- a) / b).

(** [s.replace(old, new)] for one-character [old]. *)
Definition replace1 (old : N) (new : str) (s : str) : str :=
  concat (map (fun c => if N.eqb c old then new else [c]) s).

(** [s.split(sep)] for a one-character separator. *)
Fixpoint split (sep : N) (s : str) : list str :=
  match s with
  | [] => [[]]
  | c :: s' =>
      if N.eqb c sep then [] :: split sep s'
      else match split sep s' with
           | [] => [[c]]
           | w :: ws => (c :: w) :: ws
           end
  end.

(** [str.isspace] on one code point. *)
Definition isspace (c : N) : bool :=
  ((9 <=? c) && (c <=? 13) || (28 <=? c) && (c <=? 32) || (c =? 133)
   || (c =? 160) || (c =? 5760) || (8192 <=? c) && (c <=? 8202)
   || (c =? 8232) || (c =? 8233) || (c =? 8239) || (c =? 8287)
   || (c =? 12288))%N.

Fixpoint lstrip (s : str) : str :=
  match s with
  | [] => []
  | c :: s' => if isspace c then lstrip s' else s
  end.

(** [s.strip()] *)
Definition strip (s : str) : str := rev (lstrip (rev (lstrip s))).

(** [sep.join(parts)] *)
Fixpoint join (sep : str) (parts : list str) : str :=
  match parts with
  | [] => []
  | [p] => p
  | p :: ps => p ++ sep ++ join sep ps
  end.

Fixpoint digits (fuel : nat) (n : N) (acc : str) : str :=
  match fuel with
  | O => acc
  | S fuel' =>
      let acc' := (48 + n mod 10)%N :: acc in
      if (n / 10 =? 0)%N then acc' else digits fuel' (n / 10)%N acc'
  end.

(** [str(z)] for an [int]. *)
Definition str_of_int (z : Z) : str :=
  (if z <? 0 then [45%N] else [])
    ++ digits (S (N.to_nat (N.log2 (Z.abs_N z)))) (Z.abs_N z) [].

(** Exceptions the modelled code raises. *)
Inductive exn : Type := ValueError | IndexError | AttributeError.

Inductive result (A : Type) : Type :=
| Ok (a : A)
| Raise (e : exn).
Arguments Ok {A} a.
Arguments Raise {A} e.

Definition bind {A B} (r : result A) (k : A -> result B) : result B :=
  match r with
  | Ok a => k a
  | Raise e => Raise e
  end.

(** [l[i]] for a literal index [i >= 0]. *)
Definition item {A} (l : list A) (i : nat) : result A :=
  match l !! i with
  | Some x => Ok x
  | None => Raise IndexError
  end.

End Py.

#[global] Instance result_bind : MBind Py.result :=
  fun A B k r => Py.bind r k.

(** ** ppt_renderer.py *)

(** Code points of the non-ASCII literals of the source. *)
Definition ch_comma : N := 44.            (* "," *)
Definition ch_enum_comma : N := 12289.    (* "、" *)
Definition ch_lquote : N := 12298.        (* "《" *)
Definition ch_rquote : N := 12299.        (* "》" *)
Definition s_dash : Py.str := [45%N].     (* "-" *)
Definition s_pending : Py.str := [24453; 30830; 35748]%N.   (* "待确认" *)
Definition s_ellipsis3 : Py.str := [46; 46; 46]%N.          (* "..." *)

(** [class PaperItem]; the constructor stores [category or "-"]. *)
Record PaperItem : Type := mkPaperItem {
  index : Z;
  title : Py.str;
  journal : Py.str;
  category : Py.str;
  year : Py.str;
  is_first_author : Py.str
}.

Definition PaperItem_init (index : Z) (title journal category year
                           is_first_author : Py.str) : PaperItem :=
  mkPaperItem index title journal (Py.or_ category s_dash) year is_first_author.

(** One entry of "发表论文情况".  A key that is absent reads as the default
    of its [.get]: [""] for the strings, [[]] for the title list. *)
Record PaperGroup : Type := mkPaperGroup {
  pg_journal : Py.str;        (* "期刊名称" *)
  pg_category : Py.str;       (* "类别" *)
  pg_years : Py.str;          (* "年份" *)
  pg_years_alt1 : Py.str;     (* "年 份" *)
  pg_years_alt2 : Py.str;     (* " 年份" *)
  pg_titles : list Py.str     (* "论文题目列表" *)
}.

(** [[y.strip() for y in str(years).replace("、", ",").split(",") if y.strip()]] *)
Definition year_list_of (years : Py.str) : list Py.str :=
  List.filter Py.truthy
    (map Py.strip (Py.split ch_comma (Py.replace1 ch_enum_comma [ch_comma] years))).

(** [year_list[i] if i < len(year_list) else (year_list[0] if year_list else "-")] *)
Definition year_for (year_list : list Py.str) (i : nat) : Py.str :=
  match year_list !! i with
  | Some y => y
  | None => match year_list with
            | y0 :: _ => y0
            | [] => s_dash
            end
  end.

(** Body of the inner loop of [extract_paper_items]: one title of a group. *)
Definition extract_title (journal category : Py.str) (year_list : list Py.str)
    (st : list PaperItem * Z) (it : nat * Py.str) : list PaperItem * Z :=
  let '(items, index) := st in
  let '(i, title) := it in
  (items ++ [PaperItem_init index title journal category
               (year_for year_list i) s_pending],
   index + 1).

(** Body of the outer loop of [extract_paper_items]: one group. *)
Definition extract_group (st : list PaperItem * Z) (paper_group : PaperGroup)
    : list PaperItem * Z :=
  let journal :=
    Py.replace1 ch_rquote [] (Py.replace1 ch_lquote [] (pg_journal paper_group)) in
  let category := Py.or_ (pg_category paper_group) s_dash in
  let years :=
    Py.or_ (pg_years paper_group)
      (Py.or_ (pg_years_alt1 paper_group) (pg_years_alt2 paper_group)) in
  let titles := pg_titles paper_group in
  let year_list := year_list_of years in
  foldl (extract_title journal category year_list) st (Py.enumerate titles).

(** [DataFormatter.extract_paper_items] *)
Definition extract_paper_items (papers : list PaperGroup) : list PaperItem :=
  fst (foldl extract_group ([], 1) papers).

(** A table: rows of cell texts.  Row 0 is the header. *)
Abbreviation Row := (list Py.str).
Abbreviation Table := (list Row).

(** [table.cell(r, c).text = text], for a cell the table has. *)
Definition set_cell (r c : nat) (text : Py.str) (t : Table) : Table :=
  alter (fun row => <[c := text]> row) r t.

(** [PPTRenderer.TABLE_COLUMNS], the column names. *)
Definition TABLE_COLUMNS : list Py.str :=
  [ [24207; 21495]; [35770; 25991; 39064; 30446];
    [26399; 21002; 47; 20250; 35758]; [31867; 21035]; [24180; 20221];
    [19968; 20316; 47; 36890; 35759] ]%N.

(** The title and journal cells of the generated table:
    [if len(s) > cap: s = s[:cap - 3] + "..."]. *)
Definition cut_with_dots (cap : Z) (s : Py.str) : Py.str :=
  if cap <? Py.len s then Py.upto s (cap - 3) ++ s_ellipsis3 else s.

(** Body of the data-row loop of [_create_papers_table]. *)
Definition create_papers_row (t : Table) (it : nat * PaperItem) : Table :=
  let '(row_idx, paper) := it in
  let row := (row_idx + 1)%nat in
  set_cell row 5 (is_first_author paper)
    (set_cell row 4 (year paper)
       (set_cell row 3 (category paper)
          (set_cell row 2 (cut_with_dots 40 (journal paper))
             (set_cell row 1 (cut_with_dots 80 (title paper))
                (set_cell row 0 (Py.str_of_int (index paper)) t))))).

(** [PPTRenderer._create_papers_table]: the table the from-scratch renderer
    adds to a slide (cell texts only; heights, widths and colours are not
    modelled). *)
Definition _create_papers_table (papers : list PaperItem) : Table :=
  let rows := (length papers + 1)%nat in
  let cols := length TABLE_COLUMNS in
  let table := replicate rows (replicate cols ([] : Py.str)) in
  let table :=
    foldl (fun t '(i, header) => set_cell 0 i header t) table
      (Py.enumerate TABLE_COLUMNS) in
  foldl create_papers_row table (Py.enumerate papers).

(** ** optimized_renderer_v2.py *)

(** A JSON scalar that the code passes through [str()]. *)
Inductive scalar : Type :=
| SNone
| SInt (z : Z)
| SStr (s : Py.str).

(** [str(v)] *)
Definition str_of_scalar (v : scalar) : Py.str :=
  match v with
  | SNone => Py.lit "None"
  | SInt z => Py.str_of_int z
  | SStr s => s
  end.

(** Truthiness of a scalar. *)
Definition scalar_truthy (v : scalar) : bool :=
  match v with
  | SNone => false
  | SInt z => negb (z =? 0)
  | SStr s => Py.truthy s
  end.

(** One entry of "获批项目情况"; absent keys read as their [.get] default. *)
Record Project : Type := mkProject {
  pj_category : Py.str;       (* "项目类别" *)
  pj_names : list Py.str;     (* "项目名称列表" *)
  pj_count : scalar;          (* "项数" *)
  pj_years : Py.str;          (* "年份" *)
  pj_note : Py.str            (* "备注" *)
}.

(** One entry of "获奖情况". *)
Record Award : Type := mkAward {
  aw_name : Py.str;           (* "奖项名称" *)
  aw_year : scalar            (* "年份" *)
}.

(** One entry of "其他成果". *)
Record OtherItem : Type := mkOtherItem {
  ot_category : Py.str;       (* "类别" *)
  ot_names : list Py.str;     (* "名称列表" *)
  ot_count : scalar;          (* "项数" *)
  ot_year : scalar;           (* "年份" *)
  ot_note : scalar            (* "备注" *)
}.

(** A subject record.  [r_other] is [None] when "其他成果" is absent, null or
    not a list: the renderer reads all three as the empty list.  The keys
    that only feed text frames (sex, age, degree, schools) are left to the
    text-frame parameters of the renderer. *)
Record Resume : Type := mkResume {
  r_name : Py.str;                     (* "姓名" *)
  r_papers : list PaperGroup;          (* "发表论文情况" *)
  r_projects : list Project;           (* "获批项目情况" *)
  r_awards : list Award;               (* "获奖情况" *)
  r_other : option (list OtherItem)    (* "其他成果" *)
}.

(** [resume.get("其他成果") or []], then [[]] unless it is a list. *)
Definition other_of (resume : Resume) : list OtherItem :=
  default [] (r_other resume).

(** A slide: its text-bearing shapes and its tables, each in shape order. *)
Record Slide : Type := mkSlide {
  slide_texts : list Py.str;
  slide_tables : list Table
}.

(** [prs.slides] *)
Abbreviation Deck := (list Slide).

Definition s_one : Py.str := [49%N].                           (* "1" *)
Definition s_xiang : Py.str := [39033%N].                      (* "项" *)
Definition s_one_xiang : Py.str := [49; 39033]%N.              (* "1项" *)
Definition s_awards : Py.str := [33719; 22870; 24773; 20917]%N. (* "获奖情况" *)
Definition s_enum_comma : Py.str := [ch_enum_comma].           (* "、" *)
Definition s_space : Py.str := [32%N].                         (* " " *)

(** [_calculate_paper_pages] *)
Definition _calculate_paper_pages (total_papers : Z) : Z :=
  if total_papers =? 0 then 0
  else if total_papers <=? 8 then 1
  else
    let remaining := total_papers - 8 in
    1 + Py.ceil_div remaining 11.

(** The local [project_pages] of [_calculate_project_pages]. *)
Definition planned_project_pages (projects : list Project) : Z :=
  if Py.truthy projects then Py.ceil_div (Py.len projects) 10 else 1.

(** The local [other_pages] of [_calculate_project_pages]. *)
Definition planned_other_pages (awards : list Award) (other : list OtherItem) : Z :=
  if Py.truthy awards || Py.truthy other then
    let total_rows := Py.len awards + Py.len other in
    if total_rows =? 0 then 1
    else if total_rows <=? 7 then 1
    else
      let remaining := total_rows - 7 in
      1 + Py.ceil_div remaining 7
  else 1.

(** [_calculate_project_pages] *)
Definition _calculate_project_pages (projects : list Project)
    (awards : list Award) (other : list OtherItem) : Z :=
  let project_pages := planned_project_pages projects in
  let other_pages := planned_other_pages awards other in
  let total_pages := project_pages + other_pages in
  total_pages.

(** [for cell in row.cells: cell.text = ""] *)
Definition clear_row (row : Row) : Row := map (fun _ => []) row.

(** [_clear_table_data]; with [keep_header] it is also the first loop of
    each of the three table fillers. *)
Definition _clear_table_data (table : Table) (keep_header : bool) : Table :=
  let start_row := if keep_header then 1%nat else 0%nat in
  take start_row table ++ (clear_row <$> drop start_row table).

(** The row loop shared by the three fillers: the items are written to the
    rows [row_idx], [row_idx + 1], ..., and the loop breaks at the first
    row index that is not below [len(table.rows)].  The result carries the
    row counter the loop stopped at. *)
Fixpoint fill_rows {A} (write : nat -> A -> Row -> Row) (row_idx : nat)
    (items : list A) (table : Table) : Table * nat :=
  match items with
  | [] => (table, row_idx)
  | x :: items' =>
      if Z.of_nat row_idx >=? Py.len table then (table, row_idx)
      else fill_rows write (S row_idx) items'
             (alter (write row_idx x) row_idx table)
  end.

(** [s[:cap] if len(s) > cap else s] *)
Definition hard_cut (cap : Z) (s : Py.str) : Py.str :=
  if cap <? Py.len s then Py.upto s cap else s.

(** The assignments to [row.cells[0..4]] of [_fill_paper_table]. *)
Definition write_paper_row (row_idx : nat) (paper : PaperItem) (row : Row) : Row :=
  if 5 <=? Py.len row then
    <[4%nat :=
        if Py.truthy (category paper) && (20 <? Py.len (category paper))
        then Py.upto (category paper) 20
        else Py.or_ (category paper) []]>
      (<[3%nat := []]>
         (<[2%nat := s_one]>
            (<[1%nat := hard_cut 80 (title paper)]>
               (<[0%nat := hard_cut 60 (journal paper)]> row))))
  else row.

(** [_fill_paper_table] *)
Definition _fill_paper_table (table : Table) (paper_items : list PaperItem) : Table :=
  let table := _clear_table_data table true in
  fst (fill_rows write_paper_row 1 paper_items table).

(** The assignments to [row.cells[0..4]] of [_fill_projects_table]. *)
Definition write_project_row (row_idx : nat) (project : Project) (row : Row) : Row :=
  if 5 <=? Py.len row then
    let names_text := Py.join s_enum_comma (pj_names project) in
    <[4%nat := Py.upto (pj_note project) 50]>
      (<[3%nat := Py.upto (pj_years project) 30]>
         (<[2%nat := str_of_scalar (pj_count project)]>
            (<[1%nat := hard_cut 100 names_text]>
               (<[0%nat := Py.upto (pj_category project) 30]> row))))
  else row.

(** [_fill_projects_table] *)
Definition _fill_projects_table (table : Table) (projects : list Project) : Table :=
  let table := _clear_table_data table true in
  fst (fill_rows write_project_row 1 projects table).

(** The award branch of [_fill_other_achievements_table]: one award row.
    The category label and the total are shown on table row 1 only. *)
Definition write_award_row (n_awards : Z) (current_row : nat) (award : Award)
    (row : Row) : Row :=
  if 4 <=? Py.len row then
    <[3%nat := if scalar_truthy (aw_year award)
               then str_of_scalar (aw_year award) else []]>
      (<[2%nat := if (current_row =? 1)%nat
                  then Py.str_of_int n_awards ++ s_xiang else s_one_xiang]>
         (<[1%nat := hard_cut 80 (aw_name award)]>
            (<[0%nat := if (current_row =? 1)%nat then s_awards else []]> row)))
  else row.

(** The other-achievement branch of [_fill_other_achievements_table]. *)
Definition write_other_row (row_idx : nat) (item : OtherItem) (row : Row) : Row :=
  if 4 <=? Py.len row then
    let names_text := Py.join s_enum_comma (ot_names item) in
    let year_note :=
      str_of_scalar (ot_year item) ++ s_space ++ str_of_scalar (ot_note item) in
    <[3%nat := hard_cut 50 year_note]>
      (<[2%nat := str_of_scalar (ot_count item)]>
         (<[1%nat := hard_cut 80 names_text]>
            (<[0%nat := Py.upto (ot_category item) 20]> row)))
  else row.

(** [_fill_other_achievements_table]; [awards] is [resume.get("获奖情况", [])]
    of the page resume the caller builds.  [show_note] is not read. *)
Definition _fill_other_achievements_table (table : Table)
    (other_list : list OtherItem) (awards : list Award) (show_note : bool) : Table :=
  let table := _clear_table_data table true in
  let '(table, current_row) :=
    fill_rows (write_award_row (Py.len awards)) 1 awards table in
  fst (fill_rows write_other_row current_row other_list table).

(** [tables = self._find_tables(slide)] followed by an update of
    [tables[0]] when there is one. *)
Definition on_first_table (f : Table -> Table) (slide : Slide) : Slide :=
  match slide_tables slide with
  | [] => slide
  | t :: ts => mkSlide (slide_texts slide) (f t :: ts)
  end.

Definition on_texts (f : list Py.str -> list Py.str) (slide : Slide) : Slide :=
  mkSlide (f (slide_texts slide)) (slide_tables slide).

(** [lst.insert(position, x)] for [position >= 0]. *)
Definition list_insert_at {A} (position : Z) (x : A) (l : list A) : list A :=
  take (Z.to_nat position) l ++ x :: drop (Z.to_nat position) l.

(** [prs.part.drop_rel(rId); del prs.slides._sldIdLst[i]] *)
Definition drop_slide (i : nat) (prs : Deck) : Deck := delete i prs.

(** The page capacities of step 5 of [_render_single_resume]. *)
Definition capacities : list Z := [8; 11; 11; 11; 11; 11].

(** The paths [save] has been called with, latest first.  What python-pptx
    writes into the package for a presentation (the names of its slide
    parts among them) is the library's and is not modelled. *)
Abbreviation Files := (list Py.str).

(** The five cell texts [_fill_paper_table] assigns for one paper, in
    column order. *)
Definition paper_cells (paper : PaperItem) : list Py.str :=
  [ hard_cut 60 (journal paper);
    hard_cut 80 (title paper);
    s_one;
    [];
    if Py.truthy (category paper) && (20 <? Py.len (category paper))
    then Py.upto (category paper) 20
    else Py.or_ (category paper) [] ].

(** The name cell (column 1) of an award row and of an other-achievement
    row, as the achievements filler assigns them. *)
Definition award_name_cell (award : Award) : Py.str :=
  hard_cut 80 (aw_name award).

Definition other_name_cell (item : OtherItem) : Py.str :=
  hard_cut 80 (Py.join s_enum_comma (ot_names item)).

(** Column 1 of the rows below the header, top to bottom. *)
Definition name_column (table : Table) : list (option Py.str) :=
  (fun row => row !! 1%nat) <$> drop 1 table.

(** [page_holds filled table items first count]: of the flat list [items],
    the [count] items from position [first] on stand in the rows 1 to
    [count] of [filled], one per row and in order, each as its five cells
    followed by blank cells; every later row of [filled] is blank; the
    header row and the number of rows are those of [table]. *)
Definition page_holds (filled table : Table) (items : list PaperItem)
    (first count : nat) : Prop :=
  (forall i : nat, (i < count)%nat ->
     exists (p : PaperItem) (row : Row),
       items !! (first + i)%nat = Some p
       /\ table !! S i = Some row
       /\ filled !! S i = Some (paper_cells p ++ replicate (length row - 5) []))
  /\ (forall (i : nat) (row : Row),
        (count <= i)%nat -> table !! S i = Some row ->
        filled !! S i = Some (replicate (length row) []))
  /\ filled !! 0%nat = table !! 0%nat
  /\ length filled = length table.

(** The capacity step 5 of [_render_single_resume] reads for paper page
    [k]: [capacities[k] if k < len(capacities) else 11]. *)
Definition page_capacity (k : nat) : Z := default 11 (capacities !! k).

(** The number of items on the paper pages before page [k]. *)
Fixpoint page_start (k : nat) : Z :=
  match k with
  | O => 0
  | S k' => page_start k' + page_capacity k'
  end.

(** The items of paper page [k]: [page_capacity k] items from position
    [page_start k] on, as far as the items last. *)
Definition paper_window (items : list PaperItem) (k : nat) : list PaperItem :=
  take (Z.to_nat (page_capacity k)) (drop (Z.to_nat (page_start k)) items).

(** The local [paper_pages] of [_render_single_resume]. *)
Definition paper_pages_of (resume : Resume) : Z :=
  _calculate_paper_pages (Py.len (extract_paper_items (r_papers resume))).

(** The slides the paper, project and achievements sections of a subject
    take after a render pass. *)
Definition section_pages (resume : Resume) : nat :=
  (Z.to_nat (paper_pages_of resume)
   + Z.to_nat (planned_project_pages (r_projects resume))
   + Z.to_nat (planned_other_pages (r_awards resume) (other_of resume)))%nat.

(** The text caps of a table row, column by column: [Some cap] for a cell
    of at most [cap] characters, [None] for a cell without a cap; a cell
    beyond the listed columns is blank. *)
Definition row_within (caps : list (option Z)) (row : Row) : Prop :=
  forall (c : nat) (cell : Py.str),
    row !! c = Some cell ->
    match caps !! c with
    | Some (Some cap) => Py.len cell <= cap
    | Some None => True
    | None => cell = []
    end.

(** The caps [_fill_paper_table], [_fill_projects_table] and
    [_fill_other_achievements_table] cut their cells to. *)
Definition paper_caps : list (option Z) :=
  [Some 60; Some 80; Some 1; Some 0; Some 20].

Definition project_caps : list (option Z) :=
  [Some 30; Some 100; None; Some 30; Some 50].

Definition achievement_caps : list (option Z) :=
  [Some 20; Some 80; None; None].

(** The six cells [_create_papers_table] writes for one paper. *)
Definition papers_table_row (paper : PaperItem) : Row :=
  [ Py.str_of_int (index paper);
    cut_with_dots 80 (title paper);
    cut_with_dots 40 (journal paper);
    category paper;
    year paper;
    is_first_author paper ].

(** One entry of "就读院校"; absent keys read as their [.get] default. *)
Record School : Type := mkSchool {
  sc_time : Py.str;           (* "时间区间" *)
  sc_school : Py.str;         (* "院校" *)
  sc_major : Py.str;          (* "专业" *)
  sc_degree : Py.str          (* "学位" *)
}.

(** The assignments to [row.cells[0..3]] of [_fill_education_table]. *)
Definition write_school_row (row_idx : nat) (school : School) (row : Row) : Row :=
  if 4 <=? Py.len row then
    <[3%nat := Py.or_ (sc_degree school) []]>
      (<[2%nat := sc_major school]>
         (<[1%nat := sc_school school]>
            (<[0%nat := sc_time school]> row)))
  else row.

(** [_fill_education_table]; [schools] is [resume.get("就读院校", [])].
    There is no clearing loop. *)
Definition _fill_education_table (table : Table) (schools : list School) : Table :=
  fst (fill_rows write_school_row 1 schools table).

(** ** run.py *)

(** The keys [ResumeParser.format_resume] reads and writes. *)
Definition k_name : Py.str := [22995; 21517]%N.                 (* "姓名" *)
Definition k_sex : Py.str := [24615; 21035]%N.                  (* "性别" *)
Definition k_age : Py.str := [24180; 40836]%N.                  (* "年龄" *)
Definition k_age_alt : Py.str := [24180; 32426]%N.              (* "年纪" *)
Definition k_birth : Py.str := [20986; 29983; 26085; 26399]%N.  (* "出生日期" *)
Definition k_degree : Py.str := [26368; 39640; 23398; 21382]%N. (* "最高学历" *)
Definition k_marriage : Py.str := [23130; 37197; 24773; 20917]%N. (* "婚配情况" *)
Definition k_schools : Py.str := [23601; 35835; 38498; 26657]%N.  (* "就读院校" *)
Definition k_papers : Py.str :=
  [21457; 34920; 35770; 25991; 24773; 20917]%N.                 (* "发表论文情况" *)
Definition k_projects : Py.str :=
  [33719; 25209; 39033; 30446; 24773; 20917]%N.                 (* "获批项目情况" *)
Definition k_awards : Py.str := [33719; 22870; 24773; 20917]%N. (* "获奖情况" *)
Definition k_other : Py.str := [20854; 20182; 25104; 26524]%N.  (* "其他成果" *)
Definition k_books : Py.str := [33879; 20316; 24773; 20917]%N.  (* "著作情况" *)

(** [d.get(key, default)] *)
Definition dict_get {V : Type} (d : gmap Py.str V) (key : Py.str) (dflt : V) : V :=
  default dflt (d !! key).

(** [ResumeParser.format_resume].  A record is a [dict] from [str] to JSON
    values of a type [V] with the truthiness [truthy]; [unknown] is the
    value "未知" and [empty_list] the value [[]].  [resume.get("年纪")] is
    [None], which is falsy, when the key is absent. *)
Definition format_resume {V : Type} (truthy : V -> bool) (unknown empty_list : V)
    (resume : gmap Py.str V) : gmap Py.str V :=
  <[k_name := dict_get resume k_name unknown]>
    (<[k_sex := dict_get resume k_sex unknown]>
    (<[k_age := match resume !! k_age_alt with
                | Some v => if truthy v then v
                            else dict_get resume k_age unknown
                | None => dict_get resume k_age unknown
                end]>
    (<[k_birth := dict_get resume k_birth unknown]>
    (<[k_degree := dict_get resume k_degree unknown]>
    (<[k_marriage := dict_get resume k_marriage unknown]>
    (<[k_schools := dict_get resume k_schools empty_list]>
    (<[k_papers := dict_get resume k_papers empty_list]>
    (<[k_projects := dict_get resume k_projects empty_list]>
    (<[k_awards := dict_get resume k_awards empty_list]>
    (<[k_other := dict_get resume k_other empty_list]>
    (<[k_books := dict_get resume k_books empty_list]> ∅))))))))))).

(** The keys of a formatted record. *)
Definition formatted_keys : list Py.str :=
  [ k_name; k_sex; k_age; k_birth; k_degree; k_marriage; k_schools; k_papers;
    k_projects; k_awards; k_other; k_books ].


(** ** Sample inputs *)


(** A group with two year tokens and three titles. *)
Definition group_two_years_three_titles : PaperGroup :=
  mkPaperGroup (Py.lit "J") (Py.lit "SCI") (Py.lit "2020,2021") [] []
    [Py.lit "a"; Py.lit "b"; Py.lit "c"].

(** A paper whose title is 81 times the letter A. *)
Definition paper_title_81 : PaperItem :=
  PaperItem_init 1 (replicate 81 65%N) (Py.lit "J") (Py.lit "SCI")
    (Py.lit "2020") s_pending.

(** A table of [rows] rows of [cols] cells, every cell holding "x". *)
Definition table_of (rows cols : nat) : Table :=
  replicate rows (replicate cols (Py.lit "x")).

(** Slides without and with a table. *)
Definition plain_slide : Slide := mkSlide [Py.lit "name"] [].

Definition table_slide (rows cols : nat) : Slide :=
  mkSlide [Py.lit "name"] [table_of rows cols].

(** A template in the order of the real one: cover, summary, basic
    information, two paper slides (8 and 11 rows below the header), the
    project slide, the achievements slide, the closing slide. *)
Definition sample_template : Deck :=
  [ plain_slide; plain_slide; plain_slide; table_slide 9 5; table_slide 12 5;
    table_slide 11 5; table_slide 8 4; plain_slide ].

(** A subject with one group of 25 titles and nothing else. *)
Definition resume_25_papers : Resume :=
  mkResume (Py.lit "N")
    [ mkPaperGroup (Py.lit "J") (Py.lit "SCI") (Py.lit "2020") [] []
        (replicate 25 (Py.lit "t")) ]
    [] [] None.

(** A subject with the awards A1, A2 and the other achievements O1, O2, O3. *)
Definition resume_awards_other : Resume :=
  mkResume (Py.lit "N") [] []
    [ mkAward (Py.lit "A1") (SInt 2019); mkAward (Py.lit "A2") SNone ]
    (Some [ mkOtherItem (Py.lit "patent") [Py.lit "O1"] (SInt 1) (SInt 2020) (SStr []);
            mkOtherItem (Py.lit "patent") [Py.lit "O2"] (SInt 1) (SInt 2021) (SStr []);
            mkOtherItem (Py.lit "book") [Py.lit "O3"] (SInt 1) (SInt 2022) (SStr []) ]).

(** Three papers with short titles. *)
Definition three_papers : list PaperItem :=
  [ PaperItem_init 1 (Py.lit "p1") (Py.lit "J") (Py.lit "SCI") (Py.lit "2020") s_pending;
    PaperItem_init 2 (Py.lit "p2") (Py.lit "J") (Py.lit "SCI") (Py.lit "2021") s_pending;
    PaperItem_init 3 (Py.lit "p3") (Py.lit "J") (Py.lit "SCI") (Py.lit "2022") s_pending ].

(** The text-frame code left out: every text shape stays as it is. *)
Definition keep_texts : list Py.str -> list Py.str := fun texts => texts.

Section Renderer.

(** [Presentation(self.template_path)] *)
Variable template : Deck.

(** The text-frame code, on the text-bearing shapes of one slide. *)
Variable cover_texts : Z -> list Py.str -> list Py.str.
Variable basic_info_texts : Resume -> list Py.str -> list Py.str.
Variable paper_slide_texts : Resume -> Z -> Z -> list Py.str -> list Py.str.
Variable project_slide_texts : Resume -> list Py.str -> list Py.str.
Variable remove_note_texts : list Py.str -> list Py.str.
Variable talent_office_texts : Resume -> list Py.str -> list Py.str.

(** The placeholders that slide layout 0 of the template gives to a slide
    added with [add_slide]; they are text-bearing shapes. *)
Variable layout_texts : list Py.str.

(** The name of the output file, from the number of subjects. *)
Variable output_path : Z -> Py.str.

(** The slide [_copy_slide_to_presentation] builds: the placeholders of
    the layout, then a deep copy of every shape of the source. *)
Definition copied_slide (source_slide : Slide) : Slide :=
  mkSlide (layout_texts ++ slide_texts source_slide) (slide_tables source_slide).

(** [_copy_slide_to_presentation]: the new slide goes to the end of the
    target. *)
Definition _copy_slide_to_presentation (target_prs : Deck)
    (source_slide : Slide) : Deck :=
  target_prs ++ [copied_slide source_slide].

(** [_insert_slide_at_position]: append the copy, then move the last entry
    of the slide list to [position]. *)
Definition _insert_slide_at_position (target_prs : Deck) (source_slide : Slide)
    (position : Z) : Deck :=
  let prs := _copy_slide_to_presentation target_prs source_slide in
  match last prs with
  | Some new_slide_element =>
      list_insert_at position new_slide_element (take (length prs - 1) prs)
  | None => prs
  end.

(** [_update_cover_page] *)
Definition _update_cover_page (prs : Deck) (total_resumes : Z) : Deck :=
  if 0 <? Py.len prs then alter (on_texts (cover_texts total_resumes)) 0%nat prs
  else prs.

(** [_fill_basic_info_slide] *)
Definition _fill_basic_info_slide (resume : Resume) (slide : Slide) : Slide :=
  let slide := on_texts (basic_info_texts resume) slide in
  on_first_table (fun t => _clear_table_data t true) slide.

(** [_fill_paper_slide] *)
Definition _fill_paper_slide (resume : Resume) (paper_items : list PaperItem)
    (current_page total_pages : Z) (slide : Slide) : Slide :=
  let slide :=
    on_texts (paper_slide_texts resume current_page total_pages) slide in
  on_first_table (fun table => _fill_paper_table table paper_items) slide.

(** The achievements branch of [_fill_project_slide_paginated], on
    [tables[0]]. *)
Definition fill_achievements_page (awards : list Award) (other : list OtherItem)
    (other_page_num : Z) (table : Table) : Table :=
  let total_awards := Py.len awards in
  let total_other := Py.len other in
  let total_items := total_awards + total_other in
  let start_idx := other_page_num * 7 in
  let end_idx := Z.min (start_idx + 7) total_items in
  if start_idx <? total_awards then
    let awards_on_page := Py.slice awards start_idx (Z.min end_idx total_awards) in
    let remaining_space := 7 - Py.len awards_on_page in
    let other_on_page :=
      if (0 <? remaining_space) && (total_awards <? end_idx) then
        let other_start := Z.max 0 (start_idx - total_awards) in
        let other_end := end_idx - total_awards in
        Py.slice other other_start other_end
      else [] in
    _fill_other_achievements_table table other_on_page awards_on_page
      (other_page_num =? 0)
  else
    let other_start := start_idx - total_awards in
    let other_end := end_idx - total_awards in
    let other_on_page := Py.slice other other_start other_end in
    _fill_other_achievements_table table other_on_page [] false.

(** [_fill_project_slide_paginated] *)
Definition _fill_project_slide_paginated (resume : Resume)
    (page_num total_pages project_pages_count : Z) (slide : Slide) : Slide :=
  let slide := on_texts (project_slide_texts resume) slide in
  let projects := r_projects resume in
  let awards := r_awards resume in
  let other := other_of resume in
  let is_project_page := page_num <? project_pages_count in
  if is_project_page then
    let project_capacity := 10 in
    let start_idx := page_num * project_capacity in
    let end_idx := Z.min (start_idx + project_capacity) (Py.len projects) in
    let page_projects := Py.slice projects start_idx end_idx in
    on_first_table (fun table => _fill_projects_table table page_projects) slide
  else
    let other_page_num := page_num - project_pages_count in
    match slide_tables slide with
    | [] => slide
    | _ :: _ =>
        let slide :=
          on_first_table (fill_achievements_page awards other other_page_num)
            slide in
        if 0 <? other_page_num then on_texts remove_note_texts slide else slide
    end.

(** [_fill_talent_office_slide] *)
Definition _fill_talent_office_slide (resume : Resume) (slide : Slide) : Slide :=
  on_texts (talent_office_texts resume) slide.

(** The insertion loops of [_render_single_resume]: [count] copies of
    template slide [src], the first at [position], each next one a
    position later. *)
Fixpoint insert_template_copies (src : nat) (count : nat) (position : Z)
    (prs : Deck) : Py.result Deck :=
  match count with
  | O => Py.Ok prs
  | S count' =>
      source_slide ← Py.item template src;
      insert_template_copies src count' (position + 1)
        (_insert_slide_at_position prs source_slide position)
  end.

(** Step 4 of [_render_single_resume]: the template ships two paper
    slides, at positions 3 and 4. *)
Definition reconcile_paper_slides (prs : Deck) (paper_pages : Z)
    : Py.result Deck :=
  if paper_pages =? 0 then
    let prs := if 4 <? Py.len prs then drop_slide 4 prs else prs in
    let prs := if 3 <? Py.len prs then drop_slide 3 prs else prs in
    Py.Ok prs
  else if paper_pages =? 1 then
    Py.Ok (if 4 <? Py.len prs then drop_slide 4 prs else prs)
  else if 2 <? paper_pages then
    let extra_paper_pages := paper_pages - 2 in
    let insert_position := 5 in
    insert_template_copies 4 (Z.to_nat extra_paper_pages) insert_position prs
  else Py.Ok prs.

(** Body of the loop of step 5. *)
Definition fill_paper_page (resume : Resume) (paper_items : list PaperItem)
    (paper_pages : Z) (st : Deck * Z) (page_num : Z) : Deck * Z :=
  let '(prs, paper_offset) := st in
  let slide_idx := 3 + page_num in
  if slide_idx <? Py.len prs then
    let capacity := default 11 (capacities !! Z.to_nat page_num) in
    let end_ := Z.min (paper_offset + capacity) (Py.len paper_items) in
    let page_papers := Py.slice paper_items paper_offset end_ in
    (alter (_fill_paper_slide resume page_papers (page_num + 1) paper_pages)
       (Z.to_nat slide_idx) prs,
     end_)
  else (prs, paper_offset).

(** Step 5 of [_render_single_resume]. *)
Definition fill_paper_slides (prs : Deck) (resume : Resume)
    (paper_items : list PaperItem) (paper_pages : Z) : Deck :=
  if 0 <? paper_pages then
    fst (foldl (fill_paper_page resume paper_items paper_pages) (prs, 0)
           (Py.range paper_pages))
  else prs.

(** The local [project_pages_count] of step 6. *)
Definition project_pages_count_of (resume : Resume) : Z :=
  let project_count := Py.len (r_projects resume) in
  if 0 <? project_count then Py.ceil_div project_count 10 else 1.

(** The local [other_pages_count] of step 6. *)
Definition other_pages_count_of (resume : Resume) : Z :=
  let project_pages :=
    _calculate_project_pages (r_projects resume) (r_awards resume)
      (other_of resume) in
  project_pages - project_pages_count_of resume.

(** Step 6.1 of [_render_single_resume]. *)
Definition reconcile_project_slides (prs : Deck)
    (paper_pages project_pages_count : Z) : Py.result Deck :=
  if 1 <? project_pages_count then
    let extra_project_pages := project_pages_count - 1 in
    let project_insert_position := 3 + paper_pages + 1 in
    insert_template_copies 5 (Z.to_nat extra_project_pages)
      project_insert_position prs
  else Py.Ok prs.

(** Step 6.2 of [_render_single_resume].  The class defines no
    [_delete_slide], so the call in the last branch is an attribute
    error. *)
Definition reconcile_other_slides (prs : Deck)
    (paper_pages project_pages_count other_pages_count : Z) : Py.result Deck :=
  if 1 <? other_pages_count then
    let extra_other_pages := other_pages_count - 1 in
    let other_insert_position := 3 + paper_pages + project_pages_count + 1 in
    insert_template_copies 6 (Z.to_nat extra_other_pages)
      other_insert_position prs
  else if other_pages_count =? 0 then
    let other_template_idx := 3 + paper_pages + project_pages_count in
    if other_template_idx <? Py.len prs then Py.Raise Py.AttributeError
    else Py.Ok prs
  else Py.Ok prs.

(** Body of the loop of step 7. *)
Definition fill_project_page (resume : Resume)
    (first_project_idx project_pages project_pages_count : Z)
    (prs : Deck) (page_num : Z) : Deck :=
  let project_slide_idx := first_project_idx + page_num in
  if project_slide_idx <? Py.len prs then
    alter (_fill_project_slide_paginated resume page_num project_pages
             project_pages_count)
      (Z.to_nat project_slide_idx) prs
  else prs.

(** [_render_single_resume] *)
Definition _render_single_resume (prs : Deck) (resume : Resume)
    : Py.result Deck :=
  let paper_items := extract_paper_items (r_papers resume) in
  let paper_pages := _calculate_paper_pages (Py.len paper_items) in
  let projects := r_projects resume in
  let awards := r_awards resume in
  let other := other_of resume in
  let project_pages := _calculate_project_pages projects awards other in
  let prs :=
    if 2 <? Py.len prs then alter (_fill_basic_info_slide resume) 2%nat prs
    else prs in
  prs ← reconcile_paper_slides prs paper_pages;
  let prs := fill_paper_slides prs resume paper_items paper_pages in
  let project_pages_count := project_pages_count_of resume in
  let other_pages_count := project_pages - project_pages_count in
  prs ← reconcile_project_slides prs paper_pages project_pages_count;
  prs ← reconcile_other_slides prs paper_pages project_pages_count
          other_pages_count;
  let first_project_idx := 3 + paper_pages in
  let prs :=
    foldl (fill_project_page resume first_project_idx project_pages
             project_pages_count)
      prs (Py.range project_pages) in
  let talent_office_idx := first_project_idx + project_pages in
  let prs :=
    if talent_office_idx <? Py.len prs
    then alter (_fill_talent_office_slide resume) (Z.to_nat talent_office_idx) prs
    else prs in
  Py.Ok prs.

(** The slides of a rendered copy that [render_all] merges. *)
Definition slides_to_copy (temp_prs : Deck) : list Slide :=
  Py.slice temp_prs 2 (Z.min 7 (Py.len temp_prs))
    ++ (if 7 <? Py.len temp_prs then Py.slice temp_prs 7 (Py.len temp_prs)
        else []).

(** Body of the loop of [render_all] over [resumes[1:]]. *)
Definition render_next (final_prs : Deck) (resume : Resume) : Py.result Deck :=
  let temp_prs := template in
  temp_prs ← _render_single_resume temp_prs resume;
  Py.Ok (foldl _copy_slide_to_presentation final_prs (slides_to_copy temp_prs)).

Fixpoint render_rest (final_prs : Deck) (resumes : list Resume)
    : Py.result Deck :=
  match resumes with
  | [] => Py.Ok final_prs
  | resume :: resumes' =>
      final_prs ← render_next final_prs resume;
      render_rest final_prs resumes'
  end.

(** The slide list of [final_prs] at the point where [render_all] calls
    [final_prs.save], or the exception raised before that point. *)
Definition final_slides (resumes : list Resume) : Py.result Deck :=
  match resumes with
  | [] => Py.Raise Py.ValueError
  | first :: rest =>
      let final_prs := template in
      let final_prs := _update_cover_page final_prs (Py.len resumes) in
      final_prs ← _render_single_resume final_prs first;
      render_rest final_prs rest
  end.

(** [render_all]: the paths [save] has been called with after the call,
    and the returned path or the raised exception. *)
Definition render_all (files : Files) (resumes : list Resume)
    : Files * Py.result Py.str :=
  match final_slides resumes with
  | Py.Ok final_prs =>
      let path := output_path (Py.len resumes) in
      (path :: files, Py.Ok path)
  | Py.Raise e => (files, Py.Raise e)
  end.

(** ** Properties *)

(** *** Python primitives *)

Lemma ceil_div_bounds (a b : Z) :
  0 < b -> b * (Py.ceil_div a b - 1) < a <= b * Py.ceil_div a b.
Proof.
  intros Hb. unfold Py.ceil_div.
  pose proof (Z.div_mod (- a) b) as Hdm.
  pose proof (Z.mod_pos_bound (- a) b Hb) as Hm.
  nia.
Qed.

Lemma ceil_div_unique (a b q : Z) :
  0 < b -> b * (q - 1) < a <= b * q -> Py.ceil_div a b = q.
Proof.
  intros Hb Hq. pose proof (ceil_div_bounds a b Hb) as Hc. nia.
Qed.

Lemma ceil_div_pos (a b : Z) : 0 < b -> 0 < a -> 1 <= Py.ceil_div a b.
Proof.
  intros Hb Ha. pose proof (ceil_div_bounds a b Hb) as Hc. nia.
Qed.

Lemma len_nonneg {A} (l : list A) : 0 <= Py.len l.
Proof. unfold Py.len. lia. Qed.

Lemma truthy_len {A} (l : list A) : Py.truthy l = (0 <? Py.len l).
Proof. destruct l; reflexivity. Qed.

Lemma bound_nonneg (n : nat) (i : Z) :
  0 <= i -> Py.bound n i = Nat.min (Z.to_nat i) n.
Proof.
  intros Hi. unfold Py.bound.
  destruct (Z.ltb_spec i 0); lia.
Qed.

Lemma slice_nonneg {A} (l : list A) (a b : Z) :
  0 <= a -> 0 <= b ->
  Py.slice l a b = take (Z.to_nat b - Z.to_nat a) (drop (Z.to_nat a) l).
Proof.
  intros Ha Hb. unfold Py.slice.
  rewrite !bound_nonneg by assumption.
  destruct (Nat.le_gt_cases (length l) (Z.to_nat a)) as [Hge | Hlt].
  - rewrite (Nat.min_r (Z.to_nat a)) by assumption.
    rewrite !drop_ge by lia. by rewrite !take_nil.
  - rewrite (Nat.min_l (Z.to_nat a)) by lia.
    destruct (Nat.le_gt_cases (length l) (Z.to_nat b)) as [Hbge | Hblt].
    + rewrite (Nat.min_r (Z.to_nat b)) by assumption.
      rewrite !take_ge; [done | rewrite length_drop; lia ..].
    + by rewrite Nat.min_l by lia.
Qed.

Lemma upto_take (s : Py.str) (n : Z) : 0 <= n -> Py.upto s n = take (Z.to_nat n) s.
Proof.
  intros Hn. unfold Py.upto. rewrite slice_nonneg by lia.
  by rewrite Nat.sub_0_r.
Qed.

(** *** Page planner *)

(** C3: under the schedule [8, 11, 11, ...] the paper planner maps the item
    counts 0, 1, 8, 9, 19, 30 to 0, 1, 1, 2, 2, 3 pages; it returns 0 for
    no item, 1 for one to eight items, and beyond eight items one page
    plus the ceiling of [(n - 8) / 11]. *)
Theorem paper_pages_schedule :
  map _calculate_paper_pages [0; 1; 8; 9; 19; 30] = [0; 1; 1; 2; 2; 3]
  /\ _calculate_paper_pages 0 = 0
  /\ (forall n, 1 <= n <= 8 -> _calculate_paper_pages n = 1)
  /\ (forall n, 8 < n ->
        exists q, _calculate_paper_pages n = 1 + q
                  /\ 11 * (q - 1) < n - 8 <= 11 * q).
Proof.
  split; [reflexivity |]. split; [reflexivity |]. split.
  - intros n Hn. unfold _calculate_paper_pages.
    destruct (Z.eqb_spec n 0); [lia |].
    destruct (Z.leb_spec n 8); [done | lia].
  - intros n Hn. unfold _calculate_paper_pages.
    destruct (Z.eqb_spec n 0); [lia |].
    destruct (Z.leb_spec n 8); [lia |].
    exists (Py.ceil_div (n - 8) 11). split; [done |].
    apply ceil_div_bounds. lia.
Qed.

Lemma planned_project_pages_pos (projects : list Project) :
  1 <= planned_project_pages projects.
Proof.
  unfold planned_project_pages. destruct projects as [| p projects]; [done |].
  cbn [Py.truthy]. apply ceil_div_pos; [lia |].
  unfold Py.len. cbn [length]. lia.
Qed.

Lemma planned_other_pages_pos (awards : list Award) (other : list OtherItem) :
  1 <= planned_other_pages awards other.
Proof.
  unfold planned_other_pages.
  destruct (Py.truthy awards || Py.truthy other); [| done].
  cbv zeta. destruct (_ =? 0); [done |].
  destruct (Z.leb_spec (Py.len awards + Py.len other) 7); [done |].
  pose proof (ceil_div_pos (Py.len awards + Py.len other - 7) 7). lia.
Qed.

(** C8: the planner counts at least one page for the project section and
    at least one for the merged awards and other-achievements section,
    empty lists included, so the total it returns is at least 2. *)
Theorem project_plan_at_least_two (projects : list Project)
    (awards : list Award) (other : list OtherItem) :
  1 <= planned_project_pages projects
  /\ 1 <= planned_other_pages awards other
  /\ planned_project_pages [] = 1
  /\ planned_other_pages [] [] = 1
  /\ _calculate_project_pages projects awards other
      = planned_project_pages projects + planned_other_pages awards other
  /\ 2 <= _calculate_project_pages projects awards other.
Proof.
  pose proof (planned_project_pages_pos projects).
  pose proof (planned_other_pages_pos awards other).
  unfold _calculate_project_pages. repeat split; (done || lia).
Qed.

Lemma project_pages_count_agrees (resume : Resume) :
  project_pages_count_of resume = planned_project_pages (r_projects resume).
Proof.
  unfold project_pages_count_of, planned_project_pages.
  by rewrite truthy_len.
Qed.

Lemma other_pages_count_planned (resume : Resume) :
  other_pages_count_of resume
  = planned_other_pages (r_awards resume) (other_of resume).
Proof.
  unfold other_pages_count_of, _calculate_project_pages.
  rewrite project_pages_count_agrees. lia.
Qed.

(** C9: in [_render_single_resume] the achievements page count, the
    planned total minus the project page count, is at least 1 for every
    subject, so step 6.2 never takes the branch for a count of 0, the one
    that would delete the template's achievements slide. *)
Theorem achievements_pages_never_zero (resume : Resume) :
  1 <= other_pages_count_of resume
  /\ (other_pages_count_of resume =? 0) = false
  /\ forall (prs : Deck) (paper_pages : Z),
       reconcile_other_slides prs paper_pages (project_pages_count_of resume)
         (other_pages_count_of resume)
       = if 1 <? other_pages_count_of resume
         then insert_template_copies 6
                (Z.to_nat (other_pages_count_of resume - 1))
                (3 + paper_pages + project_pages_count_of resume + 1) prs
         else Py.Ok prs.
Proof.
  assert (1 <= other_pages_count_of resume) as Hpos.
  { rewrite other_pages_count_planned. apply planned_other_pages_pos. }
  assert ((other_pages_count_of resume =? 0) = false) as Hz by lia.
  repeat split; [done .. |].
  intros prs paper_pages. unfold reconcile_other_slides.
  by rewrite Hz.
Qed.

(** C10: [render_all] on an empty subject list raises [ValueError] before
    anything is rendered, and saves no file. *)
Theorem render_all_empty (files : Files) :
  render_all files [] = (files, Py.Raise Py.ValueError).
Proof. reflexivity. Qed.

(** *** Record extractor *)

(** The inner loop, started at position [k] of a group, appends one item
    per title and advances the running index by one per item. *)
Lemma extract_title_fold (journal category : Py.str) (year_list : list Py.str)
    (titles : list Py.str) :
  forall (k : nat) (items : list PaperItem) (index : Z),
    foldl (extract_title journal category year_list) (items, index)
      (zip (seq k (length titles)) titles)
    = (items ++ imap (fun i t =>
                        PaperItem_init (index + Z.of_nat i) t journal category
                          (year_for year_list (k + i)) s_pending) titles,
       index + Py.len titles).
Proof.
  induction titles as [| t titles IH]; intros k items index.
  - cbn. rewrite app_nil_r. f_equal. unfold Py.len. cbn. lia.
  - cbn [length seq zip zip_with foldl extract_title].
    rewrite IH. rewrite <- app_assoc. cbn [app].
    rewrite imap_cons. f_equal.
    + f_equal. f_equal.
      * by rewrite Z.add_0_r, Nat.add_0_r.
      * apply imap_ext. intros i x _. cbn.
        replace (index + 1 + Z.of_nat i) with (index + Z.of_nat (S i)) by lia.
        by replace (S (k + i)) with (k + S i)%nat by lia.
    + unfold Py.len. cbn [length]. lia.
Qed.

(** The items one group contributes when the running index is [index]. *)
Lemma extract_group_spec (items : list PaperItem) (index : Z) (g : PaperGroup) :
  extract_group (items, index) g
  = (items ++ imap (fun i t =>
                      PaperItem_init (index + Z.of_nat i) t
                        (Py.replace1 ch_rquote []
                           (Py.replace1 ch_lquote [] (pg_journal g)))
                        (Py.or_ (pg_category g) s_dash)
                        (year_for
                           (year_list_of
                              (Py.or_ (pg_years g)
                                 (Py.or_ (pg_years_alt1 g) (pg_years_alt2 g))))
                           i)
                        s_pending) (pg_titles g),
     index + Py.len (pg_titles g)).
Proof.
  unfold extract_group, Py.enumerate. by rewrite extract_title_fold.
Qed.

Lemma extract_groups_titles (papers : list PaperGroup) :
  forall (items : list PaperItem) (index : Z),
    title <$> (foldl extract_group (items, index) papers).1
    = (title <$> items) ++ concat (pg_titles <$> papers).
Proof.
  induction papers as [| g papers IH]; intros items index.
  - cbn. by rewrite app_nil_r.
  - cbn [foldl]. rewrite extract_group_spec, IH.
    rewrite fmap_app, fmap_imap, <- app_assoc. cbn.
    f_equal. f_equal.
    rewrite <- (list_fmap_id (pg_titles g)) at 2.
    by rewrite <- imap_const.
Qed.

Lemma extract_groups_index (papers : list PaperGroup) :
  forall (items : list PaperItem) (start : Z),
    index <$> (foldl extract_group (items, start) papers).1
    = (index <$> items)
        ++ ((fun i => start + Z.of_nat i)
              <$> seq 0 (length (concat (pg_titles <$> papers)))).
Proof.
  induction papers as [| g papers IH]; intros items start.
  - cbn. by rewrite app_nil_r.
  - cbn [foldl]. rewrite extract_group_spec, IH.
    rewrite fmap_app, fmap_imap, <- app_assoc. f_equal.
    cbn [fmap list_fmap concat]. rewrite length_app, seq_app, fmap_app.
    f_equal.
    + rewrite <- imap_seq_0. by apply imap_ext.
    + cbn [Nat.add].
      replace (seq (length (pg_titles g)))
        with (seq (length (pg_titles g) + 0)) by (f_equal; lia).
      rewrite <- fmap_add_seq, <- list_fmap_compose. apply list_fmap_ext.
      intros i x _. cbn. unfold Py.len. lia.
Qed.

Lemma length_concat_sum {A} (ls : list (list A)) :
  length (concat ls) = sum_list (length <$> ls).
Proof.
  induction ls as [| l ls IH]; [done |].
  cbn. rewrite length_app. by rewrite IH.
Qed.

(** C4: the extractor emits one flat item per sub-title, in group order
    and then in sub-title order; the indices are 1, 2, 3, ... across the
    whole output, and the output is as long as the title lists together. *)
Theorem flatten_preserves_order (papers : list PaperGroup) :
  title <$> extract_paper_items papers = concat (pg_titles <$> papers)
  /\ index <$> extract_paper_items papers
     = Z.of_nat <$> seq 1 (length (extract_paper_items papers))
  /\ length (extract_paper_items papers)
     = sum_list ((fun g => length (pg_titles g)) <$> papers)
  /\ (forall (i : nat) (a b : PaperItem),
        extract_paper_items papers !! i = Some a ->
        extract_paper_items papers !! S i = Some b ->
        index b = index a + 1).
Proof.
  pose proof (extract_groups_titles papers [] 1) as Ht.
  pose proof (extract_groups_index papers [] 1) as Hi.
  fold (extract_paper_items papers) in Ht, Hi. cbn [fmap list_fmap app] in Ht, Hi.
  assert (length (extract_paper_items papers)
          = length (concat (pg_titles <$> papers))) as Hlen.
  { by rewrite <- Ht, length_fmap. }
  assert (index <$> extract_paper_items papers
          = Z.of_nat <$> seq 1 (length (extract_paper_items papers))) as Hidx.
  { rewrite Hi, Hlen, <- (fmap_add_seq 1 0), <- list_fmap_compose.
    apply list_fmap_ext. intros i x _. cbn. lia. }
  split; [done |]. split; [done |]. split.
  - rewrite Hlen, length_concat_sum, <- list_fmap_compose. done.
  - intros i a b Ha Hb.
    assert ((index <$> extract_paper_items papers) !! i = Some (index a)) as Hia.
    { by rewrite list_lookup_fmap, Ha. }
    assert ((index <$> extract_paper_items papers) !! S i = Some (index b)) as Hib.
    { by rewrite list_lookup_fmap, Hb. }
    rewrite Hidx, list_lookup_fmap in Hia, Hib.
    apply lookup_lt_Some in Ha as Hlt_a. apply lookup_lt_Some in Hb as Hlt_b.
    rewrite lookup_seq_lt in Hia by lia. rewrite lookup_seq_lt in Hib by lia.
    cbn in Hia, Hib. injection Hia as Hia. injection Hib as Hib. lia.
Qed.


Lemma year_for_fallback (year_list : list Py.str) (i : nat) :
  (length year_list <= i)%nat ->
  year_for year_list i = default s_dash (head year_list).
Proof.
  intros Hi. unfold year_for. rewrite lookup_ge_None_2 by done.
  by destruct year_list.
Qed.



(** C6 at the failing input: two year tokens for three titles.  The second
    item takes the second token, where the specification and the comment
    in the code give every item the first token as soon as the counts
    differ. *)
Theorem years_two_tokens_three_titles :
  year_list_of (pg_years group_two_years_three_titles)
  = [Py.lit "2020"; Py.lit "2021"]
  /\ length (pg_titles group_two_years_three_titles) = 3%nat
  /\ year <$> extract_paper_items [group_two_years_three_titles]
     = [Py.lit "2020"; Py.lit "2021"; Py.lit "2020"].
Proof. by vm_compute. Qed.

(** *** Table fillers *)

Lemma fill_rows_lookup {A} (write : nat -> A -> Row -> Row) (items : list A) :
  forall (k : nat) (table : Table) (j : nat),
    (fill_rows write k items table).1 !! j
    = if decide (k <= j)%nat
      then (fun row => from_option (fun x => write j x row) row (items !! (j - k)%nat))
             <$> table !! j
      else table !! j.
Proof.
  induction items as [| x items IH]; intros k table j.
  - cbn. case_decide; [| done]. by destruct (table !! j).
  - cbn [fill_rows]. unfold Py.len.
    destruct (Z.geb_spec (Z.of_nat k) (Z.of_nat (length table))) as [Hge | Hlt].
    + cbn [fst]. case_decide; [| done].
      by rewrite lookup_ge_None_2 by lia.
    + rewrite IH. destruct (decide (S k <= j)%nat) as [Hj | Hj].
      * rewrite decide_True by lia. rewrite list_lookup_alter_ne by lia.
        by replace (j - k)%nat with (S (j - S k)) by lia.
      * destruct (decide (k = j)) as [-> | Hne].
        -- rewrite decide_True by lia. rewrite list_lookup_alter_eq.
           by rewrite Nat.sub_diag.
        -- rewrite decide_False by lia. by rewrite list_lookup_alter_ne by lia.
Qed.

Lemma fill_rows_length {A} (write : nat -> A -> Row -> Row) (items : list A) :
  forall (k : nat) (table : Table),
    length (fill_rows write k items table).1 = length table.
Proof.
  induction items as [| x items IH]; intros k table; [done |].
  cbn [fill_rows]. destruct (_ >=? _); [done |].
  by rewrite IH, length_alter.
Qed.

(** The row counter after the loop: one step per item while rows last. *)
Lemma fill_rows_counter {A} (write : nat -> A -> Row -> Row) (items : list A) :
  forall (k : nat) (table : Table),
    (k + length items <= length table)%nat ->
    (fill_rows write k items table).2 = (k + length items)%nat.
Proof.
  induction items as [| x items IH]; intros k table Hk.
  - cbn. lia.
  - cbn [fill_rows length] in *. unfold Py.len.
    destruct (Z.geb_spec (Z.of_nat k) (Z.of_nat (length table))); [lia |].
    rewrite IH by (rewrite length_alter; lia). lia.
Qed.

Lemma fill_rows_row_lengths {A} (write : nat -> A -> Row -> Row) (items : list A) :
  (forall i x row, length (write i x row) = length row) ->
  forall (k : nat) (table : Table),
    length <$> (fill_rows write k items table).1 = length <$> table.
Proof.
  intros Hw k table. apply list_eq. intros j.
  rewrite !list_lookup_fmap, fill_rows_lookup.
  case_decide; [| done]. destruct (table !! j) as [row |]; [| done].
  cbn. destruct (items !! (j - k)%nat); cbn; by rewrite ?Hw.
Qed.

Lemma clear_row_replicate (row : Row) :
  clear_row row = replicate (length row) [].
Proof.
  unfold clear_row. induction row as [| c row IH]; [done |].
  cbn. by rewrite IH.
Qed.

Lemma length_clear_row (row : Row) : length (clear_row row) = length row.
Proof. unfold clear_row. by rewrite length_map. Qed.

Lemma clear_table_lookup_0 (table : Table) :
  _clear_table_data table true !! 0%nat = table !! 0%nat.
Proof. by destruct table. Qed.

Lemma clear_table_lookup_S (table : Table) (j : nat) :
  _clear_table_data table true !! S j = clear_row <$> table !! S j.
Proof.
  destruct table as [| header rows]; [done |].
  change (_clear_table_data (header :: rows) true)
    with (header :: (clear_row <$> rows)).
  by rewrite !lookup_cons, list_lookup_fmap.
Qed.

Lemma clear_table_length (table : Table) :
  length (_clear_table_data table true) = length table.
Proof.
  destruct table as [| header rows]; [done |].
  change (_clear_table_data (header :: rows) true)
    with (header :: (clear_row <$> rows)).
  cbn [length]. by rewrite length_fmap.
Qed.

(** Clearing reads the header and the number of cells of each row, nothing
    else. *)
Lemma clear_table_ext (t1 t2 : Table) :
  t1 !! 0%nat = t2 !! 0%nat ->
  length <$> t1 = length <$> t2 ->
  _clear_table_data t1 true = _clear_table_data t2 true.
Proof.
  intros Hhead Hlen. apply list_eq. intros [| j].
  - by rewrite !clear_table_lookup_0.
  - rewrite !clear_table_lookup_S.
    assert ((length <$> t1) !! S j = (length <$> t2) !! S j) as Hj
      by by rewrite Hlen.
    rewrite !list_lookup_fmap in Hj.
    destruct (t1 !! S j) as [r1 |], (t2 !! S j) as [r2 |]; try done.
    cbn in *. injection Hj as Hj. by rewrite !clear_row_replicate, Hj.
Qed.

Lemma clear_table_idemp (table : Table) :
  _clear_table_data (_clear_table_data table true) true
  = _clear_table_data table true.
Proof.
  apply clear_table_ext.
  - apply clear_table_lookup_0.
  - apply list_eq. intros [| j]; rewrite !list_lookup_fmap.
    + by rewrite clear_table_lookup_0.
    + rewrite clear_table_lookup_S. destruct (table !! S j); [| done].
      cbn. by rewrite length_clear_row.
Qed.

(** A fill that starts below the header and keeps the number of cells of
    a row is invisible to the next clearing. *)
Lemma clear_after_fill_rows {A} (write : nat -> A -> Row -> Row)
    (items : list A) (k : nat) (table : Table) :
  (forall i x row, length (write i x row) = length row) ->
  (1 <= k)%nat ->
  _clear_table_data (fill_rows write k items table).1 true
  = _clear_table_data table true.
Proof.
  intros Hw Hk. apply clear_table_ext.
  - rewrite fill_rows_lookup. by rewrite decide_False by lia.
  - by apply fill_rows_row_lengths.
Qed.

Lemma write_paper_row_length (i : nat) (paper : PaperItem) (row : Row) :
  length (write_paper_row i paper row) = length row.
Proof.
  unfold write_paper_row. destruct (5 <=? _); [| done].
  by rewrite !length_insert.
Qed.

Lemma write_project_row_length (i : nat) (project : Project) (row : Row) :
  length (write_project_row i project row) = length row.
Proof.
  unfold write_project_row. destruct (5 <=? _); [| done].
  by rewrite !length_insert.
Qed.

Lemma write_award_row_length (n : Z) (i : nat) (award : Award) (row : Row) :
  length (write_award_row n i award row) = length row.
Proof.
  unfold write_award_row. destruct (4 <=? _); [| done].
  by rewrite !length_insert.
Qed.

Lemma write_other_row_length (i : nat) (item : OtherItem) (row : Row) :
  length (write_other_row i item row) = length row.
Proof.
  unfold write_other_row. destruct (4 <=? _); [| done].
  by rewrite !length_insert.
Qed.

Lemma fill_paper_table_lookup_0 (table : Table) (papers : list PaperItem) :
  _fill_paper_table table papers !! 0%nat = table !! 0%nat.
Proof.
  unfold _fill_paper_table. rewrite fill_rows_lookup.
  rewrite decide_False by lia. apply clear_table_lookup_0.
Qed.

Lemma fill_paper_table_lookup_S (table : Table) (papers : list PaperItem)
    (i : nat) :
  _fill_paper_table table papers !! S i
  = (fun row => from_option (fun p => write_paper_row (S i) p (clear_row row))
                  (clear_row row) (papers !! i))
      <$> table !! S i.
Proof.
  unfold _fill_paper_table. rewrite fill_rows_lookup.
  rewrite decide_True by lia. rewrite clear_table_lookup_S.
  replace (S i - 1)%nat with i by lia.
  by destruct (table !! S i).
Qed.

Lemma fill_paper_table_length (table : Table) (papers : list PaperItem) :
  length (_fill_paper_table table papers) = length table.
Proof.
  unfold _fill_paper_table. by rewrite fill_rows_length, clear_table_length.
Qed.

(** A written paper row: the five assigned cells, then blanks. *)
Lemma write_paper_row_cells (i : nat) (paper : PaperItem) (row : Row) :
  (5 <= length row)%nat ->
  write_paper_row i paper (clear_row row)
  = paper_cells paper ++ replicate (length row - 5) [].
Proof.
  intros Hrow. rewrite clear_row_replicate.
  destruct row as [| c0 [| c1 [| c2 [| c3 [| c4 row]]]]]; cbn in Hrow; try lia.
  unfold write_paper_row, Py.len. rewrite length_replicate.
  destruct (Z.leb_spec 5 (Z.of_nat (length (c0 :: c1 :: c2 :: c3 :: c4 :: row))));
    [| cbn [length] in *; lia].
  cbn [length replicate]. unfold paper_cells. cbn. by rewrite Nat.sub_0_r.
Qed.

Lemma fill_rows_counter_ge {A} (write : nat -> A -> Row -> Row) (items : list A) :
  forall (k : nat) (table : Table), (k <= (fill_rows write k items table).2)%nat.
Proof.
  induction items as [| x items IH]; intros k table; cbn [fill_rows]; [cbn; lia |].
  destruct (_ >=? _); [cbn; lia |].
  specialize (IH (S k) (alter (write k x) k table)). lia.
Qed.

Lemma clear_after_fill_paper (table : Table) (papers : list PaperItem) :
  _clear_table_data (_fill_paper_table table papers) true
  = _clear_table_data table true.
Proof.
  unfold _fill_paper_table.
  rewrite clear_after_fill_rows by (apply write_paper_row_length || lia).
  apply clear_table_idemp.
Qed.

Lemma clear_after_fill_projects (table : Table) (projects : list Project) :
  _clear_table_data (_fill_projects_table table projects) true
  = _clear_table_data table true.
Proof.
  unfold _fill_projects_table.
  rewrite clear_after_fill_rows by (apply write_project_row_length || lia).
  apply clear_table_idemp.
Qed.

Lemma fill_achievements_unfold (table : Table) (other : list OtherItem)
    (awards : list Award) (note : bool) :
  _fill_other_achievements_table table other awards note
  = (fill_rows write_other_row
       (fill_rows (write_award_row (Py.len awards)) 1 awards
          (_clear_table_data table true)).2
       other
       (fill_rows (write_award_row (Py.len awards)) 1 awards
          (_clear_table_data table true)).1).1.
Proof.
  unfold _fill_other_achievements_table.
  by destruct (fill_rows (write_award_row (Py.len awards)) 1 awards
                 (_clear_table_data table true)).
Qed.

Lemma clear_after_fill_achievements (table : Table) (other : list OtherItem)
    (awards : list Award) (note : bool) :
  _clear_table_data (_fill_other_achievements_table table other awards note) true
  = _clear_table_data table true.
Proof.
  rewrite fill_achievements_unfold.
  rewrite clear_after_fill_rows
    by (apply write_other_row_length || apply fill_rows_counter_ge).
  rewrite clear_after_fill_rows by (apply write_award_row_length || lia).
  apply clear_table_idemp.
Qed.

Lemma fill_paper_table_refill (table : Table) (first second : list PaperItem) :
  _fill_paper_table (_fill_paper_table table first) second
  = _fill_paper_table table second.
Proof.
  transitivity
    (fill_rows write_paper_row 1 second
       (_clear_table_data (_fill_paper_table table first) true)).1; [done |].
  by rewrite clear_after_fill_paper.
Qed.

Lemma fill_projects_table_refill (table : Table) (first second : list Project) :
  _fill_projects_table (_fill_projects_table table first) second
  = _fill_projects_table table second.
Proof.
  transitivity
    (fill_rows write_project_row 1 second
       (_clear_table_data (_fill_projects_table table first) true)).1; [done |].
  by rewrite clear_after_fill_projects.
Qed.

Lemma fill_achievements_refill (table : Table) (o1 o2 : list OtherItem)
    (a1 a2 : list Award) (n1 n2 : bool) :
  _fill_other_achievements_table
    (_fill_other_achievements_table table o1 a1 n1) o2 a2 n2
  = _fill_other_achievements_table table o2 a2 n2.
Proof.
  rewrite (fill_achievements_unfold (_fill_other_achievements_table _ _ _ _)).
  rewrite clear_after_fill_achievements.
  by rewrite <- (fill_achievements_unfold table o2 a2 n2).
Qed.

Lemma fill_projects_table_lookup_S (table : Table) (projects : list Project)
    (i : nat) :
  _fill_projects_table table projects !! S i
  = (fun row => from_option (fun p => write_project_row (S i) p (clear_row row))
                  (clear_row row) (projects !! i))
      <$> table !! S i.
Proof.
  unfold _fill_projects_table. rewrite fill_rows_lookup.
  rewrite decide_True by lia. rewrite clear_table_lookup_S.
  replace (S i - 1)%nat with i by lia.
  by destruct (table !! S i).
Qed.

(** The row counter after the loop, rows lasting or not. *)
Lemma fill_rows_counter_min {A} (write : nat -> A -> Row -> Row)
    (items : list A) :
  forall (k : nat) (table : Table),
    (fill_rows write k items table).2
    = (k + Nat.min (length items) (length table - k))%nat.
Proof.
  induction items as [| x items IH]; intros k table.
  - cbn. lia.
  - cbn [fill_rows length]. unfold Py.len.
    destruct (Z.geb_spec (Z.of_nat k) (Z.of_nat (length table)));
      [cbn [snd]; lia |].
    rewrite IH, length_alter. lia.
Qed.

(** Row [S i] of the filled achievements table, whatever the number of
    rows: award [i] while awards last, then other achievement
    [i - len(awards)], then blanks, each written on the cleared row. *)
Lemma fill_achievements_row (table : Table) (other : list OtherItem)
    (awards : list Award) (note : bool) (i : nat) :
  _fill_other_achievements_table table other awards note !! S i
  = (fun row =>
       match awards !! i with
       | Some a => write_award_row (Py.len awards) (S i) a (clear_row row)
       | None =>
           match other !! (i - length awards)%nat with
           | Some o => write_other_row (S i) o (clear_row row)
           | None => clear_row row
           end
       end) <$> table !! S i.
Proof.
  destruct (table !! S i) as [row |] eqn:Hrow.
  - apply lookup_lt_Some in Hrow as Hlt.
    rewrite fill_achievements_unfold, fill_rows_lookup.
    rewrite fill_rows_counter_min, clear_table_length.
    rewrite fill_rows_lookup, (decide_True (P := (1 <= S i)%nat)) by lia.
    rewrite clear_table_lookup_S, Hrow. replace (S i - 1)%nat with i by lia.
    cbn [fmap option_fmap option_map].
    destruct (awards !! i) as [a |] eqn:Ha.
    + apply lookup_lt_Some in Ha as Hia. cbn [from_option].
      by rewrite decide_False by lia.
    + apply lookup_ge_None in Ha. cbn [from_option].
      rewrite decide_True by lia. cbn [fmap option_fmap option_map].
      replace (S i - (1 + Nat.min (length awards) (length table - 1)))%nat
        with (i - length awards)%nat by lia.
      by destruct (other !! (i - length awards)%nat).
  - apply lookup_ge_None in Hrow.
    apply lookup_ge_None.
    rewrite fill_achievements_unfold, !fill_rows_length, clear_table_length.
    lia.
Qed.

(** C5: every fill operation clears every non-header row before it writes,
    so the data rows after a fill depend only on the most recent window.
    For each of the three fillers: a second fill of the same table gives
    what it would give on the untouched table; after the second fill every
    row past its window is blank, whatever the first fill wrote there (a
    3-item window and then a 1-item window leave the rows of the first
    fill's items 2 and 3 blank); and every data row of a filled table is
    the row of its item written on the cleared row, or the cleared row
    where the window has no item, so nothing of the old cell texts is
    left. *)
Theorem refill_leaves_no_residue (table : Table) :
  (forall first second : list PaperItem,
      _fill_paper_table (_fill_paper_table table first) second
      = _fill_paper_table table second)
  /\ (forall first second : list Project,
        _fill_projects_table (_fill_projects_table table first) second
        = _fill_projects_table table second)
  /\ (forall (o1 o2 : list OtherItem) (a1 a2 : list Award) (n1 n2 : bool),
        _fill_other_achievements_table
          (_fill_other_achievements_table table o1 a1 n1) o2 a2 n2
        = _fill_other_achievements_table table o2 a2 n2)
  /\ (forall (first second : list PaperItem) (j : nat),
        (length second < j)%nat ->
        _fill_paper_table (_fill_paper_table table first) second !! j
        = clear_row <$> table !! j)
  /\ (forall (first second : list Project) (j : nat),
        (length second < j)%nat ->
        _fill_projects_table (_fill_projects_table table first) second !! j
        = clear_row <$> table !! j)
  /\ (forall (o1 o2 : list OtherItem) (a1 a2 : list Award) (n1 n2 : bool)
        (j : nat),
        (length a2 + length o2 < j)%nat ->
        _fill_other_achievements_table
          (_fill_other_achievements_table table o1 a1 n1) o2 a2 n2 !! j
        = clear_row <$> table !! j)
  /\ (forall (papers : list PaperItem) (i : nat),
        _fill_paper_table table papers !! S i
        = (fun row =>
             match papers !! i with
             | Some p => write_paper_row (S i) p (clear_row row)
             | None => clear_row row
             end) <$> table !! S i)
  /\ (forall (projects : list Project) (i : nat),
        _fill_projects_table table projects !! S i
        = (fun row =>
             match projects !! i with
             | Some p => write_project_row (S i) p (clear_row row)
             | None => clear_row row
             end) <$> table !! S i)
  /\ (forall (other : list OtherItem) (awards : list Award) (note : bool)
        (i : nat),
        _fill_other_achievements_table table other awards note !! S i
        = (fun row =>
             match awards !! i with
             | Some a => write_award_row (Py.len awards) (S i) a (clear_row row)
             | None =>
                 match other !! (i - length awards)%nat with
                 | Some o => write_other_row (S i) o (clear_row row)
                 | None => clear_row row
                 end
             end) <$> table !! S i).
Proof.
  split; [apply fill_paper_table_refill |].
  split; [apply fill_projects_table_refill |].
  split; [apply fill_achievements_refill |].
  split; [| split; [| split; [| split; [| split]]]].
  - intros first second j Hj. rewrite fill_paper_table_refill.
    destruct j as [| i]; [lia |].
    rewrite fill_paper_table_lookup_S.
    by rewrite (lookup_ge_None_2 second i) by lia.
  - intros first second j Hj. rewrite fill_projects_table_refill.
    destruct j as [| i]; [lia |].
    rewrite fill_projects_table_lookup_S.
    by rewrite (lookup_ge_None_2 second i) by lia.
  - intros o1 o2 a1 a2 n1 n2 j Hj. rewrite fill_achievements_refill.
    destruct j as [| i]; [lia |].
    rewrite fill_achievements_row.
    rewrite (lookup_ge_None_2 a2 i) by lia.
    by rewrite (lookup_ge_None_2 o2 (i - length a2)) by lia.
  - intros papers i. rewrite fill_paper_table_lookup_S.
    destruct (table !! S i) as [row |]; [| done]. cbn.
    by destruct (papers !! i).
  - intros projects i. rewrite fill_projects_table_lookup_S.
    destruct (table !! S i) as [row |]; [| done]. cbn.
    by destruct (projects !! i).
  - intros other awards note i. apply fill_achievements_row.
Qed.

(** *** Per-field length caps *)

Lemma hard_cut_within (cap : Z) (s : Py.str) :
  Py.len s <= cap -> hard_cut cap s = s.
Proof. intros Hs. unfold hard_cut. by destruct (Z.ltb_spec cap (Py.len s)); [lia |]. Qed.

Lemma hard_cut_beyond (cap : Z) (s : Py.str) :
  0 <= cap < Py.len s ->
  hard_cut cap s = take (Z.to_nat cap) s /\ Py.len (hard_cut cap s) = cap.
Proof.
  intros Hs. unfold hard_cut. destruct (Z.ltb_spec cap (Py.len s)); [| lia].
  rewrite upto_take by lia. split; [done |].
  unfold Py.len in *. rewrite length_take. lia.
Qed.

(** The cells the generated table holds for one paper. *)
Lemma create_papers_row_lookup (t : Table) (k : nat) (paper : PaperItem) (j : nat) :
  create_papers_row t (k, paper) !! j
  = if decide (j = S k)
    then (fun row =>
            <[5%nat := is_first_author paper]>
              (<[4%nat := year paper]>
                 (<[3%nat := category paper]>
                    (<[2%nat := cut_with_dots 40 (journal paper)]>
                       (<[1%nat := cut_with_dots 80 (title paper)]>
                          (<[0%nat := Py.str_of_int (index paper)]> row))))))
           <$> t !! j
    else t !! j.
Proof.
  unfold create_papers_row, set_cell. replace (k + 1)%nat with (S k) by lia.
  case_decide as Hj.
  - subst j. rewrite !list_lookup_alter_eq. by destruct (t !! S k).
  - by rewrite !list_lookup_alter_ne by done.
Qed.

Lemma create_papers_rows_lookup (papers : list PaperItem) :
  forall (k : nat) (t : Table) (j : nat),
    foldl create_papers_row t (zip (seq k (length papers)) papers) !! j
    = match decide (S k <= j)%nat with
      | left _ =>
          match papers !! (j - S k)%nat with
          | Some paper => create_papers_row t ((j - 1)%nat, paper) !! j
          | None => t !! j
          end
      | right _ => t !! j
      end.
Proof.
  induction papers as [| p papers IH]; intros k t j.
  - cbn. by case_decide.
  - cbn [length seq zip zip_with foldl]. rewrite IH.
    destruct (decide (S (S k) <= j)%nat) as [Hj | Hj].
    + rewrite decide_True by lia.
      replace (j - S k)%nat with (S (j - S (S k))) by lia. cbn [lookup list_lookup].
      destruct (papers !! (j - S (S k))%nat) as [q |] eqn:Hq.
      * rewrite !create_papers_row_lookup.
        rewrite !(decide_True (P := j = S (j - 1))) by lia.
        by rewrite !(decide_False (P := j = S k)) by lia.
      * rewrite create_papers_row_lookup. by rewrite decide_False by lia.
    + destruct (decide (S k <= j)%nat) as [Hk | Hk]; [| by
        rewrite create_papers_row_lookup, decide_False by lia].
      assert (j = S k) as -> by lia.
      rewrite Nat.sub_diag. cbn [lookup list_lookup].
      by replace (S k - 1)%nat with k by lia.
Qed.

Lemma create_papers_table_header (n : nat) :
  foldl (fun t '(i, header) => set_cell 0 i header t)
    (replicate (S n) (replicate (length TABLE_COLUMNS) ([] : Py.str)))
    (Py.enumerate TABLE_COLUMNS)
  = TABLE_COLUMNS :: replicate n (replicate 6 []).
Proof. reflexivity. Qed.

(** The title cell of the generated table, row by row. *)
Lemma create_papers_table_title (papers : list PaperItem) (i : nat)
    (paper : PaperItem) :
  papers !! i = Some paper ->
  _create_papers_table papers !! S i ≫= (.!! 1%nat)
  = Some (cut_with_dots 80 (title paper)).
Proof.
  intros Hp. unfold _create_papers_table, Py.enumerate at 2.
  replace (length papers + 1)%nat with (S (length papers)) by lia.
  rewrite create_papers_table_header, create_papers_rows_lookup.
  rewrite decide_True by lia. cbn [Nat.sub]. rewrite Nat.sub_0_r, Hp.
  rewrite create_papers_row_lookup, decide_True by done.
  rewrite lookup_cons, lookup_replicate_2
    by (apply lookup_lt_Some in Hp; lia).
  reflexivity.
Qed.

(** The title cell the template filler writes, row by row. *)
Lemma fill_paper_table_title (table : Table) (papers : list PaperItem)
    (i : nat) (paper : PaperItem) (row : Row) :
  papers !! i = Some paper -> table !! S i = Some row -> (5 <= length row)%nat ->
  _fill_paper_table table papers !! S i ≫= (.!! 1%nat)
  = Some (hard_cut 80 (title paper)).
Proof.
  intros Hp Hrow Hcells. rewrite fill_paper_table_lookup_S, Hrow, Hp.
  cbn [fmap option_fmap option_map from_option mbind option_bind].
  by rewrite write_paper_row_cells.
Qed.

(** C7, as the code has it: the template filler writes a title of at most
    80 characters unchanged and cuts a longer one to its first 80
    characters, nothing appended; the generated table of [ppt_renderer.py]
    also writes a title of at most 80 characters unchanged, but replaces a
    longer one by its first 77 characters followed by three dots. *)
Theorem title_cut_at_cap (papers : list PaperItem) (i : nat)
    (paper : PaperItem) (table : Table) (row : Row) :
  papers !! i = Some paper ->
  table !! S i = Some row ->
  (5 <= length row)%nat ->
  _fill_paper_table table papers !! S i ≫= (.!! 1%nat)
  = Some (if 80 <? Py.len (title paper)
          then take 80 (title paper) else title paper)
  /\ _create_papers_table papers !! S i ≫= (.!! 1%nat)
     = Some (if 80 <? Py.len (title paper)
             then take 77 (title paper) ++ s_ellipsis3 else title paper).
Proof.
  intros Hp Hrow Hcells. split.
  - rewrite (fill_paper_table_title _ _ _ _ _ Hp Hrow Hcells).
    unfold hard_cut. destruct (80 <? _); [| done].
    by rewrite upto_take by lia.
  - rewrite (create_papers_table_title _ _ _ Hp).
    unfold cut_with_dots. destruct (80 <? _); [| done].
    by rewrite upto_take by lia.
Qed.

(** *** The merged awards and other-achievements table *)

Lemma slice_all {A} (l : list A) : Py.slice l 0 (Py.len l) = l.
Proof.
  rewrite slice_nonneg by (pose proof (len_nonneg l); lia).
  unfold Py.len. rewrite Nat2Z.id. change (Z.to_nat 0) with 0%nat.
  rewrite Nat.sub_0_r, drop_0. by rewrite take_ge by lia.
Qed.

Lemma len_nil_inv {A} (l : list A) : Py.len l <= 0 -> l = [].
Proof. destruct l; [done |]. unfold Py.len. cbn [length]. lia. Qed.

(** With at most seven rows in all, page 0 is handed both lists whole. *)
Lemma fill_achievements_page_single (awards : list Award)
    (other : list OtherItem) (table : Table) :
  (length awards + length other <= 7)%nat ->
  fill_achievements_page awards other 0 table
  = _fill_other_achievements_table table other awards true.
Proof.
  intros Hfit. unfold fill_achievements_page. cbv zeta.
  assert (Py.len awards + Py.len other <= 7) as Hfit' by (unfold Py.len; lia).
  pose proof (len_nonneg awards) as Ha. pose proof (len_nonneg other) as Ho.
  rewrite Z.mul_0_l, Z.add_0_l.
  rewrite (Z.min_r 7) by lia.
  destruct (Z.ltb_spec 0 (Py.len awards)) as [Hpos | Hzero].
  - rewrite (Z.min_r _ (Py.len awards)) by lia. rewrite slice_all.
    destruct (Z.ltb_spec 0 (7 - Py.len awards)) as [Hroom | Hfull];
      destruct (Z.ltb_spec (Py.len awards) (Py.len awards + Py.len other))
        as [Hmore | Hnone]; cbn [andb].
    + rewrite Z.max_l by lia.
      replace (Py.len awards + Py.len other - Py.len awards)
        with (Py.len other) by lia.
      by rewrite slice_all.
    + by rewrite (len_nil_inv other) by lia.
    + by rewrite (len_nil_inv other) by lia.
    + by rewrite (len_nil_inv other) by lia.
  - rewrite (len_nil_inv awards) by lia.
    change (Py.len (@nil Award)) with 0.
    rewrite Z.sub_0_r, Z.add_0_l, Z.sub_0_r. by rewrite slice_all.
Qed.

Lemma fill_achievements_lookup_0 (table : Table) (other : list OtherItem)
    (awards : list Award) (note : bool) :
  _fill_other_achievements_table table other awards note !! 0%nat
  = table !! 0%nat.
Proof.
  rewrite fill_achievements_unfold, fill_rows_lookup.
  pose proof (fill_rows_counter_ge (write_award_row (Py.len awards)) awards 1
                (_clear_table_data table true)).
  rewrite decide_False by lia.
  rewrite fill_rows_lookup, decide_False by lia.
  apply clear_table_lookup_0.
Qed.

Lemma fill_achievements_length (table : Table) (other : list OtherItem)
    (awards : list Award) (note : bool) :
  length (_fill_other_achievements_table table other awards note)
  = length table.
Proof.
  by rewrite fill_achievements_unfold, !fill_rows_length, clear_table_length.
Qed.

(** Row [S i] of the filled table when the table has a row for every
    item: award [i] while awards last, then other achievement
    [i - len(awards)], then blanks. *)
Lemma fill_achievements_lookup_S (table : Table) (other : list OtherItem)
    (awards : list Award) (note : bool) (i : nat) :
  (length awards < length table)%nat ->
  _fill_other_achievements_table table other awards note !! S i
  = (fun row =>
       match awards !! i with
       | Some a => write_award_row (Py.len awards) (S i) a (clear_row row)
       | None =>
           match other !! (i - length awards)%nat with
           | Some o => write_other_row (S i) o (clear_row row)
           | None => clear_row row
           end
       end) <$> table !! S i.
Proof.
  intros Hrows. rewrite fill_achievements_unfold, fill_rows_lookup.
  rewrite fill_rows_counter by (rewrite clear_table_length; lia).
  rewrite fill_rows_lookup, (decide_True (P := (1 <= S i)%nat)) by lia.
  rewrite clear_table_lookup_S. replace (S i - 1)%nat with i by lia.
  destruct (decide (1 + length awards <= S i)%nat) as [Hi | Hi].
  - rewrite (lookup_ge_None_2 awards i) by lia.
    replace (S i - (1 + length awards))%nat with (i - length awards)%nat by lia.
    by destruct (table !! S i).
  - destruct (lookup_lt_is_Some_2 awards i) as [a Ha]; [lia |].
    rewrite Ha. by destruct (table !! S i).
Qed.

Lemma write_award_row_name (n : Z) (i : nat) (a : Award) (cols : nat) :
  (4 <= cols)%nat ->
  write_award_row n i a (replicate cols []) !! 1%nat
  = Some (award_name_cell a).
Proof.
  intros Hc. do 4 (destruct cols as [| cols]; [lia |]).
  unfold write_award_row, Py.len. rewrite length_replicate.
  destruct (Z.leb_spec 4 (Z.of_nat (S (S (S (S cols)))))); [done | lia].
Qed.

Lemma write_other_row_name (i : nat) (o : OtherItem) (cols : nat) :
  (4 <= cols)%nat ->
  write_other_row i o (replicate cols []) !! 1%nat
  = Some (other_name_cell o).
Proof.
  intros Hc. do 4 (destruct cols as [| cols]; [lia |]).
  unfold write_other_row, Py.len. rewrite length_replicate.
  destruct (Z.leb_spec 4 (Z.of_nat (S (S (S (S cols)))))); [done | lia].
Qed.

(** The first achievements page of a subject, on a slide with a table. *)
Lemma fill_project_slide_first_achievements (resume : Resume) (slide : Slide)
    (table : Table) (tables : list Table) (total_pages project_pages_count : Z) :
  slide_tables slide = table :: tables ->
  slide_tables
    (_fill_project_slide_paginated resume project_pages_count total_pages
       project_pages_count slide)
  = fill_achievements_page (r_awards resume) (other_of resume) 0 table :: tables.
Proof.
  intros Htables. unfold _fill_project_slide_paginated. cbv zeta.
  rewrite Z.ltb_irrefl, Z.sub_diag.
  cbn [on_texts slide_tables]. rewrite Htables.
  change (0 <? 0) with false. cbv iota.
  unfold on_first_table, on_texts. cbn [slide_tables]. by rewrite Htables.
Qed.

Lemma name_column_lookup (table : Table) (j : nat) :
  name_column table !! j = (fun row => row !! 1%nat) <$> table !! S j.
Proof. unfold name_column. by rewrite list_lookup_fmap, lookup_drop. Qed.

(** C2: when the awards and the other achievements fit one page together,
    the achievements table shows every award, in input order, in the rows
    right below the header, then every other achievement, in input order,
    in the rows that follow, then blank rows; no row of one kind stands
    between two rows of the other. *)
Theorem awards_before_other_on_one_page (resume : Resume) (slide : Slide)
    (table : Table) (tables : list Table) (cols : nat)
    (total_pages project_pages_count : Z) :
  (length (r_awards resume) + length (other_of resume) <= 7)%nat ->
  slide_tables slide = table :: tables ->
  (length (r_awards resume) + length (other_of resume) < length table)%nat ->
  (4 <= cols)%nat ->
  Forall (fun row => length row = cols) table ->
  exists filled : Table,
    slide_tables
      (_fill_project_slide_paginated resume project_pages_count total_pages
         project_pages_count slide)
    = filled :: tables
    /\ filled !! 0%nat = table !! 0%nat
    /\ length filled = length table
    /\ (forall (i : nat) (a : Award),
          r_awards resume !! i = Some a ->
          filled !! S i
          = Some (write_award_row (Py.len (r_awards resume)) (S i) a
                    (replicate cols [])))
    /\ (forall (k : nat) (o : OtherItem),
          other_of resume !! k = Some o ->
          filled !! S (length (r_awards resume) + k)
          = Some (write_other_row (S (length (r_awards resume) + k)) o
                    (replicate cols [])))
    /\ name_column filled
       = (Some ∘ award_name_cell <$> r_awards resume)
           ++ (Some ∘ other_name_cell <$> other_of resume)
           ++ replicate
                (length table - 1 - length (r_awards resume)
                 - length (other_of resume))
                (Some []).
Proof.
  intros Hfit Htables Hrows Hcols Hrect.
  set (awards := r_awards resume) in *. set (other := other_of resume) in *.
  exists (_fill_other_achievements_table table other awards true).
  assert (forall j row, table !! j = Some row -> clear_row row = replicate cols [])
    as Hblank.
  { intros j row Hj. rewrite clear_row_replicate.
    by rewrite (proj1 (Forall_lookup _ _) Hrect j row Hj). }
  assert (forall i a, awards !! i = Some a ->
            _fill_other_achievements_table table other awards true !! S i
            = Some (write_award_row (Py.len awards) (S i) a (replicate cols [])))
    as Hawards.
  { intros i a Ha. rewrite fill_achievements_lookup_S by lia.
    apply lookup_lt_Some in Ha as Hlt.
    destruct (lookup_lt_is_Some_2 table (S i)) as [row Hrow]; [lia |].
    rewrite Hrow, Ha. cbn. by rewrite (Hblank _ _ Hrow). }
  assert (forall k o, other !! k = Some o ->
            _fill_other_achievements_table table other awards true
              !! S (length awards + k)
            = Some (write_other_row (S (length awards + k)) o (replicate cols [])))
    as Hother.
  { intros k o Ho. rewrite fill_achievements_lookup_S by lia.
    apply lookup_lt_Some in Ho as Hlt.
    destruct (lookup_lt_is_Some_2 table (S (length awards + k))) as [row Hrow];
      [lia |].
    rewrite Hrow, (lookup_ge_None_2 awards) by lia.
    replace (length awards + k - length awards)%nat with k by lia.
    rewrite Ho. cbn. by rewrite (Hblank _ _ Hrow). }
  split.
  { rewrite (fill_project_slide_first_achievements _ _ _ _ _ _ Htables).
    by rewrite fill_achievements_page_single. }
  split; [apply fill_achievements_lookup_0 |].
  split; [apply fill_achievements_length |].
  split; [done |]. split; [done |].
  apply list_eq. intros j. rewrite name_column_lookup.
  destruct (decide (j < length awards)%nat) as [Hja | Hja].
  - destruct (lookup_lt_is_Some_2 awards j Hja) as [a Ha].
    rewrite (Hawards _ _ Ha). cbn.
    rewrite lookup_app_l by by rewrite length_fmap.
    rewrite list_lookup_fmap, Ha. cbn.
    by rewrite write_award_row_name.
  - rewrite lookup_app_r by (rewrite length_fmap; lia). rewrite length_fmap.
    destruct (decide (j - length awards < length other)%nat) as [Hjo | Hjo].
    + destruct (lookup_lt_is_Some_2 other _ Hjo) as [o Ho].
      pose proof (Hother _ _ Ho) as Hrow.
      replace (length awards + (j - length awards))%nat with j in Hrow by lia.
      rewrite Hrow. cbn.
      rewrite lookup_app_l by by rewrite length_fmap.
      rewrite list_lookup_fmap, Ho. cbn.
      by rewrite write_other_row_name.
    + rewrite lookup_app_r by (rewrite length_fmap; lia). rewrite length_fmap.
      rewrite fill_achievements_lookup_S by lia.
      rewrite (lookup_ge_None_2 awards) by lia.
      rewrite (lookup_ge_None_2 other) by lia.
      destruct (decide (S j < length table)%nat) as [Hjt | Hjt].
      * destruct (lookup_lt_is_Some_2 table (S j) Hjt) as [row Hrow].
        rewrite Hrow. cbn. rewrite (Hblank _ _ Hrow).
        by rewrite !lookup_replicate_2 by lia.
      * rewrite (lookup_ge_None_2 table) by lia. cbn.
        symmetry. apply lookup_ge_None_2. rewrite length_replicate. lia.
Qed.

(** *** Slide set builder *)

Lemma insert_slide_at_position_spec (prs : Deck) (slide : Slide) (position : Z) :
  _insert_slide_at_position prs slide position
  = take (Z.to_nat position) prs
      ++ copied_slide slide :: drop (Z.to_nat position) prs.
Proof.
  unfold _insert_slide_at_position, _copy_slide_to_presentation, list_insert_at.
  rewrite last_snoc, length_app. cbn [length].
  replace (length prs + 1 - 1)%nat with (length prs) by lia.
  by rewrite take_app_length.
Qed.

Lemma insert_slide_lookup_before (prs : Deck) (slide : Slide) (position : Z)
    (j : nat) :
  (j < Z.to_nat position)%nat -> (j < length prs)%nat ->
  _insert_slide_at_position prs slide position !! j = prs !! j.
Proof.
  intros Hj Hlen. rewrite insert_slide_at_position_spec.
  rewrite lookup_app_l by (rewrite length_take; lia).
  by rewrite lookup_take_lt by lia.
Qed.

Lemma insert_slide_length (prs : Deck) (slide : Slide) (position : Z) :
  length (_insert_slide_at_position prs slide position) = S (length prs).
Proof.
  rewrite insert_slide_at_position_spec, length_app. cbn [length].
  rewrite length_take, length_drop. lia.
Qed.

(** The insertion loop succeeds when the template has the source slide,
    adds one slide per round and leaves the slides before the first
    insertion position where they were. *)
Lemma insert_template_copies_ok (src : nat) (source : Slide) (count : nat) :
  template !! src = Some source ->
  forall (position : Z) (prs : Deck),
    0 <= position ->
    exists prs' : Deck,
      insert_template_copies src count position prs = Py.Ok prs'
      /\ length prs' = (length prs + count)%nat
      /\ forall j : nat,
           (j < Z.to_nat position)%nat -> (j < length prs)%nat ->
           prs' !! j = prs !! j.
Proof.
  intros Hsrc. induction count as [| count IH]; intros position prs Hpos.
  - exists prs. cbn. split; [done |]. split; [lia | done].
  - cbn [insert_template_copies]. unfold Py.item. rewrite Hsrc.
    cbn [mbind result_bind Py.bind].
    destruct (IH (position + 1)
                (_insert_slide_at_position prs source position))
      as (prs' & Hok & Hlen & Hpre); [lia |].
    exists prs'. split; [done |]. split.
    + rewrite Hlen, insert_slide_length. lia.
    + intros j Hj Hjlen.
      rewrite Hpre by (rewrite ?insert_slide_length; lia).
      by apply insert_slide_lookup_before.
Qed.

(** One extra paper page: the copy of template slide 4 goes to position 5,
    right after the two paper slides and before the project slide. *)
Lemma reconcile_three_paper_pages (prs : Deck) (source : Slide) :
  template !! 4%nat = Some source ->
  reconcile_paper_slides prs 3
  = Py.Ok (take 5 prs ++ copied_slide source :: drop 5 prs).
Proof.
  intros Hsrc. unfold reconcile_paper_slides.
  change (3 =? 0) with false. change (3 =? 1) with false.
  change (2 <? 3) with true. cbv iota zeta.
  change (Z.to_nat (3 - 2)) with 1%nat.
  cbn [insert_template_copies]. unfold Py.item. rewrite Hsrc.
  cbn [mbind result_bind Py.bind].
  by rewrite insert_slide_at_position_spec.
Qed.

Lemma range_nonneg (n : Z) : Forall (fun p => 0 <= p) (Py.range n).
Proof.
  unfold Py.range. apply Forall_forall. intros p Hp.
  apply list_elem_of_In, in_map_iff in Hp as (i & <- & _). lia.
Qed.

(** Step 7 only touches slides from the first project slide on. *)
Lemma fill_project_pages_before (resume : Resume)
    (first project_pages project_pages_count : Z) (pages : list Z) :
  0 <= first ->
  Forall (fun p => 0 <= p) pages ->
  forall (prs : Deck) (j : nat),
    (j < Z.to_nat first)%nat ->
    foldl (fill_project_page resume first project_pages project_pages_count)
      prs pages !! j
    = prs !! j.
Proof.
  intros Hfirst Hpages. induction Hpages as [| p pages Hp _ IH]; intros prs j Hj;
    [done |].
  cbn [foldl]. rewrite IH by done. unfold fill_project_page.
  destruct (_ <? _); [| done].
  by rewrite list_lookup_alter_ne by lia.
Qed.

Lemma fill_project_pages_length (resume : Resume)
    (first project_pages project_pages_count : Z) (pages : list Z) :
  forall prs : Deck,
    length (foldl (fill_project_page resume first project_pages
                     project_pages_count) prs pages)
    = length prs.
Proof.
  induction pages as [| p pages IH]; intros prs; [done |].
  cbn [foldl]. rewrite IH. unfold fill_project_page.
  destruct (_ <? _); [| done]. by rewrite length_alter.
Qed.

(** *** Paper pages *)

Lemma fill_paper_slide_tables (resume : Resume) (window : list PaperItem)
    (current_page total_pages : Z) (slide : Slide) (table : Table)
    (tables : list Table) :
  slide_tables slide = table :: tables ->
  slide_tables (_fill_paper_slide resume window current_page total_pages slide)
  = _fill_paper_table table window :: tables.
Proof.
  intros Htables. unfold _fill_paper_slide, on_first_table, on_texts.
  cbn [slide_tables]. by rewrite Htables.
Qed.

(** A filled paper table holds its window: item [first + i] of the flat
    list in row [i + 1] while the window lasts, blank rows after it. *)
Lemma page_holds_fill (table : Table) (items : list PaperItem)
    (first count : nat) :
  Forall (fun row => (5 <= length row)%nat) table ->
  (first + count <= length items)%nat ->
  (count < length table)%nat ->
  page_holds (_fill_paper_table table (take count (drop first items)))
    table items first count.
Proof.
  intros Hcells Hitems Hrows. unfold page_holds.
  split; [| split; [| split]].
  - intros i Hi.
    destruct (lookup_lt_is_Some_2 items (first + i)) as [p Hp]; [lia |].
    destruct (lookup_lt_is_Some_2 table (S i)) as [row Hrow]; [lia |].
    exists p, row. split; [done |]. split; [done |].
    rewrite fill_paper_table_lookup_S, Hrow.
    rewrite lookup_take_lt, lookup_drop, Hp by lia. cbn.
    rewrite write_paper_row_cells; [done |].
    by apply (proj1 (Forall_lookup _ _) Hcells (S i)).
  - intros i row Hi Hrow.
    rewrite fill_paper_table_lookup_S, Hrow.
    rewrite lookup_ge_None_2 by (rewrite length_take, length_drop; lia).
    cbn. by rewrite clear_row_replicate.
  - apply fill_paper_table_lookup_0.
  - apply fill_paper_table_length.
Qed.

(** One round of step 5 on a slide that exists. *)
Lemma fill_paper_page_step (resume : Resume) (items : list PaperItem)
    (paper_pages : Z) (prs : Deck) (paper_offset page_num capacity : Z) :
  3 + page_num < Py.len prs ->
  default 11 (capacities !! Z.to_nat page_num) = capacity ->
  fill_paper_page resume items paper_pages (prs, paper_offset) page_num
  = (alter
       (_fill_paper_slide resume
          (Py.slice items paper_offset
             (Z.min (paper_offset + capacity) (Py.len items)))
          (page_num + 1) paper_pages)
       (Z.to_nat (3 + page_num)) prs,
     Z.min (paper_offset + capacity) (Py.len items)).
Proof.
  intros Hidx Hcap. unfold fill_paper_page.
  destruct (Z.ltb_spec (3 + page_num) (Py.len prs)); [| lia].
  by rewrite Hcap.
Qed.

(** Step 5 for 25 items on three pages: the windows are the items 0-7,
    8-18 and 19-24. *)
Lemma fill_three_paper_pages (resume : Resume) (items : list PaperItem)
    (prs : Deck) :
  length items = 25%nat ->
  (6 <= length prs)%nat ->
  fill_paper_slides prs resume items 3
  = alter (_fill_paper_slide resume (drop 19 items) 3 3) 5%nat
      (alter (_fill_paper_slide resume (take 11 (drop 8 items)) 2 3) 4%nat
         (alter (_fill_paper_slide resume (take 8 items) 1 3) 3%nat prs)).
Proof.
  intros Hitems Hprs. unfold fill_paper_slides.
  change (0 <? 3) with true. change (Py.range 3) with [0; 1; 2].
  cbv iota. cbn [foldl].
  assert (Py.len items = 25) as Hlen by (unfold Py.len; lia).
  rewrite (fill_paper_page_step _ _ _ _ _ 0 8);
    [| unfold Py.len; lia | reflexivity].
  rewrite (fill_paper_page_step _ _ _ _ _ 1 11);
    [| unfold Py.len; rewrite length_alter; lia | reflexivity].
  rewrite (fill_paper_page_step _ _ _ _ _ 2 11);
    [| unfold Py.len; rewrite !length_alter; lia | reflexivity].
  cbn [fst]. rewrite Hlen.
  change (Z.min (0 + 8) 25) with 8. change (Z.min (8 + 11) 25) with 19.
  change (Z.min (19 + 11) 25) with 25.
  rewrite !slice_nonneg by lia.
  change (Z.to_nat 8 - Z.to_nat 0)%nat with 8%nat.
  change (Z.to_nat 19 - Z.to_nat 8)%nat with 11%nat.
  change (Z.to_nat 25 - Z.to_nat 19)%nat with 6%nat.
  change (Z.to_nat 0) with 0%nat. change (Z.to_nat 8) with 8%nat.
  change (Z.to_nat 19) with 19%nat.
  rewrite drop_0.
  rewrite (take_ge (drop 19 items)) by (rewrite length_drop; lia).
  reflexivity.
Qed.

Lemma reconcile_project_slides_ok (prs : Deck) (paper_pages project_pages_count : Z) :
  (6 <= length template)%nat ->
  0 <= paper_pages ->
  exists prs' : Deck,
    reconcile_project_slides prs paper_pages project_pages_count = Py.Ok prs'
    /\ length prs' = (length prs + Z.to_nat (project_pages_count - 1))%nat
    /\ forall j : nat,
         (j < Z.to_nat (3 + paper_pages + 1))%nat -> (j < length prs)%nat ->
         prs' !! j = prs !! j.
Proof.
  intros Htpl Hpages. unfold reconcile_project_slides.
  destruct (Z.ltb_spec 1 project_pages_count) as [Hmore | Hone].
  - destruct (lookup_lt_is_Some_2 template 5) as [source Hsrc]; [lia |].
    apply (insert_template_copies_ok 5 source _ Hsrc). lia.
  - exists prs. split; [done |]. split; [lia | done].
Qed.

Lemma reconcile_other_slides_ok (prs : Deck) (paper_pages : Z) (resume : Resume) :
  (7 <= length template)%nat ->
  0 <= paper_pages ->
  exists prs' : Deck,
    reconcile_other_slides prs paper_pages (project_pages_count_of resume)
      (other_pages_count_of resume)
    = Py.Ok prs'
    /\ length prs' = (length prs + Z.to_nat (other_pages_count_of resume - 1))%nat
    /\ forall j : nat,
         (j < Z.to_nat (3 + paper_pages + 1))%nat -> (j < length prs)%nat ->
         prs' !! j = prs !! j.
Proof.
  intros Htpl Hpages.
  assert (1 <= other_pages_count_of resume) as Hother.
  { rewrite other_pages_count_planned. apply planned_other_pages_pos. }
  assert (1 <= project_pages_count_of resume) as Hproj.
  { rewrite project_pages_count_agrees. apply planned_project_pages_pos. }
  unfold reconcile_other_slides.
  destruct (Z.ltb_spec 1 (other_pages_count_of resume)) as [Hmore | Hone].
  - destruct (lookup_lt_is_Some_2 template 6) as [source Hsrc]; [lia |].
    destruct (insert_template_copies_ok 6 source
                (Z.to_nat (other_pages_count_of resume - 1)) Hsrc
                (3 + paper_pages + project_pages_count_of resume + 1) prs)
      as (prs' & Hok & Hlen & Hpre); [lia |].
    exists prs'. split; [done |]. split; [done |].
    intros j Hj Hjlen. apply Hpre; lia.
  - destruct (Z.eqb_spec (other_pages_count_of resume) 0); [lia |].
    exists prs. split; [done |]. split; [lia | done].
Qed.

(** C1: a subject with 25 flattened papers, rendered into a deck whose
    slides 3 and 4 are the template's two paper slides.  The planner asks
    for 3 paper pages; step 4 inserts one copy of template slide 4 at
    position 5, in front of the project slide; after the whole pass the
    tables of the slides 3, 4 and 5 hold the items 0-7, 8-18 and 19-24,
    and the rows of the third table past row 6 are blank. *)
Theorem render_25_papers_on_three_pages (prs : Deck) (resume : Resume)
    (s3 s4 s5 : Slide) (t3 t4 t5 : Table) (ts3 ts4 ts5 : list Table) :
  length (extract_paper_items (r_papers resume)) = 25%nat ->
  (7 <= length template)%nat ->
  prs !! 3%nat = Some s3 ->
  prs !! 4%nat = Some s4 ->
  template !! 4%nat = Some s5 ->
  slide_tables s3 = t3 :: ts3 ->
  slide_tables s4 = t4 :: ts4 ->
  slide_tables s5 = t5 :: ts5 ->
  (9 <= length t3)%nat ->
  (12 <= length t4)%nat ->
  (12 <= length t5)%nat ->
  Forall (fun row => (5 <= length row)%nat) (t3 ++ t4 ++ t5) ->
  _calculate_paper_pages (Py.len (extract_paper_items (r_papers resume))) = 3
  /\ (forall d : Deck,
        reconcile_paper_slides d 3
        = Py.Ok (take 5 d ++ copied_slide s5 :: drop 5 d))
  /\ exists (deck : Deck) (f3 f4 f5 : Table),
       _render_single_resume prs resume = Py.Ok deck
       /\ length deck
          = (length prs + 1
             + Z.to_nat (project_pages_count_of resume - 1)
             + Z.to_nat (other_pages_count_of resume - 1))%nat
       /\ slide_tables <$> deck !! 3%nat = Some (f3 :: ts3)
       /\ slide_tables <$> deck !! 4%nat = Some (f4 :: ts4)
       /\ slide_tables <$> deck !! 5%nat = Some (f5 :: ts5)
       /\ page_holds f3 t3 (extract_paper_items (r_papers resume)) 0 8
       /\ page_holds f4 t4 (extract_paper_items (r_papers resume)) 8 11
       /\ page_holds f5 t5 (extract_paper_items (r_papers resume)) 19 6.
Proof.
  intros Hitems Htpl Hs3 Hs4 Hs5 Ht3 Ht4 Ht5 Hr3 Hr4 Hr5 Hcells.
  apply Forall_app in Hcells as [Hc3 Hcells].
  apply Forall_app in Hcells as [Hc4 Hc5].
  set (items := extract_paper_items (r_papers resume)) in *.
  assert (_calculate_paper_pages (Py.len items) = 3) as Hpages.
  { unfold Py.len. by rewrite Hitems. }
  split; [done |].
  split; [intros d; by apply reconcile_three_paper_pages |].
  apply lookup_lt_Some in Hs4 as Hprs.
  assert (1 <= other_pages_count_of resume) as Hother.
  { rewrite other_pages_count_planned. apply planned_other_pages_pos. }
  assert (1 <= project_pages_count_of resume) as Hproj.
  { rewrite project_pages_count_agrees. apply planned_project_pages_pos. }
  unfold _render_single_resume. cbv zeta. fold items. rewrite Hpages.
  destruct (Z.ltb_spec 2 (Py.len prs)) as [_ | Hshort];
    [| unfold Py.len in Hshort; lia].
  set (prs0 := alter (_fill_basic_info_slide resume) 2%nat prs).
  assert (length prs0 = length prs) as Hlen0 by apply length_alter.
  rewrite (reconcile_three_paper_pages prs0 s5 Hs5).
  cbn [mbind result_bind Py.bind].
  set (prs1 := take 5 prs0 ++ copied_slide s5 :: drop 5 prs0).
  assert (length prs1 = S (length prs)) as Hlen1.
  { unfold prs1. rewrite length_app. cbn [length].
    rewrite length_take, length_drop. lia. }
  rewrite fill_three_paper_pages by (done || lia).
  set (prs2 := alter _ 5%nat (alter _ 4%nat (alter _ 3%nat prs1))).
  assert (length prs2 = S (length prs)) as Hlen2.
  { unfold prs2. by rewrite !length_alter. }
  assert (prs1 !! 3%nat = Some s3) as H13.
  { unfold prs1. rewrite lookup_app_l by (rewrite length_take; lia).
    rewrite lookup_take_lt by lia. unfold prs0.
    by rewrite list_lookup_alter_ne by lia. }
  assert (prs1 !! 4%nat = Some s4) as H14.
  { unfold prs1. rewrite lookup_app_l by (rewrite length_take; lia).
    rewrite lookup_take_lt by lia. unfold prs0.
    by rewrite list_lookup_alter_ne by lia. }
  assert (prs1 !! 5%nat = Some (copied_slide s5)) as H15.
  { unfold prs1. rewrite lookup_app_r by (rewrite length_take; lia).
    rewrite length_take. by replace (5 - 5 `min` length prs0)%nat with 0%nat by lia. }
  assert (prs2 !! 3%nat = Some (_fill_paper_slide resume (take 8 items) 1 3 s3))
    as H23.
  { unfold prs2. rewrite !list_lookup_alter_ne by lia.
    by rewrite list_lookup_alter_eq, H13. }
  assert (prs2 !! 4%nat
          = Some (_fill_paper_slide resume (take 11 (drop 8 items)) 2 3 s4))
    as H24.
  { unfold prs2. rewrite list_lookup_alter_ne by lia.
    rewrite list_lookup_alter_eq, list_lookup_alter_ne by lia. by rewrite H14. }
  assert (prs2 !! 5%nat
          = Some (_fill_paper_slide resume (drop 19 items) 3 3 (copied_slide s5)))
    as H25.
  { unfold prs2. rewrite list_lookup_alter_eq.
    rewrite !list_lookup_alter_ne by lia. by rewrite H15. }
  clearbody prs2. clear prs1 Hlen1 H13 H14 H15.
  destruct (reconcile_project_slides_ok prs2 3 (project_pages_count_of resume))
    as (prs3 & Hok3 & Hlen3 & Hpre3); [lia | lia |].
  rewrite Hok3. cbn [mbind result_bind Py.bind].
  destruct (reconcile_other_slides_ok prs3 3 resume)
    as (prs4 & Hok4 & Hlen4 & Hpre4); [lia | lia |].
  change (_calculate_project_pages (r_projects resume) (r_awards resume)
            (other_of resume) - project_pages_count_of resume)
    with (other_pages_count_of resume).
  rewrite Hok4. cbn [mbind result_bind Py.bind].
  set (project_pages :=
         _calculate_project_pages (r_projects resume) (r_awards resume)
           (other_of resume)).
  assert (2 <= project_pages) as Hpp.
  { pose proof (planned_project_pages_pos (r_projects resume)).
    pose proof (planned_other_pages_pos (r_awards resume) (other_of resume)).
    unfold project_pages, _calculate_project_pages. lia. }
  set (prs5 := foldl _ prs4 (Py.range project_pages)).
  assert (length prs5 = length prs4) as Hlen5
    by apply fill_project_pages_length.
  assert (forall j : nat, (j < 6)%nat -> prs5 !! j = prs2 !! j) as Hpre5.
  { intros j Hj. unfold prs5.
    rewrite fill_project_pages_before by (lia || apply range_nonneg).
    rewrite Hpre4 by lia. apply Hpre3; lia. }
  clearbody prs5.
  eexists _, (_fill_paper_table t3 (take 8 items)),
    (_fill_paper_table t4 (take 11 (drop 8 items))),
    (_fill_paper_table t5 (take 6 (drop 19 items))).
  split; [reflexivity |].
  assert (forall j : nat, (j < 6)%nat ->
            (if 3 + 3 + project_pages <? Py.len prs5
             then alter (_fill_talent_office_slide resume)
                    (Z.to_nat (3 + 3 + project_pages)) prs5
             else prs5) !! j = prs2 !! j) as Hpre6.
  { intros j Hj. destruct (_ <? _); [| by apply Hpre5].
    rewrite list_lookup_alter_ne by lia. by apply Hpre5. }
  split.
  { destruct (_ <? _); rewrite ?length_alter; lia. }
  rewrite !Hpre6 by lia. rewrite H23, H24, H25. cbn [fmap option_fmap option_map].
  rewrite (fill_paper_slide_tables _ _ _ _ _ _ _ Ht3).
  rewrite (fill_paper_slide_tables _ _ _ _ _ _ _ Ht4).
  rewrite (fill_paper_slide_tables _ _ _ _ (copied_slide s5) t5 ts5 Ht5).
  rewrite (take_ge (drop 19 items)) by (rewrite length_drop; lia).
  split; [done |]. split; [done |]. split; [done |].
  split; [| split].
  - rewrite <- (drop_0 items) at 1. apply page_holds_fill; (done || lia).
  - apply page_holds_fill; (done || lia).
  - rewrite <- (take_ge (drop 19 items) 6) at 1 by (rewrite length_drop; lia).
    apply page_holds_fill; (done || lia).
Qed.

(** *** Windows of the paginated sections *)

(** Cutting a list into [pages] pieces of [size] elements loses nothing
    when the pieces are enough for the list. *)
Lemma chunks_concat {A} (size : nat) (pages : nat) :
  forall l : list A,
    (length l <= size * pages)%nat ->
    concat ((fun k => take size (drop (size * k) l)) <$> seq 0 pages) = l.
Proof.
  induction pages as [| pages IH]; intros l Hlen.
  - cbn. destruct l; [done | cbn in Hlen; lia].
  - cbn [seq fmap list_fmap concat]. rewrite Nat.mul_0_r, drop_0.
    transitivity (take size l ++ drop size l); [| apply take_drop]. f_equal.
    rewrite <- (IH (drop size l)) by (rewrite length_drop; lia).
    f_equal. rewrite <- fmap_S_seq, <- list_fmap_compose.
    apply list_fmap_ext. intros i k _. cbn.
    rewrite drop_drop. do 2 f_equal. lia.
Qed.

Lemma range_snoc (n : nat) :
  Py.range (Z.of_nat (S n)) = Py.range (Z.of_nat n) ++ [Z.of_nat n].
Proof.
  unfold Py.range. rewrite !Nat2Z.id. rewrite seq_S, map_app. reflexivity.
Qed.

Lemma page_capacity_first : page_capacity 0 = 8.
Proof. reflexivity. Qed.

Lemma page_capacity_later (k : nat) : page_capacity (S k) = 11.
Proof. do 5 (destruct k as [| k]; [reflexivity |]). reflexivity. Qed.

Lemma page_start_later (k : nat) : page_start (S k) = 8 + 11 * Z.of_nat k.
Proof.
  induction k as [| k IH]; [reflexivity |].
  change (page_start (S (S k))) with (page_start (S k) + page_capacity (S k)).
  rewrite IH, page_capacity_later. lia.
Qed.

Lemma page_capacity_pos (k : nat) : 0 < page_capacity k.
Proof. destruct k; [reflexivity | by rewrite page_capacity_later]. Qed.

Lemma page_start_nonneg (k : nat) : 0 <= page_start k.
Proof. destruct k; [done | rewrite page_start_later; lia]. Qed.

(** The slice step 5 takes for page [k] once the pages before it are
    filled. *)
Lemma paper_window_slice (items : list PaperItem) (k : nat) :
  Py.slice items (Z.min (page_start k) (Py.len items))
    (Z.min (Z.min (page_start k) (Py.len items) + page_capacity k)
       (Py.len items))
  = paper_window items k.
Proof.
  pose proof (page_start_nonneg k) as Hs. pose proof (page_capacity_pos k) as Hc.
  pose proof (len_nonneg items) as Hn.
  rewrite slice_nonneg by lia. unfold paper_window, Py.len in *.
  destruct (Z.le_gt_cases (Z.of_nat (length items)) (page_start k)) as [Hout | Hin].
  - rewrite !drop_ge by lia. by rewrite !take_nil.
  - rewrite (Z.min_l (page_start k)) by lia.
    set (rest := drop (Z.to_nat (page_start k)) items).
    assert (length rest = (length items - Z.to_nat (page_start k))%nat) as Hrest
      by apply length_drop.
    destruct (Z.le_gt_cases (page_start k + page_capacity k)
                (Z.of_nat (length items))) as [Hfull | Hpart].
    + rewrite Z.min_l by lia. f_equal. lia.
    + rewrite Z.min_r by lia. rewrite !take_ge; [done | lia | lia].
Qed.

(** The state of the loop of step 5 after [m] pages whose slides exist. *)
Lemma fill_paper_pages_fold (resume : Resume) (items : list PaperItem)
    (pages : Z) (prs : Deck) (m : nat) :
  3 + Z.of_nat m <= Py.len prs ->
  exists deck : Deck,
    foldl (fill_paper_page resume items pages) (prs, 0) (Py.range (Z.of_nat m))
    = (deck, Z.min (page_start m) (Py.len items))
    /\ length deck = length prs
    /\ forall j : nat,
         deck !! j
         = if decide (3 <= j < 3 + m)%nat
           then _fill_paper_slide resume (paper_window items (j - 3))
                  (Z.of_nat (j - 3) + 1) pages <$> prs !! j
           else prs !! j.
Proof.
  induction m as [| m IH]; intros Hlen.
  - exists prs. pose proof (len_nonneg items). split; [| split].
    + change (Py.range (Z.of_nat 0)) with (@nil Z). cbn [foldl page_start].
      f_equal. lia.
    + done.
    + intros j. by rewrite decide_False by lia.
  - destruct IH as (deck & Hfold & Hdeck & Hlook); [lia |].
    rewrite range_snoc, foldl_app, Hfold. cbn [foldl].
    rewrite (fill_paper_page_step _ _ _ _ _ _ (page_capacity m));
      [| unfold Py.len in *; lia | unfold page_capacity; by rewrite Nat2Z.id].
    rewrite paper_window_slice.
    eexists. split; [| split].
    + f_equal. cbn [page_start].
      pose proof (page_capacity_pos m). lia.
    + by rewrite length_alter.
    + intros j. replace (Z.to_nat (3 + Z.of_nat m)) with (3 + m)%nat by lia.
      destruct (decide (j = 3 + m)%nat) as [-> | Hne].
      * rewrite list_lookup_alter_eq, Hlook.
        rewrite decide_False by lia. rewrite decide_True by lia.
        by replace (3 + m - 3)%nat with m by lia.
      * rewrite list_lookup_alter_ne by done. rewrite Hlook.
        destruct (decide (3 <= j < 3 + m)%nat).
        -- by rewrite decide_True by lia.
        -- by rewrite decide_False by lia.
Qed.

(** Step 5, slide by slide. *)
Lemma fill_paper_slides_lookup (prs : Deck) (resume : Resume)
    (items : list PaperItem) (paper_pages : Z) :
  0 <= paper_pages ->
  3 + paper_pages <= Py.len prs ->
  length (fill_paper_slides prs resume items paper_pages) = length prs
  /\ forall j : nat,
       fill_paper_slides prs resume items paper_pages !! j
       = if decide (3 <= j < 3 + Z.to_nat paper_pages)%nat
         then _fill_paper_slide resume (paper_window items (j - 3))
                (Z.of_nat (j - 3) + 1) paper_pages <$> prs !! j
         else prs !! j.
Proof.
  intros Hpages Hlen. unfold fill_paper_slides.
  destruct (Z.ltb_spec 0 paper_pages) as [Hpos | Hzero].
  - destruct (fill_paper_pages_fold resume items paper_pages prs
                (Z.to_nat paper_pages)) as (deck & Hfold & Hdeck & Hlook);
      [lia |].
    rewrite Z2Nat.id in Hfold by lia. rewrite Hfold. by cbn [fst].
  - split; [done |]. intros j. by rewrite decide_False by lia.
Qed.

(** X2: step 5 on a deck that has a slide for every planned paper page.
    Slide [3 + k] is filled with the window of page [k], for each page
    [k] below [paper_pages]; every other slide stays as it was, and the
    deck keeps its length. *)
Theorem paper_slides_show_their_windows (prs : Deck) (resume : Resume)
    (items : list PaperItem) (paper_pages : Z) :
  0 <= paper_pages ->
  3 + paper_pages <= Py.len prs ->
  length (fill_paper_slides prs resume items paper_pages) = length prs
  /\ (forall k : nat,
        (k < Z.to_nat paper_pages)%nat ->
        fill_paper_slides prs resume items paper_pages !! (3 + k)%nat
        = _fill_paper_slide resume (paper_window items k) (Z.of_nat k + 1)
            paper_pages <$> prs !! (3 + k)%nat)
  /\ (forall j : nat,
        (j < 3 \/ 3 + Z.to_nat paper_pages <= j)%nat ->
        fill_paper_slides prs resume items paper_pages !! j = prs !! j).
Proof.
  intros Hpages Hlen.
  destruct (fill_paper_slides_lookup prs resume items paper_pages Hpages Hlen)
    as [Hlength Hlook].
  split; [done |]. split.
  - intros k Hk. rewrite Hlook, decide_True by lia.
    by replace (3 + k - 3)%nat with k by lia.
  - intros j Hj. by rewrite Hlook, decide_False by lia.
Qed.

(** X3: the pages the paper planner asks for hold every item exactly once,
    in order, and none of them is empty. *)
Theorem paper_plan_holds_every_item (items : list PaperItem) :
  concat (paper_window items
            <$> seq 0 (Z.to_nat (_calculate_paper_pages (Py.len items))))
  = items
  /\ forall k : nat,
       (k < Z.to_nat (_calculate_paper_pages (Py.len items)))%nat ->
       paper_window items k <> [].
Proof.
  unfold _calculate_paper_pages.
  pose proof (len_nonneg items) as Hn.
  destruct (Z.eqb_spec (Py.len items) 0) as [Hzero | Hpos].
  { split; [| intros k Hk; cbn in Hk; lia].
    by rewrite (len_nil_inv items) by lia. }
  assert (forall k : nat, page_start k < Py.len items -> paper_window items k <> [])
    as Hnonempty.
  { intros k Hk Hnil. apply (f_equal length) in Hnil.
    pose proof (page_capacity_pos k). pose proof (page_start_nonneg k).
    unfold paper_window, Py.len in *.
    rewrite length_take, length_drop in Hnil. cbn in Hnil. lia. }
  destruct (Z.leb_spec (Py.len items) 8) as [Hone | Hmore].
  - split.
    + change (Z.to_nat 1) with 1%nat. cbn [seq fmap list_fmap concat].
      rewrite app_nil_r. unfold paper_window.
      change (Z.to_nat (page_start 0)) with 0%nat.
      change (Z.to_nat (page_capacity 0)) with 8%nat.
      rewrite drop_0. apply take_ge. unfold Py.len in *. lia.
    + intros k Hk. apply Hnonempty. destruct k; [cbn; lia | lia].
  - cbv zeta.
    pose proof (ceil_div_bounds (Py.len items - 8) 11 eq_refl) as Hq.
    set (q := Py.ceil_div (Py.len items - 8) 11) in *.
    assert (1 <= q) as Hq1 by lia.
    replace (Z.to_nat (1 + q)) with (S (Z.to_nat q)) by lia.
    split.
    + cbn [seq fmap list_fmap concat].
      transitivity (take 8 items ++ drop 8 items); [| apply take_drop].
      f_equal.
      rewrite <- (chunks_concat 11 (Z.to_nat q) (drop 8 items))
        by (rewrite length_drop; unfold Py.len in *; lia).
      f_equal. rewrite <- fmap_S_seq, <- list_fmap_compose.
      apply list_fmap_ext. intros i k _. cbn [compose].
      unfold paper_window. rewrite page_capacity_later, page_start_later.
      rewrite drop_drop. change (Z.to_nat 11) with 11%nat.
      do 2 f_equal. lia.
    + intros k Hk. apply Hnonempty. destruct k as [| k]; [cbn; lia |].
      rewrite page_start_later. lia.
Qed.

Lemma fill_project_slide_project_page (resume : Resume) (slide : Slide)
    (table : Table) (tables : list Table) (k : nat)
    (total_pages project_pages_count : Z) :
  Z.of_nat k < project_pages_count ->
  slide_tables slide = table :: tables ->
  slide_tables
    (_fill_project_slide_paginated resume (Z.of_nat k) total_pages
       project_pages_count slide)
  = _fill_projects_table table (take 10 (drop (10 * k) (r_projects resume)))
      :: tables.
Proof.
  intros Hk Htables. unfold _fill_project_slide_paginated. cbv zeta.
  destruct (Z.ltb_spec (Z.of_nat k) project_pages_count); [| lia].
  unfold on_first_table, on_texts. cbn [slide_tables]. rewrite Htables.
  cbn [slide_tables]. do 2 f_equal.
  pose proof (len_nonneg (r_projects resume)) as Hn.
  rewrite slice_nonneg by lia.
  replace (Z.to_nat (Z.of_nat k * 10)) with (10 * k)%nat by lia.
  set (rest := drop (10 * k) (r_projects resume)).
  assert (length rest = (length (r_projects resume) - 10 * k)%nat) as Hrest
    by apply length_drop.
  unfold Py.len in *.
  destruct (Z.le_gt_cases (Z.of_nat k * 10 + 10)
              (Z.of_nat (length (r_projects resume)))) as [Hfull | Hpart].
  - rewrite Z.min_l by lia. f_equal. lia.
  - rewrite Z.min_r by lia. rewrite !take_ge; [done | lia | lia].
Qed.

(** X4: the project pages.  Page [k] below the project page count fills
    the table of its slide with the projects [10 k] to [10 k + 9]; over
    the pages the planner counts, these windows are the project list, each
    project once and in order. *)
Theorem project_pages_hold_every_project (resume : Resume) :
  concat ((fun k => take 10 (drop (10 * k) (r_projects resume)))
            <$> seq 0 (Z.to_nat (project_pages_count_of resume)))
  = r_projects resume
  /\ forall (k : nat) (slide : Slide) (table : Table) (tables : list Table)
       (total_pages : Z),
       (k < Z.to_nat (project_pages_count_of resume))%nat ->
       slide_tables slide = table :: tables ->
       slide_tables
         (_fill_project_slide_paginated resume (Z.of_nat k) total_pages
            (project_pages_count_of resume) slide)
       = _fill_projects_table table
           (take 10 (drop (10 * k) (r_projects resume))) :: tables.
Proof.
  split.
  - apply chunks_concat. unfold project_pages_count_of.
    pose proof (len_nonneg (r_projects resume)) as Hn.
    destruct (Z.ltb_spec 0 (Py.len (r_projects resume))) as [Hpos | Hzero].
    + pose proof (ceil_div_bounds (Py.len (r_projects resume)) 10 eq_refl).
      unfold Py.len in *. lia.
    + unfold Py.len in *. lia.
  - intros k slide table tables total_pages Hk Htables.
    apply fill_project_slide_project_page; [lia | done].
Qed.

Lemma slice_window {A} (l : list A) (a c : Z) :
  0 <= a -> 0 <= c ->
  Py.slice l a (Z.min (a + c) (Py.len l))
  = take (Z.to_nat c) (drop (Z.to_nat a) l).
Proof.
  intros Ha Hc. pose proof (len_nonneg l) as Hn.
  rewrite slice_nonneg by lia. unfold Py.len in *.
  set (rest := drop (Z.to_nat a) l).
  assert (length rest = (length l - Z.to_nat a)%nat) as Hrest by apply length_drop.
  destruct (Z.le_gt_cases (a + c) (Z.of_nat (length l))) as [Hfull | Hpart].
  - rewrite Z.min_l by lia. f_equal. lia.
  - rewrite Z.min_r by lia.
    destruct (Z.le_gt_cases (Z.of_nat (length l)) a) as [Hout | Hin].
    + unfold rest. rewrite !drop_ge by lia. by rewrite !take_nil.
    + rewrite !take_ge; [done | lia | lia].
Qed.

Lemma fill_achievements_note_unread (table : Table) (other : list OtherItem)
    (awards : list Award) (note1 note2 : bool) :
  _fill_other_achievements_table table other awards note1
  = _fill_other_achievements_table table other awards note2.
Proof. reflexivity. Qed.

(** X5: the pages of the merged achievements section.  Page [p] is filled
    from a run of awards and a run of other achievements that together are
    rows [7 p] to [7 p + 6] of the row stream "all awards, then all other
    achievements"; and the pages the planner counts are enough for the
    whole stream. *)
Theorem achievements_pages_follow_merged_stream (awards : list Award)
    (other : list OtherItem) (p : nat) (table : Table) :
  (exists (awards_on_page : list Award) (other_on_page : list OtherItem),
      fill_achievements_page awards other (Z.of_nat p) table
      = _fill_other_achievements_table table other_on_page awards_on_page true
      /\ ((inl <$> awards_on_page) ++ (inr <$> other_on_page)
          : list (Award + OtherItem))
         = take 7 (drop (7 * p) ((inl <$> awards) ++ (inr <$> other))))
  /\ (length awards + length other
      <= 7 * Z.to_nat (planned_other_pages awards other))%nat.
Proof.
  assert (Py.len awards = Z.of_nat (length awards)) as Hla by reflexivity.
  assert (Py.len other = Z.of_nat (length other)) as Hlo by reflexivity.
  split.
  - exists (take 7 (drop (7 * p) awards)),
      (take (7 - length (take 7 (drop (7 * p) awards)))
         (drop (7 * p - length awards) other)).
    split.
    + unfold fill_achievements_page. cbv zeta.
      set (s := Z.of_nat p * 7).
      assert (Z.to_nat s = (7 * p)%nat) as Hs by lia.
      assert (length (take 7 (drop (7 * p) awards))
              = Nat.min 7 (length awards - 7 * p)) as Hlen_a
        by by rewrite length_take, length_drop.
      destruct (Z.ltb_spec s (Py.len awards)) as [Hin | Hout].
      * replace (Z.min (Z.min (s + 7) (Py.len awards + Py.len other))
                   (Py.len awards))
          with (Z.min (s + 7) (Py.len awards)) by lia.
        rewrite slice_window by lia. rewrite Hs.
        change (Z.to_nat 7) with 7%nat.
        set (a_p := take 7 (drop (7 * p) awards)) in *.
        assert (Py.len a_p = Z.of_nat (Nat.min 7 (length awards - 7 * p)))
          as Hlen_a' by (unfold Py.len; by rewrite Hlen_a).
        rewrite (fill_achievements_note_unread _ _ _ _ true).
        destruct (Z.ltb_spec 0 (7 - Py.len a_p)) as [Hroom | Hfull];
          destruct (Z.ltb_spec (Py.len awards)
                      (Z.min (s + 7) (Py.len awards + Py.len other)))
            as [Hmore | Hnone]; cbn [andb].
        -- rewrite Z.max_l by lia.
           replace (Z.min (s + 7) (Py.len awards + Py.len other) - Py.len awards)
             with (Z.min (0 + (s + 7 - Py.len awards)) (Py.len other)) by lia.
           rewrite slice_window by lia.
           change (Z.to_nat 0) with 0%nat.
           replace (7 * p - length awards)%nat with 0%nat by lia.
           do 2 f_equal. lia.
        -- rewrite (len_nil_inv other) by lia.
           by rewrite drop_nil, take_nil.
        -- by replace (7 - length a_p)%nat with 0%nat by lia.
        -- by replace (7 - length a_p)%nat with 0%nat by lia.
      * rewrite (drop_ge awards) by lia.
        rewrite take_nil. cbn [length].
        replace (Z.min (s + 7) (Py.len awards + Py.len other) - Py.len awards)
          with (Z.min (s - Py.len awards + 7) (Py.len other)) by lia.
        rewrite slice_window by lia.
        change (Z.to_nat 7) with 7%nat.
        replace (Z.to_nat (s - Py.len awards)) with (7 * p - length awards)%nat
          by lia.
        reflexivity.
    + rewrite drop_app, take_app, !fmap_take, !fmap_drop, !length_fmap.
      f_equal.
      rewrite !length_take, !length_drop, !length_fmap.
      destruct (decide (7 <= length awards - 7 * p)%nat).
      * replace (7 - 7 `min` (length awards - 7 * p))%nat with 0%nat by lia.
        by replace (7 - (length awards - 7 * p))%nat with 0%nat by lia.
      * f_equal. lia.
  - unfold planned_other_pages. rewrite !truthy_len.
    destruct (Z.ltb_spec 0 (Py.len awards));
      destruct (Z.ltb_spec 0 (Py.len other)); cbn [orb]; cbv zeta;
      try (destruct (Z.eqb_spec (Py.len awards + Py.len other) 0); [lia |];
           destruct (Z.leb_spec (Py.len awards + Py.len other) 7); [lia |];
           pose proof (ceil_div_bounds (Py.len awards + Py.len other - 7)
                         7 eq_refl);
           lia).
Qed.

(** *** Merging and the slide positions of the sections *)

Lemma copy_slides_fold (slides : list Slide) :
  forall final_prs : Deck,
    foldl _copy_slide_to_presentation final_prs slides
    = final_prs ++ (copied_slide <$> slides).
Proof.
  induction slides as [| slide slides IH]; intros final_prs.
  - cbn. by rewrite app_nil_r.
  - cbn [foldl]. rewrite IH. unfold _copy_slide_to_presentation.
    by rewrite <- app_assoc.
Qed.

(** X6: what [render_all] merges from a rendered copy of the template.
    The two index ranges of the loop together are every slide from the
    third on, in order; the cover and the summary slide of the copy are
    never merged.  Each merged slide is appended to the final deck, and a
    pass that raises leaves nothing appended. *)
Theorem merge_takes_slides_from_the_third (final_prs temp_prs : Deck)
    (resume : Resume) :
  slides_to_copy temp_prs = drop 2 temp_prs
  /\ render_next final_prs resume
     = match _render_single_resume template resume with
       | Py.Ok rendered =>
           Py.Ok (final_prs ++ (copied_slide <$> drop 2 rendered))
       | Py.Raise e => Py.Raise e
       end.
Proof.
  assert (forall d : Deck, slides_to_copy d = drop 2 d) as Hcopy.
  { intros d. unfold slides_to_copy.
    assert (Py.len d = Z.of_nat (length d)) as Hd by reflexivity.
    destruct (Z.ltb_spec 7 (Py.len d)) as [Hlong | Hshort].
    - rewrite !slice_nonneg by lia. rewrite Z.min_l by lia.
      change (Z.to_nat 7 - Z.to_nat 2)%nat with 5%nat.
      change (Z.to_nat 2) with 2%nat. change (Z.to_nat 7) with 7%nat.
      rewrite (take_ge (drop 7 d)) by (rewrite length_drop; lia).
      rewrite <- (take_drop 5 (drop 2 d)) at 2. by rewrite drop_drop.
    - rewrite app_nil_r, slice_nonneg by lia. rewrite Z.min_r by lia.
      change (Z.to_nat 2) with 2%nat.
      apply take_ge. rewrite length_drop. lia. }
  split; [apply Hcopy |].
  unfold render_next.
  destruct (_render_single_resume template resume) as [rendered | e];
    cbn [mbind result_bind Py.bind]; [| done].
  by rewrite Hcopy, copy_slides_fold.
Qed.

(** The insertion loop, in closed form, when the position is in the deck. *)
Lemma insert_template_copies_exact (src : nat) (source : Slide) (count : nat) :
  template !! src = Some source ->
  forall (position : Z) (prs : Deck),
    0 <= position ->
    (Z.to_nat position <= length prs)%nat ->
    insert_template_copies src count position prs
    = Py.Ok (take (Z.to_nat position) prs
               ++ replicate count (copied_slide source)
               ++ drop (Z.to_nat position) prs).
Proof.
  intros Hsrc. induction count as [| count IH]; intros position prs Hpos Hin.
  - cbn. by rewrite take_drop.
  - cbn [insert_template_copies]. unfold Py.item. rewrite Hsrc.
    cbn [mbind result_bind Py.bind].
    rewrite IH by (rewrite ?insert_slide_length; lia).
    rewrite insert_slide_at_position_spec. f_equal.
    replace (Z.to_nat (position + 1)) with (S (Z.to_nat position)) by lia.
    set (n := Z.to_nat position) in *.
    assert (length (take n prs) = n) as Htake by (rewrite length_take; lia).
    replace (take n prs ++ copied_slide source :: drop n prs)
      with ((take n prs ++ [copied_slide source]) ++ drop n prs)
      by (by rewrite <- app_assoc).
    rewrite (take_app_length' (take n prs ++ [copied_slide source]))
      by (rewrite length_app; cbn; lia).
    rewrite (drop_app_length' (take n prs ++ [copied_slide source]))
      by (rewrite length_app; cbn; lia).
    by rewrite <- !app_assoc.
Qed.

(** X7: step 4 on a deck with the template's two paper slides.  Whatever
    the number of paper pages, the first three slides stay where they are,
    the deck has [paper_pages] paper slides in place of two, and the slides
    that followed the paper section (projects, achievements, closing) now
    start at position [3 + paper_pages], in their old order. *)
Theorem paper_section_resized_in_place (prs : Deck) (paper_pages : Z) :
  0 <= paper_pages ->
  (5 <= length prs)%nat ->
  (5 <= length template)%nat ->
  exists prs' : Deck,
    reconcile_paper_slides prs paper_pages = Py.Ok prs'
    /\ take 3 prs' = take 3 prs
    /\ drop (3 + Z.to_nat paper_pages) prs' = drop 5 prs
    /\ (length prs' + 2 = length prs + Z.to_nat paper_pages)%nat.
Proof.
  intros Hpages Hprs Htpl. unfold reconcile_paper_slides, drop_slide.
  assert (Py.len prs = Z.of_nat (length prs)) as Hlen by reflexivity.
  destruct (Z.eqb_spec paper_pages 0) as [-> | Hne0].
  { destruct (Z.ltb_spec 4 (Py.len prs)); [| lia].
    assert (Py.len (delete 4%nat prs) = Z.of_nat (length prs) - 1) as Hlen'.
    { unfold Py.len. rewrite length_delete by (apply lookup_lt_is_Some_2; lia).
      lia. }
    destruct (Z.ltb_spec 3 (Py.len (delete 4%nat prs))); [| lia].
    eexists. split; [reflexivity |].
    rewrite !delete_take_drop.
    assert (length (take 4 prs) = 4%nat) as H4 by (rewrite length_take; lia).
    assert (take 3 (take 4 prs ++ drop 5 prs) = take 3 prs) as ->.
    { rewrite take_app_le by lia. by rewrite take_take. }
    assert (drop 4 (take 4 prs ++ drop 5 prs) = drop 5 prs) as ->
      by by apply drop_app_length'.
    assert (length (take 3 prs) = 3%nat) as H3 by (rewrite length_take; lia).
    split; [| split].
    - by rewrite take_app_length' by done.
    - change (3 + Z.to_nat 0)%nat with 3%nat. by rewrite drop_app_length' by done.
    - rewrite length_app, length_drop. lia. }
  destruct (Z.eqb_spec paper_pages 1) as [-> | Hne1].
  { destruct (Z.ltb_spec 4 (Py.len prs)); [| lia].
    eexists. split; [reflexivity |].
    rewrite delete_take_drop.
    assert (length (take 4 prs) = 4%nat) as H4 by (rewrite length_take; lia).
    split; [| split].
    - rewrite take_app_le by lia. rewrite take_take. done.
    - change (3 + Z.to_nat 1)%nat with 4%nat. by rewrite drop_app_length' by done.
    - rewrite length_app, length_drop. lia. }
  destruct (Z.ltb_spec 2 paper_pages) as [Hmore | Htwo].
  - destruct (lookup_lt_is_Some_2 template 4) as [source Hsrc]; [lia |].
    rewrite (insert_template_copies_exact 4 source _ Hsrc) by lia.
    eexists. split; [reflexivity |].
    change (Z.to_nat 5) with 5%nat.
    assert (length (take 5 prs) = 5%nat) as H5 by (rewrite length_take; lia).
    split; [| split].
    + rewrite take_app_le by lia. rewrite take_take. done.
    + rewrite app_assoc. apply drop_app_length'.
      rewrite length_app, length_replicate. lia.
    + rewrite !length_app, length_replicate, length_drop. lia.
  - assert (paper_pages = 2) as -> by lia.
    exists prs. split; [done |]. split; [done |]. split; [done | lia].
Qed.

Lemma lookup_insert_block {A} (l : list A) (p n : nat) (x : A) (j : nat) :
  (p <= length l)%nat ->
  (take p l ++ replicate n x ++ drop p l) !! j
  = if decide (j < p)%nat then l !! j
    else if decide (j < p + n)%nat then Some x
         else l !! (j - n)%nat.
Proof.
  intros Hp.
  assert (length (take p l) = p) as Htake by (rewrite length_take; lia).
  destruct (decide (j < p)%nat) as [Hj | Hj].
  - rewrite lookup_app_l by lia. by apply lookup_take_lt.
  - rewrite lookup_app_r by lia. rewrite Htake.
    destruct (decide (j < p + n)%nat) as [Hn | Hn].
    + rewrite lookup_app_l by (rewrite length_replicate; lia).
      apply lookup_replicate_2. lia.
    + rewrite lookup_app_r by (rewrite length_replicate; lia).
      rewrite length_replicate, lookup_drop. f_equal. lia.
Qed.

(** The insertion loop, slide by slide. *)
Lemma insert_template_copies_lookup (src : nat) (source : Slide) (count p : nat)
    (prs : Deck) :
  template !! src = Some source ->
  (p <= length prs)%nat ->
  exists prs' : Deck,
    insert_template_copies src count (Z.of_nat p) prs = Py.Ok prs'
    /\ length prs' = (length prs + count)%nat
    /\ forall j : nat,
         prs' !! j
         = if decide (j < p)%nat then prs !! j
           else if decide (j < p + count)%nat then Some (copied_slide source)
                else prs !! (j - count)%nat.
Proof.
  intros Hsrc Hp.
  rewrite (insert_template_copies_exact src source count Hsrc) by lia.
  rewrite Nat2Z.id. eexists. split; [reflexivity |]. split.
  - rewrite !length_app, length_take, length_replicate, length_drop. lia.
  - intros j. by apply lookup_insert_block.
Qed.

(** Step 4, slide by slide. *)
Lemma reconcile_paper_lookup (prs : Deck) (paper_pages : Z) (t4 : Slide) :
  0 <= paper_pages ->
  (5 <= length prs)%nat ->
  template !! 4%nat = Some t4 ->
  exists prs' : Deck,
    reconcile_paper_slides prs paper_pages = Py.Ok prs'
    /\ (length prs' + 2 = length prs + Z.to_nat paper_pages)%nat
    /\ forall j : nat,
         prs' !! j
         = if decide (j < 3)%nat then prs !! j
           else if decide (j < 3 + Z.to_nat paper_pages)%nat
                then (if decide (j < 5)%nat then prs !! j
                      else Some (copied_slide t4))
                else prs !! (j + 2 - Z.to_nat paper_pages)%nat.
Proof.
  intros Hpages Hprs Hsrc. unfold reconcile_paper_slides, drop_slide.
  assert (Py.len prs = Z.of_nat (length prs)) as Hlen by reflexivity.
  destruct (Z.eqb_spec paper_pages 0) as [-> | Hne0].
  { destruct (Z.ltb_spec 4 (Py.len prs)); [| lia].
    assert (length (delete 4%nat prs) = (length prs - 1)%nat) as Hlen'.
    { rewrite length_delete by (apply lookup_lt_is_Some_2; lia). lia. }
    destruct (Z.ltb_spec 3 (Py.len (delete 4%nat prs)));
      [| unfold Py.len in *; lia].
    eexists. split; [reflexivity |]. split.
    - rewrite length_delete by (apply lookup_lt_is_Some_2; lia). lia.
    - intros j. change (Z.to_nat 0) with 0%nat.
      destruct (decide (j < 3)%nat).
      + by rewrite !list_lookup_delete_lt by lia.
      + rewrite decide_False by lia.
        rewrite !list_lookup_delete_ge by lia. f_equal. lia. }
  destruct (Z.eqb_spec paper_pages 1) as [-> | Hne1].
  { destruct (Z.ltb_spec 4 (Py.len prs)); [| lia].
    eexists. split; [reflexivity |]. split.
    - rewrite length_delete by (apply lookup_lt_is_Some_2; lia). lia.
    - intros j. change (Z.to_nat 1) with 1%nat.
      destruct (decide (j < 3)%nat).
      + by rewrite list_lookup_delete_lt by lia.
      + destruct (decide (j < 3 + 1)%nat).
        * rewrite decide_True by lia. by rewrite list_lookup_delete_lt by lia.
        * rewrite list_lookup_delete_ge by lia. f_equal. lia. }
  destruct (Z.ltb_spec 2 paper_pages) as [Hmore | Htwo].
  - destruct (insert_template_copies_lookup 4 t4 (Z.to_nat (paper_pages - 2))
                5 prs Hsrc Hprs) as (prs' & Hok & Hlen' & Hlook).
    exists prs'. split; [exact Hok |]. split; [lia |].
    intros j. rewrite Hlook.
    destruct (decide (j < 3)%nat); [by rewrite decide_True by lia |].
    destruct (decide (j < 5)%nat).
    + by rewrite decide_True by lia.
    + destruct (decide (j < 5 + Z.to_nat (paper_pages - 2))%nat).
      * by rewrite decide_True by lia.
      * rewrite decide_False by lia. f_equal. lia.
  - assert (paper_pages = 2) as -> by lia.
    exists prs. split; [done |]. split; [lia |].
    intros j. change (Z.to_nat 2) with 2%nat.
    destruct (decide (j < 3)%nat); [done |].
    destruct (decide (j < 3 + 2)%nat).
    + by rewrite decide_True by lia.
    + f_equal. lia.
Qed.

(** Step 6.1, slide by slide. *)
Lemma reconcile_project_lookup (prs : Deck) (paper_pages project_pages_count : Z)
    (t5 : Slide) :
  0 <= paper_pages ->
  1 <= project_pages_count ->
  (4 + Z.to_nat paper_pages <= length prs)%nat ->
  template !! 5%nat = Some t5 ->
  exists prs' : Deck,
    reconcile_project_slides prs paper_pages project_pages_count = Py.Ok prs'
    /\ length prs' = (length prs + (Z.to_nat project_pages_count - 1))%nat
    /\ forall j : nat,
         prs' !! j
         = if decide (j < 4 + Z.to_nat paper_pages)%nat then prs !! j
           else if decide (j < 4 + Z.to_nat paper_pages
                               + (Z.to_nat project_pages_count - 1))%nat
                then Some (copied_slide t5)
                else prs !! (j - (Z.to_nat project_pages_count - 1))%nat.
Proof.
  intros Hpages Hcount Hlen Hsrc. unfold reconcile_project_slides.
  destruct (Z.ltb_spec 1 project_pages_count) as [Hmore | Hone].
  - replace (3 + paper_pages + 1) with (Z.of_nat (4 + Z.to_nat paper_pages)) by lia.
    replace (Z.to_nat (project_pages_count - 1))
      with (Z.to_nat project_pages_count - 1)%nat by lia.
    by apply insert_template_copies_lookup.
  - exists prs. split; [done |]. split; [lia |].
    intros j. replace (Z.to_nat project_pages_count - 1)%nat with 0%nat by lia.
    destruct (decide (j < 4 + Z.to_nat paper_pages)%nat); [done |].
    rewrite decide_False by lia. f_equal. lia.
Qed.

(** Step 6.2, slide by slide. *)
Lemma reconcile_other_lookup (prs : Deck) (paper_pages : Z) (resume : Resume)
    (t6 : Slide) :
  0 <= paper_pages ->
  (4 + Z.to_nat paper_pages + Z.to_nat (project_pages_count_of resume)
   <= length prs)%nat ->
  template !! 6%nat = Some t6 ->
  exists prs' : Deck,
    reconcile_other_slides prs paper_pages (project_pages_count_of resume)
      (other_pages_count_of resume)
    = Py.Ok prs'
    /\ length prs'
       = (length prs + (Z.to_nat (other_pages_count_of resume) - 1))%nat
    /\ forall j : nat,
         prs' !! j
         = if decide (j < 4 + Z.to_nat paper_pages
                          + Z.to_nat (project_pages_count_of resume))%nat
           then prs !! j
           else if decide (j < 4 + Z.to_nat paper_pages
                               + Z.to_nat (project_pages_count_of resume)
                               + (Z.to_nat (other_pages_count_of resume) - 1))%nat
                then Some (copied_slide t6)
                else prs !! (j - (Z.to_nat (other_pages_count_of resume) - 1))%nat.
Proof.
  intros Hpages Hlen Hsrc.
  assert (1 <= other_pages_count_of resume) as Hother.
  { rewrite other_pages_count_planned. apply planned_other_pages_pos. }
  assert (1 <= project_pages_count_of resume) as Hproj.
  { rewrite project_pages_count_agrees. apply planned_project_pages_pos. }
  unfold reconcile_other_slides.
  destruct (Z.ltb_spec 1 (other_pages_count_of resume)) as [Hmore | Hone].
  - replace (3 + paper_pages + project_pages_count_of resume + 1)
      with (Z.of_nat (4 + Z.to_nat paper_pages
                      + Z.to_nat (project_pages_count_of resume))) by lia.
    replace (Z.to_nat (other_pages_count_of resume - 1))
      with (Z.to_nat (other_pages_count_of resume) - 1)%nat by lia.
    by apply insert_template_copies_lookup.
  - destruct (Z.eqb_spec (other_pages_count_of resume) 0); [lia |].
    exists prs. split; [done |]. split; [lia |].
    intros j.
    replace (Z.to_nat (other_pages_count_of resume) - 1)%nat with 0%nat by lia.
    destruct (decide (j < _)%nat); [done |].
    rewrite decide_False by lia. f_equal. lia.
Qed.

(** Step 7, slide by slide. *)
Lemma fill_project_pages_lookup (resume : Resume)
    (first project_pages project_pages_count : Z) (n : nat) :
  0 <= first ->
  forall (prs : Deck) (j : nat),
    foldl (fill_project_page resume first project_pages project_pages_count)
      prs (Py.range (Z.of_nat n)) !! j
    = if decide (Z.to_nat first <= j < Z.to_nat first + n)%nat
      then _fill_project_slide_paginated resume
             (Z.of_nat (j - Z.to_nat first)) project_pages project_pages_count
             <$> prs !! j
      else prs !! j.
Proof.
  intros Hfirst. induction n as [| n IH]; intros prs j.
  - change (Py.range (Z.of_nat 0)) with (@nil Z). cbn [foldl].
    by rewrite decide_False by lia.
  - rewrite range_snoc, foldl_app. cbn [foldl]. unfold fill_project_page at 1.
    set (prs' := foldl _ prs (Py.range (Z.of_nat n))).
    assert (length prs' = length prs) as Hlen
      by apply fill_project_pages_length.
    assert (forall i, prs' !! i = _) as Hlook by (intros i; apply IH).
    clearbody prs'.
    replace (Z.to_nat (first + Z.of_nat n)) with (Z.to_nat first + n)%nat by lia.
    destruct (decide (j = Z.to_nat first + n)%nat) as [-> | Hne].
    + rewrite decide_True by lia.
      replace (Z.to_nat first + n - Z.to_nat first)%nat with n by lia.
      destruct (Z.ltb_spec (first + Z.of_nat n) (Py.len prs')) as [Hin | Hout].
      * rewrite list_lookup_alter_eq, Hlook. by rewrite decide_False by lia.
      * rewrite Hlook, decide_False by lia.
        rewrite (lookup_ge_None_2 prs) by (unfold Py.len in *; lia). done.
    + assert ((if first + Z.of_nat n <? Py.len prs'
               then alter (_fill_project_slide_paginated resume (Z.of_nat n)
                             project_pages project_pages_count)
                      (Z.to_nat first + n)%nat prs'
               else prs') !! j = prs' !! j) as ->.
      { destruct (_ <? _); [| done]. by rewrite list_lookup_alter_ne by lia. }
      rewrite Hlook.
      destruct (decide (Z.to_nat first <= j < Z.to_nat first + n)%nat).
      * by rewrite decide_True by lia.
      * by rewrite decide_False by lia.
Qed.

Ltac settle_decides := repeat (case_decide; try lia).
Ltac same_slide := first [done | do 2 f_equal; lia | f_equal; lia].

Lemma alter_if_lookup {A} (f : A -> A) (i : Z) (l : list A) (j : nat) :
  (if i <? Py.len l then alter f (Z.to_nat i) l else l) !! j
  = if decide (j = Z.to_nat i) then f <$> l !! j else l !! j.
Proof.
  destruct (Z.ltb_spec i (Py.len l)) as [Hin | Hout].
  - case_decide as Hj; [subst j; apply list_lookup_alter_eq |].
    by apply list_lookup_alter_ne.
  - case_decide as Hj; [| done]. subst j.
    rewrite lookup_ge_None_2 by (unfold Py.len in *; lia). done.
Qed.

Lemma paper_pages_nonneg (n : Z) : 0 <= _calculate_paper_pages n.
Proof.
  unfold _calculate_paper_pages.
  destruct (n =? 0); [done |]. destruct (Z.leb_spec n 8); [done |].
  pose proof (ceil_div_pos (n - 8) 11). lia.
Qed.

(** X8: where a render pass puts every slide.  On a deck with the
    template's seven leading slides, with [P] paper pages, [J] project
    pages and [O] achievements pages planned, the pass succeeds and the
    deck it leaves is: cover and summary untouched, the basic-information
    slide, then the [P] paper pages filled with their windows, then the
    [J] project pages, then the [O] achievements pages, then the closing
    slide, then whatever followed.  Pages past the ones the deck came with
    are copies of the template's slides 4, 5 and 6. *)
Theorem render_pass_layout (prs : Deck) (resume : Resume) (t4 t5 t6 : Slide) :
  (7 <= length prs)%nat ->
  template !! 4%nat = Some t4 ->
  template !! 5%nat = Some t5 ->
  template !! 6%nat = Some t6 ->
  exists deck : Deck,
    _render_single_resume prs resume = Py.Ok deck
    /\ (length deck + 4
        = length prs + Z.to_nat (paper_pages_of resume)
          + Z.to_nat (project_pages_count_of resume)
          + Z.to_nat (other_pages_count_of resume))%nat
    /\ deck !! 0%nat = prs !! 0%nat
    /\ deck !! 1%nat = prs !! 1%nat
    /\ deck !! 2%nat = _fill_basic_info_slide resume <$> prs !! 2%nat
    /\ (forall k : nat,
          (k < Z.to_nat (paper_pages_of resume))%nat ->
          deck !! (3 + k)%nat
          = _fill_paper_slide resume
              (paper_window (extract_paper_items (r_papers resume)) k)
              (Z.of_nat k + 1) (paper_pages_of resume)
              <$> (if decide (k < 2)%nat then prs !! (3 + k)%nat
                   else Some (copied_slide t4)))
    /\ (forall k : nat,
          (k < Z.to_nat (project_pages_count_of resume))%nat ->
          deck !! (3 + Z.to_nat (paper_pages_of resume) + k)%nat
          = _fill_project_slide_paginated resume (Z.of_nat k)
              (_calculate_project_pages (r_projects resume) (r_awards resume)
                 (other_of resume))
              (project_pages_count_of resume)
              <$> (if decide (k = 0)%nat then prs !! 5%nat
                   else Some (copied_slide t5)))
    /\ (forall k : nat,
          (k < Z.to_nat (other_pages_count_of resume))%nat ->
          deck !! (3 + Z.to_nat (paper_pages_of resume)
                   + Z.to_nat (project_pages_count_of resume) + k)%nat
          = _fill_project_slide_paginated resume
              (project_pages_count_of resume + Z.of_nat k)
              (_calculate_project_pages (r_projects resume) (r_awards resume)
                 (other_of resume))
              (project_pages_count_of resume)
              <$> (if decide (k = 0)%nat then prs !! 6%nat
                   else Some (copied_slide t6)))
    /\ deck !! (3 + Z.to_nat (paper_pages_of resume)
                + Z.to_nat (project_pages_count_of resume)
                + Z.to_nat (other_pages_count_of resume))%nat
       = _fill_talent_office_slide resume <$> prs !! 7%nat
    /\ (forall i : nat,
          deck !! (4 + Z.to_nat (paper_pages_of resume)
                   + Z.to_nat (project_pages_count_of resume)
                   + Z.to_nat (other_pages_count_of resume) + i)%nat
          = prs !! (8 + i)%nat).
Proof.
  intros Hprs Ht4 Ht5 Ht6.
  assert (1 <= other_pages_count_of resume) as Hother.
  { rewrite other_pages_count_planned. apply planned_other_pages_pos. }
  assert (1 <= project_pages_count_of resume) as Hproj.
  { rewrite project_pages_count_agrees. apply planned_project_pages_pos. }
  pose proof (paper_pages_nonneg (Py.len (extract_paper_items (r_papers resume))))
    as Hpaper.
  unfold _render_single_resume. cbv zeta.
  change (_calculate_project_pages (r_projects resume) (r_awards resume)
            (other_of resume) - project_pages_count_of resume)
    with (other_pages_count_of resume).
  fold (paper_pages_of resume) in *.
  set (total := _calculate_project_pages (r_projects resume) (r_awards resume)
                  (other_of resume)).
  assert (total = project_pages_count_of resume + other_pages_count_of resume)
    as Htotal by (unfold other_pages_count_of; fold total; lia).
  set (items := extract_paper_items (r_papers resume)).
  set (P := Z.to_nat (paper_pages_of resume)).
  set (J := Z.to_nat (project_pages_count_of resume)).
  set (O := Z.to_nat (other_pages_count_of resume)).
  assert (paper_pages_of resume = Z.of_nat P) as HP by lia.
  assert (project_pages_count_of resume = Z.of_nat J) as HJ by lia.
  assert (other_pages_count_of resume = Z.of_nat O) as HO by lia.
  assert (1 <= J)%nat as HJ1 by lia. assert (1 <= O)%nat as HO1 by lia.
  (* step 3 *)
  pose proof (alter_if_lookup (_fill_basic_info_slide resume) 2 prs) as Hlk0.
  set (prs0 := if 2 <? Py.len prs then _ else prs) in *.
  assert (length prs0 = length prs) as Hlen0.
  { unfold prs0. destruct (_ <? _); [apply length_alter | done]. }
  clearbody prs0. change (Z.to_nat 2) with 2%nat in Hlk0.
  (* step 4 *)
  destruct (reconcile_paper_lookup prs0 (paper_pages_of resume) t4)
    as (prs1 & Hok1 & Hlen1 & Hlk1); [lia | lia | done |].
  rewrite Hok1. cbn [mbind result_bind Py.bind]. fold P in Hlen1, Hlk1.
  (* step 5 *)
  destruct (fill_paper_slides_lookup prs1 resume items (paper_pages_of resume))
    as [Hlen2 Hlk2]; [lia | unfold Py.len; lia |].
  fold P in Hlk2.
  set (prs2 := fill_paper_slides prs1 resume items (paper_pages_of resume)) in *.
  clearbody prs2.
  (* step 6.1 *)
  destruct (reconcile_project_lookup prs2 (paper_pages_of resume)
              (project_pages_count_of resume) t5)
    as (prs3 & Hok3 & Hlen3 & Hlk3); [lia | lia | fold P; lia | done |].
  rewrite Hok3. cbn [mbind result_bind Py.bind]. fold P J in Hlen3, Hlk3.
  (* step 6.2 *)
  destruct (reconcile_other_lookup prs3 (paper_pages_of resume) resume t6)
    as (prs4 & Hok4 & Hlen4 & Hlk4); [lia | fold P J; lia | done |].
  rewrite Hok4. cbn [mbind result_bind Py.bind]. fold P J O in Hlen4, Hlk4.
  (* step 7 *)
  assert (total = Z.of_nat (J + O)) as Htotal' by lia.
  pose proof (fill_project_pages_lookup resume (3 + paper_pages_of resume)
                total (project_pages_count_of resume) (J + O)
                ltac:(lia) prs4) as Hlk5.
  rewrite <- Htotal' in Hlk5.
  replace (Z.to_nat (3 + paper_pages_of resume)) with (3 + P)%nat in Hlk5 by lia.
  pose proof (fill_project_pages_length resume (3 + paper_pages_of resume)
                total (project_pages_count_of resume) (Py.range total) prs4)
    as Hlen5.
  set (prs5 := foldl _ prs4 (Py.range total)) in *. clearbody prs5.
  (* step 8 *)
  set (deck := if 3 + paper_pages_of resume + total <? Py.len prs5 then _ else prs5).
  assert (forall j : nat,
            deck !! j
            = if decide (j = (3 + P + J + O)%nat)
              then _fill_talent_office_slide resume <$> prs5 !! j
              else prs5 !! j) as Hlk6.
  { intros j. unfold deck. rewrite alter_if_lookup.
    by replace (Z.to_nat (3 + paper_pages_of resume + total))
         with (3 + P + J + O)%nat by lia. }
  assert (length deck = length prs5) as Hlen6.
  { unfold deck. destruct (_ <? _); [apply length_alter | done]. }
  clearbody deck.
  exists deck. split; [reflexivity |].
  split; [lia |].
  assert (forall j : nat, (j < 3)%nat ->
            deck !! j = if decide (j = 2%nat)
                        then _fill_basic_info_slide resume <$> prs !! j
                        else prs !! j) as Hhead.
  { intros j Hj. rewrite Hlk6, Hlk5, Hlk4, Hlk3, Hlk2, Hlk1, Hlk0.
    settle_decides; done. }
  split; [by rewrite Hhead by lia |].
  split; [by rewrite Hhead by lia |].
  split; [by rewrite Hhead by lia |].
  split.
  { intros k Hk. rewrite Hlk6, Hlk5, Hlk4, Hlk3, Hlk2.
    replace (3 + k - 3)%nat with k by lia.
    rewrite Hlk1, Hlk0. settle_decides; done. }
  split.
  { intros k Hk. rewrite Hlk6, Hlk5.
    replace (3 + P + k - (3 + P))%nat with k by lia.
    rewrite Hlk4, Hlk3. settle_decides.
    all: rewrite ?Hlk2, ?Hlk1, ?Hlk0. all: settle_decides. all: same_slide. }
  split.
  { intros k Hk. rewrite Hlk6, Hlk5.
    replace (Z.of_nat (3 + P + J + k - (3 + P)))
      with (project_pages_count_of resume + Z.of_nat k) by lia.
    rewrite Hlk4. settle_decides.
    all: rewrite ?Hlk3. all: settle_decides.
    all: rewrite ?Hlk2, ?Hlk1, ?Hlk0. all: settle_decides. all: same_slide. }
  split.
  { rewrite Hlk6, Hlk5, Hlk4. settle_decides.
    rewrite Hlk3. settle_decides.
    rewrite Hlk2, Hlk1. settle_decides.
    rewrite Hlk0. settle_decides. same_slide. }
  intros i. rewrite Hlk6, Hlk5, Hlk4. settle_decides.
  rewrite Hlk3. settle_decides.
  rewrite Hlk2, Hlk1. settle_decides.
  rewrite Hlk0. settle_decides. same_slide.
Qed.

(** *** Success, failure and size of a render *)

(** A pass on a deck with the two paper slides succeeds when the template
    has its seven leading slides, and changes the number of slides by what
    the three sections need beyond the four slides they come with. *)
Lemma render_pass_length (prs : Deck) (resume : Resume) :
  (7 <= length template)%nat ->
  (5 <= length prs)%nat ->
  exists deck : Deck,
    _render_single_resume prs resume = Py.Ok deck
    /\ (length deck + 4 = length prs + section_pages resume)%nat
    /\ (2 <= section_pages resume)%nat.
Proof.
  intros Htpl Hprs. unfold section_pages.
  rewrite <- project_pages_count_agrees, <- other_pages_count_planned.
  assert (1 <= other_pages_count_of resume) as Hother.
  { rewrite other_pages_count_planned. apply planned_other_pages_pos. }
  assert (1 <= project_pages_count_of resume) as Hproj.
  { rewrite project_pages_count_agrees. apply planned_project_pages_pos. }
  pose proof (paper_pages_nonneg (Py.len (extract_paper_items (r_papers resume))))
    as Hpaper.
  destruct (lookup_lt_is_Some_2 template 4) as [t4 Ht4]; [lia |].
  unfold _render_single_resume. cbv zeta.
  change (_calculate_project_pages (r_projects resume) (r_awards resume)
            (other_of resume) - project_pages_count_of resume)
    with (other_pages_count_of resume).
  fold (paper_pages_of resume) in *.
  set (prs0 := if 2 <? Py.len prs then _ else prs).
  assert (length prs0 = length prs) as Hlen0.
  { unfold prs0. destruct (_ <? _); [apply length_alter | done]. }
  clearbody prs0.
  destruct (reconcile_paper_lookup prs0 (paper_pages_of resume) t4)
    as (prs1 & Hok1 & Hlen1 & _); [lia | lia | done |].
  rewrite Hok1. cbn [mbind result_bind Py.bind].
  destruct (fill_paper_slides_lookup prs1 resume
              (extract_paper_items (r_papers resume)) (paper_pages_of resume))
    as [Hlen2 _]; [lia | unfold Py.len; lia |].
  set (prs2 := fill_paper_slides prs1 resume _ _) in *. clearbody prs2.
  destruct (reconcile_project_slides_ok prs2 (paper_pages_of resume)
              (project_pages_count_of resume))
    as (prs3 & Hok3 & Hlen3 & _); [lia | lia |].
  rewrite Hok3. cbn [mbind result_bind Py.bind].
  destruct (reconcile_other_slides_ok prs3 (paper_pages_of resume) resume)
    as (prs4 & Hok4 & Hlen4 & _); [lia | lia |].
  rewrite Hok4. cbn [mbind result_bind Py.bind].
  eexists. split; [reflexivity |]. split; [| lia].
  destruct (_ <? _); rewrite ?length_alter, fill_project_pages_length; lia.
Qed.

Lemma slides_to_copy_from_third (temp_prs : Deck) :
  slides_to_copy temp_prs = drop 2 temp_prs.
Proof.
  unfold slides_to_copy.
  assert (Py.len temp_prs = Z.of_nat (length temp_prs)) as Hd by reflexivity.
  destruct (Z.ltb_spec 7 (Py.len temp_prs)) as [Hlong | Hshort].
  - rewrite !slice_nonneg by lia. rewrite Z.min_l by lia.
    change (Z.to_nat 7 - Z.to_nat 2)%nat with 5%nat.
    change (Z.to_nat 2) with 2%nat. change (Z.to_nat 7) with 7%nat.
    rewrite (take_ge (drop 7 temp_prs)) by (rewrite length_drop; lia).
    rewrite <- (take_drop 5 (drop 2 temp_prs)) at 2. by rewrite drop_drop.
  - rewrite app_nil_r, slice_nonneg by lia. rewrite Z.min_r by lia.
    change (Z.to_nat 2) with 2%nat.
    apply take_ge. rewrite length_drop. lia.
Qed.

(** The slides the three sections of a subject take in a rendered deck. *)
Lemma render_rest_length (resumes : list Resume) :
  (7 <= length template)%nat ->
  forall final_prs : Deck,
    exists deck : Deck,
      render_rest final_prs resumes = Py.Ok deck
      /\ (length deck + 6 * length resumes
          = length final_prs + length resumes * length template
            + sum_list (section_pages <$> resumes))%nat.
Proof.
  intros Htpl. induction resumes as [| resume resumes IH]; intros final_prs.
  - exists final_prs. split; [done |]. cbn. lia.
  - cbn [render_rest]. unfold render_next.
    destruct (render_pass_length template resume Htpl)
      as (temp & Hok & Hlen & Hmin); [lia |].
    rewrite Hok. cbn [mbind result_bind Py.bind].
    rewrite slides_to_copy_from_third, copy_slides_fold.
    destruct (IH (final_prs ++ (copied_slide <$> drop 2 temp)))
      as (deck & Hrest & Hdeck).
    exists deck. split; [done |].
    rewrite length_app, length_fmap, length_drop in Hdeck.
    assert (sum_list (section_pages <$> resume :: resumes)
            = (section_pages resume + sum_list (section_pages <$> resumes))%nat)
      as -> by reflexivity.
    cbn [length].
    rewrite (Nat.mul_succ_l (length resumes) (length template)). lia.
Qed.

(** X9: extra paper pages are cloned from slide 4 of the template.  With a
    template of fewer than five slides, a subject with more than 19 papers
    makes the pass raise [IndexError], and [render_all] then saves no
    file. *)
Theorem short_template_fails_on_many_papers (prs : Deck) (resume : Resume) :
  (length template < 5)%nat ->
  19 < Py.len (extract_paper_items (r_papers resume)) ->
  _render_single_resume prs resume = Py.Raise Py.IndexError
  /\ forall (files : Files) (rest : list Resume),
       render_all files (resume :: rest) = (files, Py.Raise Py.IndexError).
Proof.
  intros Htpl Hmany.
  assert (forall d : Deck, _render_single_resume d resume = Py.Raise Py.IndexError)
    as Hfail.
  { intros d. unfold _render_single_resume. cbv zeta.
    set (n := Py.len (extract_paper_items (r_papers resume))) in *.
    assert (3 <= _calculate_paper_pages n) as Hpages.
    { unfold _calculate_paper_pages.
      destruct (Z.eqb_spec n 0); [lia |]. destruct (Z.leb_spec n 8); [lia |].
      pose proof (ceil_div_bounds (n - 8) 11 eq_refl). cbv zeta. lia. }
    unfold reconcile_paper_slides.
    destruct (Z.eqb_spec (_calculate_paper_pages n) 0); [lia |].
    destruct (Z.eqb_spec (_calculate_paper_pages n) 1); [lia |].
    destruct (Z.ltb_spec 2 (_calculate_paper_pages n)); [| lia].
    cbv zeta.
    destruct (Z.to_nat (_calculate_paper_pages n - 2)) as [| extra] eqn:Hextra;
      [lia |].
    cbn [insert_template_copies]. unfold Py.item.
    by rewrite (lookup_ge_None_2 template 4) by lia. }
  split; [apply Hfail |].
  intros files rest. unfold render_all, final_slides.
  by rewrite Hfail.
Qed.

(** X10: the slide list [render_all] hands to [save], for a template of at
    least seven slides and subjects whose list fields hold lists, as the
    record type has them.  For a non-empty list of subjects the save call
    is reached, it is the only one and its path is the one returned, and
    the slide list of [final_prs] at that call, whose length the code
    prints as the total, has two slides (cover and summary) plus, per
    subject, the template's slides from the third on with the paper,
    project and achievements sections resized from four slides to what
    the subject needs.  Nothing is said of the package written. *)
Theorem render_all_final_slide_count (files : Files) (first : Resume)
    (rest : list Resume) :
  (7 <= length template)%nat ->
  exists final_prs : Deck,
    final_slides (first :: rest) = Py.Ok final_prs
    /\ render_all files (first :: rest)
       = (output_path (Py.len (first :: rest)) :: files,
          Py.Ok (output_path (Py.len (first :: rest))))
    /\ (length final_prs + 6 * length (first :: rest)
        = 2 + length (first :: rest) * length template
          + sum_list (section_pages <$> first :: rest))%nat.
Proof.
  intros Htpl.
  assert (exists final_prs : Deck,
            final_slides (first :: rest) = Py.Ok final_prs
            /\ (length final_prs + 6 * length (first :: rest)
                = 2 + length (first :: rest) * length template
                  + sum_list (section_pages <$> first :: rest))%nat)
    as (final_prs & Hfinal & Hcount).
  { unfold final_slides. cbv zeta.
    set (cover := _update_cover_page template (Py.len (first :: rest))).
    assert (length cover = length template) as Hcover.
    { unfold cover, _update_cover_page.
      destruct (_ <? _); [apply length_alter | done]. }
    destruct (render_pass_length cover first Htpl)
      as (deck1 & Hok1 & Hlen1 & _); [lia |].
    rewrite Hok1. cbn [mbind result_bind Py.bind].
    destruct (render_rest_length rest Htpl deck1) as (deck & Hrest & Hdeck).
    exists deck. split; [done |].
    assert (sum_list (section_pages <$> first :: rest)
            = (section_pages first + sum_list (section_pages <$> rest))%nat)
      as -> by reflexivity.
    cbn [length].
    rewrite (Nat.mul_succ_l (length rest) (length template)). lia. }
  exists final_prs. split; [done |]. split; [| done].
  unfold render_all. by rewrite Hfinal.
Qed.


(** *** What the fillers never do *)

(** Items the rows cannot take leave no trace. *)
Lemma fill_rows_overflow {A} (write : nat -> A -> Row -> Row) (items : list A)
    (k m : nat) (table : Table) :
  (length table - k <= m)%nat ->
  (fill_rows write k (take m items) table).1 = (fill_rows write k items table).1.
Proof.
  intros Hm. apply list_eq. intros j. rewrite !fill_rows_lookup.
  case_decide as Hj; [| done].
  destruct (table !! j) as [row |] eqn:Hrow; [| done].
  apply lookup_lt_Some in Hrow. by rewrite lookup_take_lt by lia.
Qed.

Lemma clear_table_row_lengths (table : Table) :
  length <$> _clear_table_data table true = length <$> table.
Proof.
  unfold _clear_table_data. rewrite fmap_app, <- list_fmap_compose.
  rewrite <- (take_drop 1 table) at 3. rewrite fmap_app. f_equal.
  apply list_fmap_ext. intros i row _. cbn. apply length_clear_row.
Qed.

(** X11: a filler fed more items than its table has rows below the header
    writes the leading items and drops the rest without a trace: the
    result is that of the call with the list cut to the free rows.  For
    the achievements table the free rows are those the awards leave. *)
Theorem fillers_drop_overflow (table : Table) :
  (forall papers : list PaperItem,
     _fill_paper_table table papers
     = _fill_paper_table table (take (length table - 1) papers))
  /\ (forall projects : list Project,
        _fill_projects_table table projects
        = _fill_projects_table table (take (length table - 1) projects))
  /\ (forall (other : list OtherItem) (awards : list Award) (note : bool),
        _fill_other_achievements_table table other awards note
        = _fill_other_achievements_table table
            (take (length table - 1 - length awards) other) awards note).
Proof.
  split; [| split].
  - intros papers. unfold _fill_paper_table.
    by rewrite fill_rows_overflow by (rewrite clear_table_length; lia).
  - intros projects. unfold _fill_projects_table.
    by rewrite fill_rows_overflow by (rewrite clear_table_length; lia).
  - intros other awards note. rewrite !fill_achievements_unfold.
    rewrite fill_rows_overflow; [done |].
    rewrite fill_rows_length, fill_rows_counter_min, clear_table_length. lia.
Qed.

(** X12: the three fillers keep the shape of the table they are given:
    the number of rows, the number of cells of every row, and the header
    row. *)
Theorem fillers_keep_table_shape (table : Table) :
  (forall papers : list PaperItem,
     length <$> _fill_paper_table table papers = length <$> table
     /\ _fill_paper_table table papers !! 0%nat = table !! 0%nat)
  /\ (forall projects : list Project,
        length <$> _fill_projects_table table projects = length <$> table
        /\ _fill_projects_table table projects !! 0%nat = table !! 0%nat)
  /\ (forall (other : list OtherItem) (awards : list Award) (note : bool),
        length <$> _fill_other_achievements_table table other awards note
        = length <$> table
        /\ _fill_other_achievements_table table other awards note !! 0%nat
           = table !! 0%nat).
Proof.
  split; [| split].
  - intros papers. split; [| apply fill_paper_table_lookup_0].
    unfold _fill_paper_table.
    rewrite fill_rows_row_lengths by apply write_paper_row_length.
    apply clear_table_row_lengths.
  - intros projects. unfold _fill_projects_table. split.
    + rewrite fill_rows_row_lengths by apply write_project_row_length.
      apply clear_table_row_lengths.
    + rewrite fill_rows_lookup, decide_False by lia.
      apply clear_table_lookup_0.
  - intros other awards note. rewrite fill_achievements_unfold. split.
    + rewrite fill_rows_row_lengths by apply write_other_row_length.
      rewrite fill_rows_row_lengths by apply write_award_row_length.
      apply clear_table_row_lengths.
    + pose proof (fill_rows_counter_ge (write_award_row (Py.len awards)) awards
                    1 (_clear_table_data table true)).
      rewrite fill_rows_lookup, decide_False by lia.
      rewrite fill_rows_lookup, decide_False by lia.
      apply clear_table_lookup_0.
Qed.

(** *** Text caps *)

Lemma len_upto_le (s : Py.str) (n : Z) : 0 <= n -> Py.len (Py.upto s n) <= n.
Proof.
  intros Hn. rewrite upto_take by done. unfold Py.len.
  rewrite length_take. lia.
Qed.

Lemma len_hard_cut_le (cap : Z) (s : Py.str) :
  0 <= cap -> Py.len (hard_cut cap s) <= cap.
Proof.
  intros Hcap. unfold hard_cut.
  destruct (Z.ltb_spec cap (Py.len s)); [by apply len_upto_le | done].
Qed.

Lemma row_within_clear (caps : list (option Z)) (row : Row) :
  Forall (fun cap => from_option (fun z => 0 <= z) True cap) caps ->
  row_within caps (clear_row row).
Proof.
  intros Hcaps c cell Hcell. rewrite clear_row_replicate in Hcell.
  apply lookup_replicate in Hcell as [-> _].
  destruct (caps !! c) as [[cap |] |] eqn:Hcap; [| done | done].
  by apply (Forall_lookup_1 _ _ _ _ Hcaps Hcap).
Qed.

Lemma row_within_insert (caps : list (option Z)) (row : Row) (c : nat)
    (cell : Py.str) :
  row_within caps row ->
  from_option (fun cap => from_option (fun z => Py.len cell <= z) True cap)
    (cell = []) (caps !! c) ->
  row_within caps (<[c := cell]> row).
Proof.
  intros Hrow Hcell c' cell' Hc'.
  apply list_lookup_insert_Some in Hc' as [(Hc & Hcell' & _) | (_ & Hc')].
  - subst c' cell'. by destruct (caps !! c) as [[cap |] |].
  - by apply Hrow.
Qed.

Ltac narrow_cap :=
  unfold paper_caps, project_caps, achievement_caps;
  cbn [lookup list_lookup from_option].

Lemma write_paper_row_within (i : nat) (paper : PaperItem) (row : Row) :
  row_within paper_caps row -> row_within paper_caps (write_paper_row i paper row).
Proof.
  intros Hrow. unfold write_paper_row. destruct (5 <=? _); [| done].
  repeat apply row_within_insert; try done; narrow_cap.
  - by apply len_hard_cut_le.
  - by apply len_hard_cut_le.
  - destruct (category paper) as [| c s] eqn:Hcat; [done |].
    cbn [Py.truthy andb Py.or_].
    destruct (Z.ltb_spec 20 (Py.len (c :: s))); [by apply len_upto_le | done].
Qed.

Lemma write_project_row_within (i : nat) (project : Project) (row : Row) :
  row_within project_caps row ->
  row_within project_caps (write_project_row i project row).
Proof.
  intros Hrow. unfold write_project_row. destruct (5 <=? _); [| done].
  cbv zeta.
  repeat apply row_within_insert; try done; narrow_cap;
    by (apply len_hard_cut_le || apply len_upto_le).
Qed.

Lemma write_award_row_within (n : Z) (i : nat) (award : Award) (row : Row) :
  row_within achievement_caps row ->
  row_within achievement_caps (write_award_row n i award row).
Proof.
  intros Hrow. unfold write_award_row. destruct (4 <=? _); [| done].
  repeat apply row_within_insert; try done; narrow_cap.
  - by destruct (i =? 1)%nat.
  - by apply len_hard_cut_le.
Qed.

Lemma write_other_row_within (i : nat) (item : OtherItem) (row : Row) :
  row_within achievement_caps row ->
  row_within achievement_caps (write_other_row i item row).
Proof.
  intros Hrow. unfold write_other_row. destruct (4 <=? _); [| done].
  cbv zeta.
  repeat apply row_within_insert; try done; narrow_cap;
    by (apply len_hard_cut_le || apply len_upto_le).
Qed.

(** A property of rows that every write keeps holds below the header of a
    filled table as soon as it holds for blank rows. *)
Lemma fill_rows_rows_keep {A} (write : nat -> A -> Row -> Row)
    (Q : Row -> Prop) (items : list A) (k : nat) (table : Table) :
  (forall i x row, Q row -> Q (write i x row)) ->
  Forall Q (drop 1 table) ->
  Forall Q (drop 1 (fill_rows write k items table).1).
Proof.
  intros Hw Htable. apply Forall_lookup. intros j row Hrow.
  rewrite lookup_drop, fill_rows_lookup in Hrow.
  assert (forall row0, table !! (1 + j)%nat = Some row0 -> Q row0) as Hq.
  { intros row0 Hrow0. apply (Forall_lookup_1 _ _ j _ Htable).
    by rewrite lookup_drop. }
  destruct (table !! (1 + j)%nat) as [row0 |] eqn:Hrow0.
  - specialize (Hq row0 eq_refl). case_decide; [| by simplify_eq].
    cbn in Hrow. simplify_eq.
    destruct (items !! _); cbn; [by apply Hw | done].
  - case_decide; by simplify_eq.
Qed.

Lemma clear_table_rows_within (caps : list (option Z)) (table : Table) :
  Forall (fun cap => from_option (fun z => 0 <= z) True cap) caps ->
  Forall (row_within caps) (drop 1 (_clear_table_data table true)).
Proof.
  intros Hcaps. apply Forall_lookup. intros j row Hrow.
  rewrite lookup_drop in Hrow. change (1 + j)%nat with (S j) in Hrow.
  rewrite clear_table_lookup_S in Hrow.
  destruct (table !! S j) as [row0 |]; [| done]. cbn in Hrow. simplify_eq.
  by apply row_within_clear.
Qed.

(** X13: below the header, every cell of a filled table respects the cap
    of its column, whatever the table held and whatever the items are.
    Paper table: journal 60, title 80, count 1, a blank cell, category 20.
    Project table: category 30, names 100, years 30, note 50.
    Achievements table: category 20, names 80.  A cell beyond the columns
    a filler writes is blank. *)
Theorem filled_cells_within_caps (table : Table) :
  (forall papers : list PaperItem,
     Forall (row_within paper_caps) (drop 1 (_fill_paper_table table papers)))
  /\ (forall projects : list Project,
        Forall (row_within project_caps)
          (drop 1 (_fill_projects_table table projects)))
  /\ (forall (other : list OtherItem) (awards : list Award) (note : bool),
        Forall (row_within achievement_caps)
          (drop 1 (_fill_other_achievements_table table other awards note))).
Proof.
  assert (forall caps : list (option Z),
            Forall (fun cap => from_option (fun z => 0 <= z) True cap) caps ->
            Forall (row_within caps) (drop 1 (_clear_table_data table true)))
    as Hclear by (intros caps; apply clear_table_rows_within).
  split; [| split].
  - intros papers. unfold _fill_paper_table.
    apply fill_rows_rows_keep; [apply write_paper_row_within |].
    apply Hclear. repeat constructor; cbn; lia.
  - intros projects. unfold _fill_projects_table.
    apply fill_rows_rows_keep; [apply write_project_row_within |].
    apply Hclear. repeat constructor; cbn; lia.
  - intros other awards note. rewrite fill_achievements_unfold.
    apply fill_rows_rows_keep; [apply write_other_row_within |].
    apply fill_rows_rows_keep; [apply write_award_row_within |].
    apply Hclear. repeat constructor; cbn; lia.
Qed.

(** *** Year tokens and item fields of the extractor *)

Lemma replace1_elem (c old : N) (new s : Py.str) :
  c ∈ Py.replace1 old new s -> c ∈ new \/ (c ∈ s /\ c <> old).
Proof.
  unfold Py.replace1. induction s as [| a s IH]; cbn [map concat].
  - intros Hc. by apply elem_of_nil in Hc.
  - rewrite elem_of_app. intros [Hc | Hc].
    + destruct (N.eqb_spec a old) as [-> | Hne]; [by left |].
      apply list_elem_of_singleton in Hc as ->. right. split; [left | done].
    + destruct (IH Hc) as [Hnew | [Hs Hne]]; [by left |].
      right. split; [by right | done].
Qed.

Lemma split_elem (sep : N) (s : Py.str) :
  forall w : Py.str, w ∈ Py.split sep s ->
    forall c : N, c ∈ w -> c ∈ s /\ c <> sep.
Proof.
  induction s as [| a s IH]; intros w Hw c Hc; cbn [Py.split] in Hw.
  - apply list_elem_of_singleton in Hw as ->. by apply elem_of_nil in Hc.
  - destruct (N.eqb_spec a sep) as [-> | Hne].
    + apply elem_of_cons in Hw as [-> | Hw]; [by apply elem_of_nil in Hc |].
      destruct (IH w Hw c Hc) as [Hs Hsep]. split; [by right | done].
    + destruct (Py.split sep s) as [| w0 ws] eqn:Hsplit.
      * apply list_elem_of_singleton in Hw as ->.
        apply list_elem_of_singleton in Hc as ->. split; [left | done].
      * apply elem_of_cons in Hw as [-> | Hw].
        -- apply elem_of_cons in Hc as [-> | Hc]; [split; [left | done] |].
           destruct (IH w0 ltac:(left) c Hc) as [Hs Hsep].
           split; [by right | done].
        -- destruct (IH w ltac:(by right) c Hc) as [Hs Hsep].
           split; [by right | done].
Qed.

Lemma lstrip_elem (c : N) (s : Py.str) : c ∈ Py.lstrip s -> c ∈ s.
Proof.
  induction s as [| a s IH]; cbn [Py.lstrip]; [done |].
  destruct (Py.isspace a); [| done]. intros Hc. right. by apply IH.
Qed.

Lemma elem_of_rev (c : N) (s : Py.str) : c ∈ rev s <-> c ∈ s.
Proof. rewrite !list_elem_of_In. symmetry. apply in_rev. Qed.

Lemma strip_elem (c : N) (s : Py.str) : c ∈ Py.strip s -> c ∈ s.
Proof.
  unfold Py.strip. rewrite elem_of_rev. intros Hc.
  apply lstrip_elem in Hc. rewrite elem_of_rev in Hc. by apply lstrip_elem.
Qed.

Lemma lstrip_head (s : Py.str) (c : N) :
  head (Py.lstrip s) = Some c -> Py.isspace c = false.
Proof.
  induction s as [| a s IH]; cbn [Py.lstrip]; [done |].
  destruct (Py.isspace a) eqn:Ha; [done |]. cbn. intros Hc. by simplify_eq.
Qed.

Lemma lstrip_snoc (m : Py.str) (c : N) :
  Py.isspace c = false -> exists m' : Py.str, Py.lstrip (m ++ [c]) = m' ++ [c].
Proof.
  intros Hc. induction m as [| a m IH]; cbn [app Py.lstrip].
  - exists []. by rewrite Hc.
  - destruct (Py.isspace a); [done |]. by exists (a :: m).
Qed.

Lemma strip_head (s : Py.str) (c : N) :
  head (Py.strip s) = Some c -> Py.isspace c = false.
Proof.
  unfold Py.strip. destruct (Py.lstrip s) as [| a t] eqn:Hs; [done |].
  assert (Py.isspace a = false) as Ha by (apply (lstrip_head s); by rewrite Hs).
  cbn [rev]. destruct (lstrip_snoc (rev t) a Ha) as [m' ->].
  rewrite rev_unit. cbn. intros Hc. by simplify_eq.
Qed.

Lemma strip_last (s : Py.str) (c : N) :
  last (Py.strip s) = Some c -> Py.isspace c = false.
Proof.
  unfold Py.strip.
  destruct (Py.lstrip (rev (Py.lstrip s))) as [| a t] eqn:Hs; [done |].
  cbn [rev]. rewrite last_snoc. intros Hc. simplify_eq.
  apply (lstrip_head (rev (Py.lstrip s))). by rewrite Hs.
Qed.

Lemma year_list_elem (years y : Py.str) :
  y ∈ year_list_of years ->
  y <> []
  /\ exists w : Py.str,
       y = Py.strip w
       /\ w ∈ Py.split ch_comma (Py.replace1 ch_enum_comma [ch_comma] years).
Proof.
  unfold year_list_of. rewrite list_elem_of_In, filter_In, in_map_iff.
  intros [(w & <- & Hw) Htruthy]. split.
  - intros Hnil. by rewrite Hnil in Htruthy.
  - exists w. split; [done |]. by apply list_elem_of_In.
Qed.

Lemma year_for_nonempty (year_list : list Py.str) (i : nat) :
  Forall (fun y => y <> []) year_list -> year_for year_list i <> [].
Proof.
  intros Hall. unfold year_for.
  destruct (year_list !! i) as [y |] eqn:Hy.
  - by apply (Forall_lookup_1 _ _ _ _ Hall Hy).
  - destruct year_list as [| y0 ys]; [done |].
    by apply (Forall_inv Hall).
Qed.

Lemma year_list_nonempty (years : Py.str) :
  Forall (fun y => y <> []) (year_list_of years).
Proof.
  apply Forall_forall. intros y Hy. by apply year_list_elem in Hy as [Hne _].
Qed.

(** X14: the year tokens of a group.  Whatever the year field holds, every
    token of the list the extractor builds from it is non-empty, holds
    neither "," nor "、", and neither starts nor ends with a whitespace
    character. *)
Theorem year_tokens_are_clean (years : Py.str) :
  Forall (fun y : Py.str =>
            y <> []
            /\ (ch_comma ∉ y)
            /\ (ch_enum_comma ∉ y)
            /\ from_option (fun c => Py.isspace c = false) True (head y)
            /\ from_option (fun c => Py.isspace c = false) True (last y))
    (year_list_of years).
Proof.
  apply Forall_forall. intros y Hy.
  apply year_list_elem in Hy as (Hne & w & -> & Hw).
  assert (forall c : N, c ∈ Py.strip w -> c <> ch_comma /\ c <> ch_enum_comma)
    as Hchars.
  { intros c Hc. apply strip_elem in Hc.
    destruct (split_elem _ _ w Hw c Hc) as [Hin Hsep]. split; [done |].
    apply replace1_elem in Hin as [Hin | [_ Hin]]; [| done].
    apply list_elem_of_singleton in Hin as ->. done. }
  split; [done |]. split; [| split; [| split]].
  - intros Hc. by destruct (Hchars _ Hc).
  - intros Hc. by destruct (Hchars _ Hc).
  - destruct (head (Py.strip w)) as [c |] eqn:Hc; [| done].
    by apply (strip_head w).
  - destruct (last (Py.strip w)) as [c |] eqn:Hc; [| done].
    by apply (strip_last w).
Qed.

Lemma extract_groups_Forall (Q : PaperItem -> Prop) (papers : list PaperGroup) :
  (forall (start : Z) (t journal category : Py.str) (years : Py.str) (i : nat),
     Q (PaperItem_init start t
          (Py.replace1 ch_rquote [] (Py.replace1 ch_lquote [] journal))
          (Py.or_ category s_dash) (year_for (year_list_of years) i)
          s_pending)) ->
  forall (items : list PaperItem) (start : Z),
    Forall Q items -> Forall Q (foldl extract_group (items, start) papers).1.
Proof.
  intros Hq. induction papers as [| g papers IH]; intros items start Hitems;
    [done |].
  cbn [foldl]. rewrite extract_group_spec. apply IH.
  apply Forall_app. split; [done |].
  apply Forall_lookup. intros i p Hp.
  rewrite list_lookup_imap in Hp.
  destruct (pg_titles g !! i) as [t |]; [| done]. cbn in Hp. simplify_eq.
  apply Hq.
Qed.

(** X15: the fields of every extracted item, whatever the groups hold: the
    category and the year are never empty ("-" stands in for a missing
    one), the journal holds neither "《" nor "》", and the first-author
    field is always "待确认". *)
Theorem extracted_items_fields (papers : list PaperGroup) :
  Forall (fun p : PaperItem =>
            category p <> []
            /\ year p <> []
            /\ (ch_lquote ∉ journal p)
            /\ (ch_rquote ∉ journal p)
            /\ is_first_author p = s_pending)
    (extract_paper_items papers).
Proof.
  unfold extract_paper_items. apply extract_groups_Forall; [| constructor].
  intros start t j0 c0 years i.
  unfold PaperItem_init. cbn [category year journal is_first_author].
  split; [| split; [| split; [| split]]].
  - unfold Py.or_. destruct c0; cbn; done.
  - apply year_for_nonempty, year_list_nonempty.
  - intros Hc. apply replace1_elem in Hc as [Hc | [Hc _]];
      [by apply elem_of_nil in Hc |].
    apply replace1_elem in Hc as [Hc | [_ Hc]]; [by apply elem_of_nil in Hc |].
    done.
  - intros Hc. apply replace1_elem in Hc as [Hc | [_ Hc]];
      [by apply elem_of_nil in Hc | done].
  - done.
Qed.

(** *** The generated table in closed form *)

Lemma len_cut_with_dots_le (cap : Z) (s : Py.str) :
  3 <= cap -> Py.len (cut_with_dots cap s) <= cap.
Proof.
  intros Hcap. unfold cut_with_dots.
  destruct (Z.ltb_spec cap (Py.len s)); [| done].
  pose proof (len_upto_le s (cap - 3) ltac:(lia)) as Hcut.
  unfold Py.len in *. rewrite length_app. cbn [length s_ellipsis3]. lia.
Qed.

(** X16: the table [_create_papers_table] builds is the row of the six
    column names followed by one row per paper, in the order of the
    papers: number, title, journal, category, year, first-author field.
    The title cell never exceeds 80 characters and the journal cell never
    exceeds 40, the three dots of a cut text included. *)
Theorem created_table_rows (papers : list PaperItem) :
  _create_papers_table papers = TABLE_COLUMNS :: (papers_table_row <$> papers)
  /\ Forall (fun row : Row =>
               from_option (fun cell => Py.len cell <= 80) True (row !! 1%nat)
               /\ from_option (fun cell => Py.len cell <= 40) True (row !! 2%nat))
       (drop 1 (_create_papers_table papers)).
Proof.
  assert (_create_papers_table papers
          = TABLE_COLUMNS :: (papers_table_row <$> papers)) as Hrows.
  { unfold _create_papers_table, Py.enumerate at 2.
    replace (length papers + 1)%nat with (S (length papers)) by lia.
    rewrite create_papers_table_header.
    apply list_eq. intros j. rewrite create_papers_rows_lookup.
    destruct j as [| j]; [by rewrite decide_False by lia |].
    rewrite decide_True by lia. cbn [Nat.sub]. rewrite Nat.sub_0_r.
    rewrite !lookup_cons, list_lookup_fmap.
    destruct (papers !! j) as [paper |] eqn:Hp.
    - rewrite create_papers_row_lookup, decide_True by done.
      rewrite lookup_cons, lookup_replicate_2
        by (apply lookup_lt_Some in Hp; lia).
      reflexivity.
    - apply lookup_ge_None in Hp.
      apply lookup_replicate_None. lia. }
  split; [done |]. rewrite Hrows. cbn [drop].
  apply Forall_fmap, Forall_forall. intros paper _.
  unfold papers_table_row. cbn.
  split; by apply len_cut_with_dots_le.
Qed.

(** *** The education table *)

(** X17: [_fill_education_table] has no clearing loop.  A school whose row
    has at least four cells overwrites the first four and leaves the
    others as they were; the header and every row below the last school
    keep the text they had, so the rows of an earlier, longer fill stay. *)
Theorem education_rows_not_cleared (table : Table) (schools : list School)
    (i : nat) (school : School) (row : Row) :
  schools !! i = Some school ->
  table !! S i = Some row ->
  (4 <= length row)%nat ->
  _fill_education_table table schools !! S i
  = Some ([ sc_time school; sc_school school; sc_major school;
            Py.or_ (sc_degree school) [] ] ++ drop 4 row)
  /\ _fill_education_table table schools !! 0%nat = table !! 0%nat
  /\ drop (S (length schools)) (_fill_education_table table schools)
     = drop (S (length schools)) table.
Proof.
  intros Hschool Hrow Hcells. unfold _fill_education_table.
  split; [| split].
  - rewrite fill_rows_lookup, decide_True by lia.
    replace (S i - 1)%nat with i by lia. rewrite Hrow, Hschool. cbn.
    unfold write_school_row, Py.len.
    destruct (Z.leb_spec 4 (Z.of_nat (length row))); [| lia].
    by destruct row as [| c0 [| c1 [| c2 [| c3 rest]]]]; cbn in Hcells; try lia.
  - by rewrite fill_rows_lookup, decide_False by lia.
  - apply list_eq. intros j. rewrite !lookup_drop, fill_rows_lookup.
    rewrite decide_True by lia.
    rewrite (lookup_ge_None_2 schools) by lia.
    by destruct (table !! (S (length schools) + j)%nat).
Qed.

End Renderer.

(** ** The record normaliser of run.py *)

Ltac find_key :=
  repeat (rewrite lookup_insert_ne by (by vm_compute));
  first [rewrite lookup_insert_eq | rewrite lookup_empty].

(** X18: [format_resume] yields a record with exactly the twelve keys of
    the parser, whatever keys the input has, and formatting a formatted
    record changes nothing. *)
Theorem format_resume_normal_form {V : Type} (truthy : V -> bool)
    (unknown empty_list : V) (resume : gmap Py.str V) :
  (forall key : Py.str,
     is_Some (format_resume truthy unknown empty_list resume !! key)
     <-> key ∈ formatted_keys)
  /\ format_resume truthy unknown empty_list
       (format_resume truthy unknown empty_list resume)
     = format_resume truthy unknown empty_list resume.
Proof.
  split.
  - intros key. split.
    + intros [v Hv]. unfold format_resume in Hv. unfold formatted_keys.
      repeat (apply lookup_insert_Some in Hv as [[<- _] | [_ Hv]];
              [by repeat constructor |]).
      by rewrite lookup_empty in Hv.
    + intros Hkey. unfold formatted_keys in Hkey. unfold format_resume.
      repeat (apply elem_of_cons in Hkey as [-> | Hkey]; [find_key; eauto |]).
      by apply elem_of_nil in Hkey.
  - set (out := format_resume truthy unknown empty_list resume).
    unfold format_resume at 1. unfold dict_get.
    assert (out !! k_age_alt = None) as ->
      by (unfold out, format_resume; find_key; done).
    repeat match goal with
           | |- context [out !! ?k] =>
               let H := fresh in
               eassert (out !! k = _) as H
                 by (unfold out, format_resume; find_key; reflexivity);
               rewrite H; clear H
           end.
    reflexivity.
Qed.

(** ** The properties at sample inputs *)

(** A 3-item window and then a 1-item window on a table of four data rows:
    the rows of the first fill's items 2 and 3 are blank afterwards. *)
Example refill_three_then_one :
  drop 2 (_fill_paper_table (_fill_paper_table (table_of 5 5) three_papers)
            (take 1 three_papers))
  = replicate 3 (replicate 5 []).
Proof. reflexivity. Qed.

(** C1 on the sample template: the 25 papers of [resume_25_papers] give a
    deck of nine slides. *)
Lemma render_25_papers_sample :
  length (extract_paper_items (r_papers resume_25_papers)) = 25%nat
  /\ exists deck : Deck,
       _render_single_resume sample_template (fun _ => keep_texts)
         (fun _ _ _ => keep_texts) (fun _ => keep_texts) keep_texts
         (fun _ => keep_texts) [] sample_template resume_25_papers
       = Py.Ok deck
       /\ length deck = 9%nat.
Proof.
  split; [reflexivity |].
  destruct (render_25_papers_on_three_pages sample_template
              (fun _ => keep_texts) (fun _ _ _ => keep_texts)
              (fun _ => keep_texts) keep_texts (fun _ => keep_texts) []
              sample_template resume_25_papers
              (table_slide 9 5) (table_slide 12 5) (table_slide 12 5)
              (table_of 9 5) (table_of 12 5) (table_of 12 5) [] [] [])
    as (_ & _ & deck & f3 & f4 & f5 & Hok & Hlen & _).
  - reflexivity.
  - cbn. lia.
  - reflexivity.
  - reflexivity.
  - reflexivity.
  - reflexivity.
  - reflexivity.
  - reflexivity.
  - cbn. lia.
  - cbn. lia.
  - cbn. lia.
  - apply Forall_forall. intros row Hrow.
    assert (row = replicate 5 (Py.lit "x")) as ->.
    { rewrite !elem_of_app in Hrow.
      destruct Hrow as [Hrow | [Hrow | Hrow]];
        by apply elem_of_replicate in Hrow as [-> _]. }
    cbn. lia.
  - exists deck. split; [exact Hok |]. rewrite Hlen. reflexivity.
Defined.

(** C2 on the sample of the specification: awards [A1, A2] and other
    achievements [O1, O2, O3] on a seven-row page. *)
Lemma awards_before_other_sample :
  exists filled : Table,
    slide_tables
      (_fill_project_slide_paginated (fun _ => keep_texts) keep_texts
         resume_awards_other 1 2 1 (table_slide 8 4))
    = [filled]
    /\ name_column filled
       = [ Some (Py.lit "A1"); Some (Py.lit "A2"); Some (Py.lit "O1");
           Some (Py.lit "O2"); Some (Py.lit "O3"); Some []; Some [] ].
Proof.
  destruct (awards_before_other_on_one_page (fun _ => keep_texts) keep_texts
              resume_awards_other (table_slide 8 4) (table_of 8 4) [] 4 2 1)
    as (filled & Htables & _ & _ & _ & _ & Hnames).
  - cbn. lia.
  - reflexivity.
  - cbn. lia.
  - lia.
  - apply Forall_forall. intros row Hrow.
    by apply elem_of_replicate in Hrow as [-> _].
  - exists filled. split; [exact Htables | exact Hnames].
Defined.

(** C7 at a title of 81 letters: the filler keeps the first 80, the
    generated table keeps the first 77 and adds three dots. *)
Lemma title_cut_sample :
  _fill_paper_table (table_of 2 5) [paper_title_81] !! 1%nat ≫= (.!! 1%nat)
  = Some (replicate 80 65%N)
  /\ _create_papers_table [paper_title_81] !! 1%nat ≫= (.!! 1%nat)
     = Some (replicate 77 65%N ++ s_ellipsis3).
Proof.
  exact (title_cut_at_cap [paper_title_81] 0 paper_title_81 (table_of 2 5)
           (replicate 5 (Py.lit "x")) eq_refl eq_refl
           (le_n 5)).
Defined.

(** C7 as stated fails on the generated table: a title of 81 characters is
    not cut to its first 80 characters there, it ends in three dots. *)
Lemma created_table_marks_cut_title :
  Py.len (title paper_title_81) = 81
  /\ _create_papers_table [paper_title_81] !! 1%nat ≫= (.!! 1%nat)
     = Some (replicate 77 65%N ++ s_ellipsis3)
  /\ _create_papers_table [paper_title_81] !! 1%nat ≫= (.!! 1%nat)
     <> Some (take 80 (title paper_title_81)).
Proof.
  split; [reflexivity |]. split; [reflexivity |].
  vm_compute. intros Heq. discriminate Heq.
Qed.


(** The two paper pages of the sample template after filling: the deck
    keeps its eight slides. *)
Lemma paper_slides_windows_sample :
  length (fill_paper_slides (fun _ _ _ => keep_texts) sample_template
            resume_25_papers
            (extract_paper_items (r_papers resume_25_papers)) 2)
  = 8%nat.
Proof.
  refine (proj1 (paper_slides_show_their_windows (fun _ _ _ => keep_texts)
                   sample_template resume_25_papers
                   (extract_paper_items (r_papers resume_25_papers)) 2 _ _)).
  - lia.
  - change (3 + 2 <= 8). lia.
Defined.

(** Three paper pages on the sample template: one slide more. *)
Lemma paper_section_resized_sample :
  exists prs' : Deck,
    reconcile_paper_slides sample_template [] sample_template 3 = Py.Ok prs'
    /\ take 3 prs' = take 3 sample_template
    /\ drop 6 prs' = drop 5 sample_template.
Proof.
  destruct (paper_section_resized_in_place sample_template [] sample_template 3)
    as (prs' & Hok & Htake & Hdrop & _).
  - lia.
  - cbn. lia.
  - cbn. lia.
  - exists prs'. split; [exact Hok |]. split; [exact Htake | exact Hdrop].
Defined.

(** The pass on the sample template for the subject with 25 papers: the
    cover stays, the third paper page is a clone of template slide 4. *)
Lemma render_pass_layout_sample :
  exists deck : Deck,
    _render_single_resume sample_template (fun _ => keep_texts)
      (fun _ _ _ => keep_texts) (fun _ => keep_texts) keep_texts
      (fun _ => keep_texts) [] sample_template resume_25_papers
    = Py.Ok deck
    /\ deck !! 0%nat = Some plain_slide
    /\ deck !! 8%nat = Some plain_slide.
Proof.
  destruct (render_pass_layout sample_template (fun _ => keep_texts)
              (fun _ _ _ => keep_texts) (fun _ => keep_texts) keep_texts
              (fun _ => keep_texts) [] sample_template resume_25_papers
              (table_slide 12 5) (table_slide 11 5) (table_slide 8 4))
    as (deck & Hok & _ & H0 & _ & _ & _ & _ & _ & Hlast & _).
  - cbn. lia.
  - reflexivity.
  - reflexivity.
  - reflexivity.
  - exists deck. split; [exact Hok |]. split; [exact H0 | exact Hlast].
Defined.

(** 25 papers and an empty template: the pass raises. *)
Lemma short_template_sample :
  _render_single_resume [] (fun _ => keep_texts) (fun _ _ _ => keep_texts)
    (fun _ => keep_texts) keep_texts (fun _ => keep_texts) []
    sample_template resume_25_papers
  = Py.Raise Py.IndexError.
Proof.
  refine (proj1 (short_template_fails_on_many_papers [] (fun _ => keep_texts)
                   (fun _ => keep_texts) (fun _ _ _ => keep_texts)
                   (fun _ => keep_texts) keep_texts (fun _ => keep_texts) []
                   (fun _ => []) sample_template resume_25_papers _ _)).
  - cbn. lia.
  - reflexivity.
Defined.

(** Two subjects on the sample template: the slide list at the save call
    has 13 slides. *)
Lemma render_all_two_subjects_sample :
  exists final_prs : Deck,
    final_slides sample_template (fun _ => keep_texts) (fun _ => keep_texts)
      (fun _ _ _ => keep_texts) (fun _ => keep_texts) keep_texts
      (fun _ => keep_texts) [] [resume_25_papers; resume_awards_other]
    = Py.Ok final_prs
    /\ length final_prs = 13%nat.
Proof.
  destruct (render_all_final_slide_count sample_template (fun _ => keep_texts)
              (fun _ => keep_texts) (fun _ _ _ => keep_texts)
              (fun _ => keep_texts) keep_texts (fun _ => keep_texts) []
              (fun _ => Py.lit "out.pptx") [] resume_25_papers
              [resume_awards_other])
    as (final_prs & Hok & _ & Hlen).
  - cbn. lia.
  - exists final_prs. split; [exact Hok |].
    change (length final_prs + 12 = 25)%nat in Hlen. lia.
Defined.

(** One school on a table of two data rows that hold "x": the second data
    row keeps its text. *)
Lemma education_rows_sample :
  drop 2 (_fill_education_table (table_of 3 4)
            [mkSchool (Py.lit "2010-2014") (Py.lit "S") (Py.lit "M") []])
  = [replicate 4 (Py.lit "x")].
Proof.
  exact (proj2 (proj2
           (education_rows_not_cleared (table_of 3 4)
              [mkSchool (Py.lit "2010-2014") (Py.lit "S") (Py.lit "M") []]
              0 (mkSchool (Py.lit "2010-2014") (Py.lit "S") (Py.lit "M") [])
              (replicate 4 (Py.lit "x")) eq_refl eq_refl (le_n 4)))).
Defined.
